(* ===================================================================== *)
(* Orchestration layer of the federated training coordinator (TTP):      *)
(* a shallow embedding of rest_rpc/training/core/server.py               *)
(*   connect_to_ttp, connect_to_workers, terminate_connections,          *)
(*   load_selected_run, load_selected_experiment,                        *)
(*   start_expt_run_training (with its inner train_combination),         *)
(*   start_proc                                                          *)
(* and the properties of connection symmetry, lifecycle signalling and   *)
(* combination scheduling that hold (or fail) on it.                     *)
(* ===================================================================== *)

From stdpp Require Import gmap strings list.

Local Open Scope string_scope.

(* --------------------------------------------------------------------- *)
(* Python values and exceptions                                          *)
(* --------------------------------------------------------------------- *)

(** Values stored in the registry documents. *)
#[local] Set Warnings "-register-all".
Inductive pyval : Type :=
| VNone
| VBool (b : bool)
| VInt (z : Z)
| VStr (s : string)
| VList (l : list pyval)
| VDict (d : list (string * pyval)).
#[local] Set Warnings "register-all".

(** The exception classes that occur in the module's control flow. *)
Inductive exn : Type :=
| OSError
| ConnectionRefusedError
| TimeoutError
| KeyError
| NameError
| UnboundLocalError
| AssertionError
| TypeError
| ValueError
| RuntimeError.

(** [except OSError] also catches the subclasses of OSError. *)
Definition isinstance_OSError (e : exn) : bool :=
  match e with
  | OSError | ConnectionRefusedError | TimeoutError => true
  | _ => false
  end.

(** [except NameError] also catches UnboundLocalError. *)
Definition isinstance_NameError (e : exn) : bool :=
  match e with
  | NameError | UnboundLocalError => true
  | _ => false
  end.

(* --------------------------------------------------------------------- *)
(* Registry records                                                      *)
(* --------------------------------------------------------------------- *)

(** [run_record['key']]: the three identifiers of a run. *)
Record run_key : Type := {
  project_id : string;
  expt_id : string;
  run_id : string
}.

(** [expt_record['key']]. *)
Record expt_key : Type := {
  e_project_id : string;
  e_expt_id : string
}.

Record expt_record : Type := {
  expt_key_of : expt_key;
  expt_payload : gmap string pyval
}.

Record run_record : Type := {
  run_key_of : run_key;
  run_payload : gmap string pyval
}.

(** A registration carries the participant's connection payload under
    ['participant']; the other fields are not read by this module. *)
Record reg_record : Type := {
  participant : gmap string pyval;
  reg_payload : gmap string pyval
}.

(** The tuple [(r_project_id, r_expt_id, r_run_id)] used as a dict key. *)
Definition combination_key : Type := (string * string * string)%type.

(** The records seen as the documents handed to [strip_keys]. *)
Definition run_key_doc (k : run_key) : pyval :=
  VDict [("project_id", VStr (project_id k));
         ("expt_id", VStr (expt_id k));
         ("run_id", VStr (run_id k))].

Definition expt_key_doc (k : expt_key) : pyval :=
  VDict [("project_id", VStr (e_project_id k));
         ("expt_id", VStr (e_expt_id k))].

Definition run_doc (r : run_record) : gmap string pyval :=
  <["key" := run_key_doc (run_key_of r)]> (run_payload r).

Definition expt_doc (e : expt_record) : gmap string pyval :=
  <["key" := expt_key_doc (expt_key_of e)]> (expt_payload e).

(* --------------------------------------------------------------------- *)
(* Workers, external calls, observable events                            *)
(* --------------------------------------------------------------------- *)

Inductive worker_class : Type := VirtualWorker | WebsocketClientWorker.

(** A worker object. [oid] is the object's identity (what Python's [is]
    compares); [config] holds the keyword arguments it was built from. *)
Record worker : Type := {
  oid : nat;
  cls : worker_class;
  is_client_worker : bool;
  config : gmap string pyval
}.

(** [a is b] *)
Definition worker_is (a b : worker) : bool := Nat.eqb (oid a) (oid b).

Definition is_websocket (w : worker) : bool :=
  match cls w with WebsocketClientWorker => true | VirtualWorker => false end.

(** Calls into collaborators outside this module (PySyft, the Governor,
    the training engine, the file system). Each of them may raise. *)
Inductive call : Type :=
| New_worker (c : worker_class) (client : bool) (kwargs : gmap string pyval)
| Remove_worker_from_local_worker_registry (w : worker)
| Governor_initialise (dockerised : bool) (keys : run_key) (regs : list reg_record)
| Governor_terminate (dockerised : bool) (keys : run_key) (regs : list reg_record)
| New_Model (structure : pyval)
| New_Arguments (run_params : gmap string pyval)
| New_FederatedLearning (ttp : worker) (workers : list worker)
| FL_load
| FL_fit
| Path_mkdir (res_dir : string)
| FL_export (res_dir : string).

(** What an observer of one process sees, in program order. *)
Inductive event : Type :=
| Constructed (w : worker)
| Returned (c : call)
| Raised (c : call) (e : exn)
| Set_sy_local_worker (w : worker)
| Set_grid_hook_local_worker (w : worker)
| Del (w : worker).

(** The module-level mutable state: the two global references to the
    active identity, the allocator of object identities, and the log of
    observable events. *)
Record world : Type := {
  sy_local_worker : worker;
  grid_hook_local_worker : worker;
  next_oid : nat;
  trace : list event
}.

Definition log_event (ev : event) (s : world) : world :=
  {| sy_local_worker := sy_local_worker s;
     grid_hook_local_worker := grid_hook_local_worker s;
     next_oid := next_oid s;
     trace := trace s ++ [ev] |}.

(* --------------------------------------------------------------------- *)
(* State-and-exception monad                                             *)
(* --------------------------------------------------------------------- *)

Inductive result (A : Type) : Type :=
| Ok (a : A)
| Raise (e : exn).
Arguments Ok {A} a.
Arguments Raise {A} e.

Definition M (A : Type) : Type := world -> result A * world.

Definition ret {A} (a : A) : M A := fun s => (Ok a, s).

Definition raise {A} (e : exn) : M A := fun s => (Raise e, s).

Definition bind {A B} (m : M A) (k : A -> M B) : M B :=
  fun s =>
    match m s with
    | (Ok a, s') => k a s'
    | (Raise e, s') => (Raise e, s')
    end.

Declare Scope py_scope.
Delimit Scope py_scope with py.
Notation "x <- m ;; k" := (bind m (fun x => k))
  (at level 100, m at next level, right associativity) : py_scope.
Notation "m ;;; k" := (bind m (fun _ => k))
  (at level 100, right associativity) : py_scope.
Local Open Scope py_scope.

(** [try: body except <class>: handler] *)
Definition try_except {A} (body : M A) (catches : exn -> bool)
    (handler : exn -> M A) : M A :=
  fun s =>
    match body s with
    | (Ok a, s') => (Ok a, s')
    | (Raise e, s') => if catches e then handler e s' else (Raise e, s')
    end.

(** [assert cond] *)
Definition py_assert (cond : bool) : M unit :=
  if cond then ret tt else raise AssertionError.

(** [d.pop(k)] without a default: KeyError when the key is absent. *)
Definition dict_pop (k : string) (d : gmap string pyval)
    : M (pyval * gmap string pyval) :=
  match d !! k with
  | Some v => ret (v, delete k d)
  | None => raise KeyError
  end.

(** [d[k]] *)
Definition dict_getitem (k : string) (d : gmap string pyval) : M pyval :=
  match d !! k with
  | Some v => ret v
  | None => raise KeyError
  end.

Definition emit (ev : event) : M unit := fun s => (Ok tt, log_event ev s).

Definition get_sy_local_worker : M worker :=
  fun s => (Ok (sy_local_worker s), s).

Definition get_grid_hook_local_worker : M worker :=
  fun s => (Ok (grid_hook_local_worker s), s).

(** [sy.local_worker = w] *)
Definition set_sy_local_worker (w : worker) : M unit :=
  fun s =>
    (Ok tt,
     log_event (Set_sy_local_worker w)
       {| sy_local_worker := w;
          grid_hook_local_worker := grid_hook_local_worker s;
          next_oid := next_oid s;
          trace := trace s |}).

(** [grid_hook.local_worker = w] *)
Definition set_grid_hook_local_worker (w : worker) : M unit :=
  fun s =>
    (Ok tt,
     log_event (Set_grid_hook_local_worker w)
       {| sy_local_worker := sy_local_worker s;
          grid_hook_local_worker := w;
          next_oid := next_oid s;
          trace := trace s |}).

(** [logging.debug / info / error] and [print]: no effect on the state
    that the properties below are about. *)
Definition logging : M unit := ret tt.

(** [del x] for a local name bound to [w], followed by the module's
    check [try: logging.error(f"{x} ...") except NameError: logging.info].
    Reading the unbound name raises UnboundLocalError, which the handler
    catches. *)
Definition del_local (w : worker) : M unit :=
  emit (Del w) ;;;
  try_except (@raise unit UnboundLocalError ;;; logging)
             isinstance_NameError
             (fun _ => logging).

(* --------------------------------------------------------------------- *)
(* Ordered dictionaries keyed by combination                             *)
(* --------------------------------------------------------------------- *)

(** A Python dict keyed by [(project_id, expt_id, run_id)]: iteration
    follows insertion order, and assigning to a key that is present
    replaces its value in place. *)
Fixpoint dict_setitem {V} (k : combination_key) (v : V)
    (d : list (combination_key * V)) : list (combination_key * V) :=
  match d with
  | [] => [(k, v)]
  | (k', v') :: d' =>
      if decide (k = k') then (k, v) :: d'
      else (k', v') :: dict_setitem k v d'
  end.

Definition dict_keys {V} (d : list (combination_key * V))
    : list combination_key := d.*1.

(* --------------------------------------------------------------------- *)
(* os.path.join (POSIX)                                                  *)
(* --------------------------------------------------------------------- *)

Definition sep : Ascii.ascii := Ascii.ascii_of_nat 47.

Definition starts_with_sep (p : string) : bool :=
  match p with
  | String c _ => Ascii.eqb c sep
  | EmptyString => false
  end.

Fixpoint ends_with_sep (p : string) : bool :=
  match p with
  | EmptyString => false
  | String c EmptyString => Ascii.eqb c sep
  | String _ rest => ends_with_sep rest
  end.

Definition path_join2 (path b : string) : string :=
  if starts_with_sep b then b
  else if (String.eqb path EmptyString || ends_with_sep path)%bool
       then path ++ b
  else path ++ "/" ++ b.

Definition os_path_join (a : string) (p : list string) : string :=
  fold_left path_join2 p a.

(** The keyword arguments stored per combination by [start_proc] and
    unpacked into [start_expt_run_training]. *)
Record expt_run_params : Type := {
  p_keys : run_key;
  p_registrations : list reg_record;
  p_experiment : expt_record;
  p_run : run_record;
  p_dockerised : bool;
  p_log_msgs : bool;
  p_verbose : bool
}.

(** The [kwargs] of [start_proc]. *)
Record proc_kwargs : Type := {
  kw_experiments : list expt_record;
  kw_runs : list run_record;
  kw_registrations : list reg_record;
  kw_verbose : bool;
  kw_log_msgs : bool;
  kw_dockerised : bool
}.

Definition key_tuple (k : run_key) : combination_key :=
  (project_id k, expt_id k, run_id k).

(* ===================================================================== *)
(* Observations on the event log                                         *)
(* ===================================================================== *)

(** The worker handles opened: the WebsocketClientWorker objects whose
    construction succeeded, in order. *)
Definition opened (tr : list event) : list worker :=
  omap (fun ev =>
          match ev with
          | Constructed w => if is_websocket w then Some w else None
          | _ => None
          end) tr.

(** Workers on which [remove_worker_from_local_worker_registry] was
    called and returned. *)
Definition registry_removed (tr : list event) : list worker :=
  omap (fun ev =>
          match ev with
          | Returned (Remove_worker_from_local_worker_registry w) => Some w
          | _ => None
          end) tr.

(** Workers whose reference was released with [del]. *)
Definition released (tr : list event) : list worker :=
  omap (fun ev => match ev with Del w => Some w | _ => None end) tr.

Definition worker_in (w : worker) (l : list worker) : bool :=
  existsb (worker_is w) l.

(** The worker handles torn down: removed from the registry and
    released. *)
Definition torn_down (tr : list event) : list worker :=
  filter (fun w => is_websocket w && worker_in w (released tr) = true)
         (registry_removed tr).

Definition is_terminate_signal (ev : event) : bool :=
  match ev with
  | Returned (Governor_terminate _ _ _) => true
  | Raised (Governor_terminate _ _ _) _ => true
  | _ => false
  end.

(** How many times [Governor.terminate] was invoked. *)
Definition terminate_invocations (tr : list event) : nat :=
  length (filter (fun ev => is_terminate_signal ev = true) tr).

Definition is_initialise_signal (ev : event) : bool :=
  match ev with
  | Returned (Governor_initialise _ _ _) => true
  | Raised (Governor_initialise _ _ _) _ => true
  | _ => false
  end.

(** How many combinations were started. *)
Definition initialise_invocations (tr : list event) : nat :=
  length (filter (fun ev => is_initialise_signal ev = true) tr).

(** The arguments of the initialise signals sent, in order. *)
Definition initialise_calls (tr : list event)
    : list (bool * run_key * list reg_record) :=
  omap (fun ev =>
          match ev with
          | Returned (Governor_initialise d k r) => Some (d, k, r)
          | Raised (Governor_initialise d k r) _ => Some (d, k, r)
          | _ => None
          end) tr.

(** Every occurrence of an event satisfying [q] is preceded, earlier in
    the log, by an event satisfying [p]. *)
Definition precedes (p q : event -> bool) (tr : list event) : Prop :=
  forall (pre : list event) (ev : event) (post : list event),
    tr = (pre ++ ev :: post)%list -> q ev = true ->
    exists ev', ev' ∈ pre /\ p ev' = true.

(** The configurations for which a WebsocketClientWorker construction
    was attempted, in order. *)
Definition attempted_configs (tr : list event) : list (gmap string pyval) :=
  omap (fun ev =>
          match ev with
          | Constructed w => if is_websocket w then Some (config w) else None
          | Raised (New_worker WebsocketClientWorker _ kwargs) _ => Some kwargs
          | _ => None
          end) tr.

(** An event that is no signal of the Lifecycle Signaler. *)
Definition quiet (ev : event) : Prop :=
  is_initialise_signal ev = false /\ is_terminate_signal ev = false.

(** [remove_worker_from_local_worker_registry] returned on the object
    [w]. *)
Definition is_removal_of (w : worker) (ev : event) : bool :=
  match ev with
  | Returned (Remove_worker_from_local_worker_registry w') => worker_is w w'
  | _ => false
  end.

(** The reference to the object [w] was released. *)
Definition is_release_of (w : worker) (ev : event) : bool :=
  match ev with
  | Del w' => worker_is w w'
  | _ => false
  end.

(** The events [connect_to_workers] can produce: worker constructions
    and their failures. *)
Definition connect_event (ev : event) : Prop :=
  match ev with
  | Constructed _ => True
  | Raised (New_worker _ _ _) _ => True
  | _ => False
  end.

(** The events the teardown loop can produce. *)
Definition teardown_event (ev : event) : Prop :=
  match ev with
  | Returned (Remove_worker_from_local_worker_registry _) => True
  | Raised (Remove_worker_from_local_worker_registry _) _ => True
  | Del _ => True
  | _ => False
  end.

(** The shape of the log of a teardown: for each object in turn the
    registry removal and then the release, stopping at the first removal
    that raises. *)
Inductive teardown_log : list event -> Prop :=
| teardown_done : teardown_log []
| teardown_failed w e :
    teardown_log [Raised (Remove_worker_from_local_worker_registry w) e]
| teardown_next w d :
    teardown_log d ->
    teardown_log
      (Returned (Remove_worker_from_local_worker_registry w) :: Del w :: d).

(** The configurations of the handles a call returned; none when it
    raised. *)
Definition handle_configs (r : result (list worker))
    : list (gmap string pyval) :=
  match r with
  | Ok ws => map config ws
  | Raise _ => []
  end.

(** The state [s] with the events [evs] appended to its log. *)
Definition with_events (s : world) (evs : list event) : world :=
  {| sy_local_worker := sy_local_worker s;
     grid_hook_local_worker := grid_hook_local_worker s;
     next_oid := next_oid s;
     trace := trace s ++ evs |}.

(** The log of a teardown loop in which no removal raises. *)
Definition teardown_events (ws : list worker) : list event :=
  flat_map
    (fun w => [Returned (Remove_worker_from_local_worker_registry w); Del w])
    ws.

(** The keyword arguments of the coordinator's VirtualWorker. *)
Definition ttp_kwargs (log_msgs verbose : bool) : gmap string pyval :=
  {[ "id" := VStr "ttp";
     "log_msgs" := VBool log_msgs;
     "verbose" := VBool verbose ]}.

(** The coordinator object constructed from the state [s]. *)
Definition new_ttp (s : world) (log_msgs verbose : bool) : worker :=
  {| oid := next_oid s; cls := VirtualWorker; is_client_worker := false;
     config := ttp_kwargs log_msgs verbose |}.

(** The state in which [connect_to_ttp] returns. *)
Definition world_with_ttp (s : world) (log_msgs verbose : bool) : world :=
  let ttp := new_ttp s log_msgs verbose in
  {| sy_local_worker := ttp;
     grid_hook_local_worker := ttp;
     next_oid := S (next_oid s);
     trace := trace s ++ [Constructed ttp; Set_sy_local_worker ttp;
                          Set_grid_hook_local_worker ttp] |}.

(** Every run of [m] relates the state before to the state after by
    [R], whether it returns or raises. *)
Definition steps (R : world -> world -> Prop) {A} (m : M A) : Prop :=
  forall s, R s (m s).2.

(** The log grows by events that all satisfy [Q]. *)
Definition emits (Q : event -> Prop) (s s' : world) : Prop :=
  exists d, trace s' = (trace s ++ d)%list /\ Forall Q d.

(** Both global references are left as they were. *)
Definition same_identity (s s' : world) : Prop :=
  sy_local_worker s' = sy_local_worker s /\
  grid_hook_local_worker s' = grid_hook_local_worker s.

(** Websocket workers with consecutive identities from [n], one per
    configuration. *)
Fixpoint fresh_workers (n : nat) (cfgs : list (gmap string pyval))
    : list worker :=
  match cfgs with
  | [] => []
  | c :: cs =>
      {| oid := n; cls := WebsocketClientWorker;
         is_client_worker := false; config := c |} :: fresh_workers (S n) cs
  end.

(** The inner join of the scheduling algorithm: the (experiment, run)
    pairs whose experiment ids agree, experiment-major. *)
Definition matching_pairs (es : list expt_record) (rs : list run_record)
    : list (expt_record * run_record) :=
  flat_map
    (fun e =>
       map (fun r => (e, r))
         (filter (fun r => expt_id (run_key_of r) = e_expt_id (expt_key_of e))
                 rs))
    es.

(** [d.get(k)] on a dict keyed by combination. *)
Fixpoint dict_get {V} (k : combination_key) (d : list (combination_key * V))
    : option V :=
  match d with
  | [] => None
  | (k', v') :: d' => if decide (k = k') then Some v' else dict_get k d'
  end.

(** A Python dict keyed by strings, in insertion order. *)
Fixpoint str_dict_setitem {V} (k : string) (v : V) (d : list (string * V))
    : list (string * V) :=
  match d with
  | [] => [(k, v)]
  | (k', v') :: d' =>
      if decide (k = k') then (k, v) :: d'
      else (k', v') :: str_dict_setitem k v d'
  end.

(** An [Arguments] object, known by the keyword arguments it was built
    from. *)
Inductive arguments : Type := Arguments (kwargs : gmap string pyval).

(** A [Model] object, known by the structure it was built from. *)
Inductive model : Type := Model (structure : pyval).

(** Calls that build or drive the training engine, or write its
    output. *)
Definition engine_call (c : call) : bool :=
  match c with
  | New_Model _ | New_Arguments _ | New_FederatedLearning _ _
  | FL_load | FL_fit | Path_mkdir _ | FL_export _ => true
  | _ => false
  end.

Definition engine_event (ev : event) : bool :=
  match ev with
  | Returned c | Raised c _ => engine_call c
  | _ => false
  end.

(** The value a call returned, or [default] when it raised. *)
Definition returned_or {A} (default : A) (r : result A) : A :=
  match r with
  | Ok a => a
  | Raise _ => default
  end.

(* ===================================================================== *)
(* Sample data                                                           *)
(* ===================================================================== *)

Module Sample.

(** The identity present before any session. *)
Definition me : worker :=
  {| oid := 0; cls := VirtualWorker; is_client_worker := false;
     config := {[ "id" := VStr "me" ]} |}.

Definition s0 : world :=
  {| sy_local_worker := me; grid_hook_local_worker := me;
     next_oid := 1; trace := [] |}.

Definition out : string := "outputs".

(** A field set for [strip_keys]: the database-only descriptors. *)
Definition strip (d : gmap string pyval) : gmap string pyval :=
  delete "key" (delete "doc_id" (delete "created_at" d)).

Definition paths (tr : list event) (res_dir : string) : pyval :=
  VDict [("global", VStr (res_dir ++ "/global_model.pt"))].

Definition party (id : string) (port : Z) : reg_record :=
  {| participant :=
       {[ "id" := VStr id; "host" := VStr "0.0.0.0"; "port" := VInt port;
          "f_port" := VInt 5000; "log_msgs" := VBool true;
          "verbose" := VBool true; "doc_id" := VInt 1 ]};
     reg_payload := {[ "role" := VStr "host" ]} |}.

Definition p1 : reg_record := party "p1" 8020.
Definition p2 : reg_record := party "p2" 8021.

Definition expt (id : string) : expt_record :=
  {| expt_key_of := {| e_project_id := "proj"; e_expt_id := id |};
     expt_payload := {[ "model" := VList [VStr "linear"] ]} |}.

Definition run (e r : string) : run_record :=
  {| run_key_of := {| project_id := "proj"; expt_id := e; run_id := r |};
     run_payload := {[ "rounds" := VInt 2 ]} |}.

Definition kwargs (es : list expt_record) (rs : list run_record)
    : proc_kwargs :=
  {| kw_experiments := es; kw_runs := rs; kw_registrations := [p1; p2];
     kw_verbose := false; kw_log_msgs := false; kw_dockerised := true |}.

Definition params (e r : string) : expt_run_params :=
  {| p_keys := run_key_of (run e r);
     p_registrations := [p1; p2];
     p_experiment := expt e;
     p_run := run e r;
     p_dockerised := true; p_log_msgs := false; p_verbose := false |}.

(** Environments. *)
Definition all_fine (tr : list event) (c : call) : option exn := None.

Definition fit_fails (tr : list event) (c : call) : option exn :=
  match c with FL_fit => Some RuntimeError | _ => None end.

Definition fit_io_fails (tr : list event) (c : call) : option exn :=
  match c with FL_fit => Some OSError | _ => None end.

(** The second connection attempt of a session is refused. *)
Definition second_refused (tr : list event) (c : call) : option exn :=
  match c with
  | New_worker WebsocketClientWorker _ _ =>
      if Nat.eqb (length (opened tr)) 1 then Some ConnectionRefusedError
      else None
  | _ => None
  end.

(** [fit()] fails in the first combination of a scheduling run only. *)
Definition first_fit_fails (tr : list event) (c : call) : option exn :=
  match c with
  | FL_fit =>
      if Nat.eqb (initialise_invocations tr) 1 then Some RuntimeError
      else None
  | _ => None
  end.

(** A second experiment record registered under the id of another. *)
Definition expt_alt (id : string) : expt_record :=
  {| expt_key_of := {| e_project_id := "proj"; e_expt_id := id |};
     expt_payload := {[ "model" := VList [VStr "conv"] ]} |}.

Definition keys_A_r1 : run_key :=
  {| project_id := "proj"; expt_id := "A"; run_id := "r1" |}.

(** An experiment record without a model structure. *)
Definition expt_no_model (id : string) : expt_record :=
  {| expt_key_of := {| e_project_id := "proj"; e_expt_id := id |};
     expt_payload := {[ "doc_id" := VInt 7 ]} |}.

(** A registration whose payload has no alternate port. *)
Definition party_no_port (id : string) (port : Z) : reg_record :=
  {| participant :=
       {[ "id" := VStr id; "host" := VStr "0.0.0.0"; "port" := VInt port;
          "log_msgs" := VBool true; "verbose" := VBool true ]};
     reg_payload := {[ "role" := VStr "guest" ]} |}.

(** A registration whose payload repeats the keyword ['hook'] of the
    constructor call. *)
Definition party_with_hook (id : string) (port : Z) : reg_record :=
  {| participant :=
       {[ "id" := VStr id; "host" := VStr "0.0.0.0"; "port" := VInt port;
          "f_port" := VInt 5000; "hook" := VStr "mine" ]};
     reg_payload := {[ "role" := VStr "guest" ]} |}.

(** The coordinator cannot be constructed. *)
Definition ttp_refused (tr : list event) (c : call) : option exn :=
  match c with
  | New_worker VirtualWorker _ _ => Some RuntimeError
  | _ => None
  end.

End Sample.

(* ===================================================================== *)
(* The module                                                            *)
(* ===================================================================== *)

(* ===================================================================== *)
(* rest_rpc/training/core/hypertuners/nni_interface.py                   *)
(* ===================================================================== *)

Module NNI.

(** What the tuner asks of its surroundings. *)
Inductive action : Type :=
| Open_for_writing (path : string)
| Json_dump (path : string) (obj : pyval)
| Yaml_dump (path : string) (obj : pyval)
| Available_memory
| Run_process (command : string).

(** An action that went through, or that raised. *)
Inductive outcome : Type :=
| Done (a : action)
| Failed (a : action) (e : exn).

(** Computations of the tuner: the history of outcomes is the state. *)
Definition T (A : Type) : Type := list outcome -> result A * list outcome.

Definition ret {A} (a : A) : T A := fun h => (Ok a, h).

Definition raise {A} (e : exn) : T A := fun h => (Raise e, h).

Definition bind {A B} (m : T A) (k : A -> T B) : T B :=
  fun h =>
    match m h with
    | (Ok a, h') => k a h'
    | (Raise e, h') => (Raise e, h')
    end.

Declare Scope nni_scope.
Delimit Scope nni_scope with nni.
Notation "x <- m ;; k" := (bind m (fun x => k))
  (at level 100, m at next level, right associativity) : nni_scope.
Notation "m ;;; k" := (bind m (fun _ => k))
  (at level 100, right associativity) : nni_scope.

(** [os.path.join(log_dir, ...)] where [log_dir] may be [None]:
    TypeError for [None]. *)
Definition join_log_dir (log_dir : option string) (p : list string)
    : T string :=
  match log_dir with
  | Some d => ret (os_path_join d p)
  | None => raise TypeError
  end.

(** The keyword arguments of a call of [_generate_tuning_config]:
    [None] for an argument the call does not pass. *)
Record tuning_config_kwargs : Type := {
  a_project_id : option string;
  a_expt_id : option string;
  a_search_config_path : option string;
  a_tuner : option string;
  a_metric : option string;
  a_optimize_mode : option string;
  a_trial_concurrency : option Z;
  a_max_exec_duration : option string;
  a_max_trial_num : option Z;
  a_is_remote : option bool;
  a_use_annotation : option bool
}.

Definition is_run_process (o : outcome) : bool :=
  match o with
  | Done (Run_process _) | Failed (Run_process _) _ => true
  | _ => false
  end.

Definition is_yaml_dump (o : outcome) : bool :=
  match o with
  | Done (Yaml_dump _ _) | Failed (Yaml_dump _ _) _ => true
  | _ => false
  end.

Definition is_file_action (o : outcome) : bool :=
  match o with
  | Done (Open_for_writing _) | Failed (Open_for_writing _) _
  | Done (Json_dump _ _) | Failed (Json_dump _ _) _
  | Done (Yaml_dump _ _) | Failed (Yaml_dump _ _) _ => true
  | _ => false
  end.

(** The keys of a dict value, in order. *)
Definition keys_of (v : pyval) : list string :=
  match v with
  | VDict d => map fst d
  | _ => []
  end.

(** [d[k]] on a dict value. *)
Fixpoint assoc (k : string) (d : list (string * pyval)) : option pyval :=
  match d with
  | [] => None
  | (k', v) :: d' => if String.eqb k k' then Some v else assoc k d'
  end.

Definition item_of (k : string) (v : pyval) : option pyval :=
  match v with
  | VDict d => assoc k d
  | _ => None
  end.

Section Tuner.

(** [src_dir], [cores_used], [gpu_count] of the application's
    configuration. *)
Variable src_dir : string.
Variable cores_used : pyval.
Variable gpu_count : pyval.

(** The environment: whether an action raises, given what has happened
    so far. *)
Variable oracle : list outcome -> action -> option exn.

(** The value of [psutil.virtual_memory().available]. *)
Variable available_memory : list outcome -> Z.

(** The standard output of a process that exited with status 0. *)
Variable stdout_of : list outcome -> string -> string.

Definition act (a : action) : T unit :=
  fun h =>
    match oracle h a with
    | Some e => (Raise e, (h ++ [Failed a e])%list)
    | None => (Ok tt, (h ++ [Done a])%list)
    end.

(** [psutil.virtual_memory().available] *)
Definition query_memory : T Z :=
  fun h =>
    match oracle h Available_memory with
    | Some e => (Raise e, (h ++ [Failed Available_memory e])%list)
    | None => (Ok (available_memory h), (h ++ [Done Available_memory])%list)
    end.

Local Open Scope nni_scope.

(** def _execute_command(command) *)
Definition _execute_command (command : string) : T string :=
  fun h =>
    match oracle h (Run_process command) with
    | Some e => (Raise e, (h ++ [Failed (Run_process command) e])%list)
    | None => (Ok (stdout_of h command), (h ++ [Done (Run_process command)])%list)
    end.

(** def _generate_search_config(self, search_space) *)
Definition _generate_search_config (log_dir : option string)
    (search_space : pyval) : T string :=
  search_config_path <- join_log_dir log_dir ["nni"; "search_space.json"] ;;
  act (Open_for_writing search_config_path) ;;;
  act (Json_dump search_config_path search_space) ;;;
  ret search_config_path.

(** def _generate_tuning_config(self, project_id, expt_id,
        search_config_path, tuner, metric, optimize_mode,
        trial_concurrency=1, max_exec_duration="1h", max_trial_num=10,
        is_remote=True, use_annotation=True)
    A call that leaves out one of the first six arguments raises
    TypeError before the body runs. *)
Definition _generate_tuning_config (log_dir : option string)
    (kw : tuning_config_kwargs) : T string :=
  match a_project_id kw, a_expt_id kw, a_search_config_path kw,
        a_tuner kw, a_metric kw, a_optimize_mode kw with
  | Some project_id, Some expt_id, Some search_config_path,
    Some tuner, Some metric, Some optimize_mode =>
      let trial_concurrency := default 1%Z (a_trial_concurrency kw) in
      let max_exec_duration := default "1h" (a_max_exec_duration kw) in
      let max_trial_num := default 10%Z (a_max_trial_num kw) in
      let is_remote := default true (a_is_remote kw) in
      let use_annotation := default true (a_use_annotation kw) in
      let configurations :=
        [("authorName", VStr project_id);
         ("experimentName", VStr expt_id);
         ("trialConcurrency", VInt trial_concurrency);
         ("maxExecDuration", VStr max_exec_duration);
         ("maxTrialNum", VInt max_trial_num);
         ("trainingServicePlatform",
          VStr (if is_remote : bool then "remote" else "local"));
         ("searchSpacePath", VStr search_config_path);
         ("useAnnotation", VBool use_annotation);
         ("tuner",
          VDict [("builtinTunerName", VStr tuner);
                 ("classArgs",
                  VDict [("optimize_mode", VStr optimize_mode)])])] in
      let tune_dir :=
        os_path_join src_dir ["rest_rpc"; "training"; "core"; "hypertuners"] in
      let driver_script_path :=
        os_path_join tune_dir ["nni_driver_script.py"] in
      let command :=
        "python " ++ driver_script_path ++ " -pid " ++ project_id
          ++ " -eid " ++ expt_id ++ " -m " ++ metric ++ " -d -l -v" in
      memory <- query_memory ;;
      let configurations :=
        (configurations ++
           [("trial",
             VDict [("command", VStr command);
                    ("codeDir", VStr tune_dir);
                    ("gpuNum", gpu_count);
                    ("cpuNum", cores_used);
                    ("memoryMB", VInt memory)])])%list in
      nni_config_path <- join_log_dir log_dir ["nni"; "config.yaml"] ;;
      act (Open_for_writing nni_config_path) ;;;
      act (Yaml_dump nni_config_path (VDict configurations)) ;;;
      ret nni_config_path
  | _, _, _, _, _, _ => raise TypeError
  end.

(** def _generate_start_command(self, config_path) *)
Definition _generate_start_command (config_path : string) : string :=
  "nnictl create --config " ++ config_path.

(** def tune(self, project_id, expt_id, search_space, tuner, metric,
             optimize_mode, trial_concurrency=1, max_exec_duration="1h",
             max_trial_num=10, is_remote=True, use_annotation=True)
    The call of [_generate_tuning_config] passes every argument by
    keyword except [metric], which it does not pass. *)
Definition tune (log_dir : option string) (project_id expt_id : string)
    (search_space : pyval) (tuner metric optimize_mode : string)
    (trial_concurrency : Z) (max_exec_duration : string) (max_trial_num : Z)
    (is_remote use_annotation : bool) : T string :=
  search_config_path <- _generate_search_config log_dir search_space ;;
  nni_config_path <-
    _generate_tuning_config log_dir
      {| a_project_id := Some project_id;
         a_expt_id := Some expt_id;
         a_search_config_path := Some search_config_path;
         a_tuner := Some tuner;
         a_metric := None;
         a_optimize_mode := Some optimize_mode;
         a_trial_concurrency := Some trial_concurrency;
         a_max_exec_duration := Some max_exec_duration;
         a_max_trial_num := Some max_trial_num;
         a_is_remote := Some is_remote;
         a_use_annotation := Some use_annotation |} ;;
  let command := _generate_start_command nni_config_path in
  _execute_command command.

End Tuner.

(** Sample surroundings: every action goes through. *)
Definition calm (h : list outcome) (a : action) : option exn := None.

Definition memory_8g (h : list outcome) : Z := 8589934592.

Definition silent (h : list outcome) (command : string) : string :=
  EmptyString.

Definition sample_space : pyval :=
  VDict [("rounds", VDict [("_type", VStr "choice");
                           ("_value", VList [VInt 1; VInt 2])])].

Definition sample_kwargs : tuning_config_kwargs :=
  {| a_project_id := Some "proj";
     a_expt_id := Some "A";
     a_search_config_path := Some "logs/nni/search_space.json";
     a_tuner := Some "TPE";
     a_metric := Some "accuracy";
     a_optimize_mode := Some "maximize";
     a_trial_concurrency := None;
     a_max_exec_duration := None;
     a_max_trial_num := None;
     a_is_remote := None;
     a_use_annotation := None |}.

End NNI.

Local Open Scope list_scope.

Section Server.

(** [REF_WORKER = sy.local_worker], bound once when the module loads. *)
Variable REF_WORKER : worker.

(** [out_dir = app.config['OUT_DIR']] *)
Variable out_dir : string.

(** [rpc_formatter.strip_keys]: removes the database-only fields of a
    document and returns the remainder as a new mapping. Its field set
    is defined outside this module. *)
Variable strip_keys : gmap string pyval -> gmap string pyval.

(** The environment: whether an external call raises, given what has
    happened so far. *)
Variable oracle : list event -> call -> option exn.

(** The path mapping returned by a successful [fl_expt.export(res_dir)]. *)
Variable export_result : list event -> string -> pyval.

(** An external call made for its effect. *)
Definition ext (c : call) : M unit :=
  fun s =>
    match oracle (trace s) c with
    | Some e => (Raise e, log_event (Raised c e) s)
    | None => (Ok tt, log_event (Returned c) s)
    end.

(** A worker constructor: on success a new object with a fresh
    identity. *)
Definition new_worker (c : worker_class) (client : bool)
    (kwargs : gmap string pyval) : M worker :=
  fun s =>
    match oracle (trace s) (New_worker c client kwargs) with
    | Some e => (Raise e, log_event (Raised (New_worker c client kwargs) e) s)
    | None =>
        let w := {| oid := next_oid s; cls := c;
                    is_client_worker := client; config := kwargs |} in
        (Ok w,
         log_event (Constructed w)
           {| sy_local_worker := sy_local_worker s;
              grid_hook_local_worker := grid_hook_local_worker s;
              next_oid := S (next_oid s);
              trace := trace s |})
    end.

Definition fl_export (res_dir : string) : M pyval :=
  fun s =>
    match oracle (trace s) (FL_export res_dir) with
    | Some e => (Raise e, log_event (Raised (FL_export res_dir) e) s)
    | None =>
        (Ok (export_result (trace s) res_dir),
         log_event (Returned (FL_export res_dir)) s)
    end.

(** def connect_to_ttp(log_msgs=False, verbose=False) *)
Definition connect_to_ttp (log_msgs verbose : bool) : M worker :=
  ttp <- new_worker VirtualWorker false
           {[ "id" := VStr "ttp";
              "log_msgs" := VBool log_msgs;
              "verbose" := VBool verbose ]} ;;
  set_sy_local_worker ttp ;;;
  set_grid_hook_local_worker ttp ;;;
  g <- get_grid_hook_local_worker ;;
  py_assert (worker_is ttp g) ;;;
  y <- get_sy_local_worker ;;
  py_assert (worker_is ttp y) ;;;
  logging ;;;
  logging ;;;
  get_grid_hook_local_worker.

(** The configuration built for one registration record. *)
Definition worker_config (reg_record : reg_record)
    (log_msgs verbose : bool) : M (gmap string pyval) :=
  popped <- dict_pop "f_port" (strip_keys (participant reg_record)) ;;
  let config := popped.2 in
  let config := <["log_msgs" := VBool log_msgs]> config in
  let config := <["verbose" := VBool verbose]> config in
  ret config.

(** A key of [config] repeats one of the keywords that the call
    [WebsocketClientWorker(hook=grid_hook, is_client_worker=False,
    **config)] passes explicitly. *)
Definition keyword_clash (config : gmap string pyval) : bool :=
  bool_decide (is_Some (config !! "hook"))
  || bool_decide (is_Some (config !! "is_client_worker")).

(** [WebsocketClientWorker(hook=grid_hook, is_client_worker=False,
    **config)]: a keyword given twice makes the call raise TypeError
    before the constructor runs. *)
Definition new_websocket_client_worker (config : gmap string pyval)
    : M worker :=
  if keyword_clash config then raise TypeError
  else new_worker WebsocketClientWorker false config.

(** The body of [for reg_record in reg_records], with [workers] the
    list accumulated so far. *)
Fixpoint connect_loop (reg_records : list reg_record)
    (log_msgs verbose : bool) (workers : list worker) : M (list worker) :=
  match reg_records with
  | [] => ret workers
  | reg_record :: rest =>
      config <- worker_config reg_record log_msgs verbose ;;
      curr_worker <- new_websocket_client_worker config ;;
      connect_loop rest log_msgs verbose (workers ++ [curr_worker])
  end.

(** def connect_to_workers(keys, reg_records, dockerised=True,
                           log_msgs=False, verbose=False) *)
Definition connect_to_workers (keys : run_key)
    (reg_records : list reg_record) (dockerised log_msgs verbose : bool)
    : M (list worker) :=
  workers <- connect_loop reg_records log_msgs verbose [] ;;
  logging ;;;
  ret workers.

(** The body of [for w_idx, worker in enumerate(workers)]. *)
Fixpoint terminate_loop (workers : list worker) : M unit :=
  match workers with
  | [] => ret tt
  | worker :: rest =>
      ext (Remove_worker_from_local_worker_registry worker) ;;;
      del_local worker ;;;
      terminate_loop rest
  end.

(** def terminate_connections(ttp, workers) *)
Definition terminate_connections (ttp : worker) (workers : list worker)
    : M unit :=
  set_grid_hook_local_worker REF_WORKER ;;;
  set_sy_local_worker REF_WORKER ;;;
  ext (Remove_worker_from_local_worker_registry ttp) ;;;
  del_local ttp ;;;
  terminate_loop workers.

(** def load_selected_run(run_record) *)
Definition load_selected_run (run_record : run_record) : M unit :=
  let run_params := strip_keys (run_doc run_record) in
  ext (New_Arguments run_params).

(** def load_selected_experiment(expt_record) *)
Definition load_selected_experiment (expt_record : expt_record) : M unit :=
  structure <- dict_getitem "model" (strip_keys (expt_doc expt_record)) ;;
  ext (New_Model structure).

(** The inner [def train_combination()] of [start_expt_run_training];
    its free variables are the enclosing function's arguments. *)
Definition train_combination (keys : run_key)
    (registrations : list reg_record) (experiment : expt_record)
    (run : run_record) (dockerised log_msgs verbose : bool) : M pyval :=
  logging ;;;
  ttp <- connect_to_ttp log_msgs verbose ;;
  logging ;;;
  workers <- connect_to_workers keys registrations dockerised
               log_msgs verbose ;;
  logging ;;;
  load_selected_experiment experiment ;;;
  load_selected_run run ;;;
  ext (New_FederatedLearning ttp workers) ;;;
  ext FL_load ;;;
  ext FL_fit ;;;
  let res_dir :=
    os_path_join out_dir [project_id keys; expt_id keys; run_id keys] in
  ext (Path_mkdir res_dir) ;;;
  out_paths <- fl_export res_dir ;;
  logging ;;;
  terminate_connections ttp workers ;;;
  logging ;;;
  ret out_paths.

(** def start_expt_run_training(keys, registrations, experiment, run,
                                dockerised, log_msgs, verbose)
    The local name [results] is bound only when the [try] body reaches
    its assignment; [None] stands for the unbound name. *)
Definition start_expt_run_training (kw : expt_run_params) : M pyval :=
  let keys := p_keys kw in
  let registrations := p_registrations kw in
  let dockerised := p_dockerised kw in
  logging ;;;
  ext (Governor_initialise dockerised keys registrations) ;;;
  results <-
    try_except
      (results <- train_combination keys registrations (p_experiment kw)
                    (p_run kw) dockerised (p_log_msgs kw) (p_verbose kw) ;;
       logging ;;;
       ret (Some results))
      isinstance_OSError
      (fun _ => logging ;;; ret None) ;;
  ext (Governor_terminate dockerised keys registrations) ;;;
  match results with
  | Some r => ret r
  | None => raise UnboundLocalError
  end.

(** The inner [for run_record in runs] of [start_proc]. *)
Definition add_runs (kwargs : proc_kwargs) (expt_record : expt_record)
    (training_combinations : list (combination_key * expt_run_params))
    : list (combination_key * expt_run_params) :=
  let curr_expt_id := e_expt_id (expt_key_of expt_record) in
  fold_left
    (fun d run_record =>
       let run_key := run_key_of run_record in
       if String.eqb (expt_id run_key) curr_expt_id then
         dict_setitem (key_tuple run_key)
           {| p_keys := run_key;
              p_registrations := kw_registrations kwargs;
              p_experiment := expt_record;
              p_run := run_record;
              p_dockerised := kw_dockerised kwargs;
              p_log_msgs := kw_log_msgs kwargs;
              p_verbose := kw_verbose kwargs |} d
       else d)
    (kw_runs kwargs) training_combinations.

(** The [training_combinations] dict built by [start_proc]. *)
Definition training_combinations (kwargs : proc_kwargs)
    : list (combination_key * expt_run_params) :=
  fold_left (fun d expt_record => add_runs kwargs expt_record d)
    (kw_experiments kwargs) [].

(** The dict comprehension over [training_combinations.items()]. *)
Fixpoint run_combinations
    (items : list (combination_key * expt_run_params))
    (completed : list (combination_key * pyval))
    : M (list (combination_key * pyval)) :=
  match items with
  | [] => ret completed
  | (combination_key, kw) :: rest =>
      r <- start_expt_run_training kw ;;
      run_combinations rest (dict_setitem combination_key r completed)
  end.

(** def start_proc(kwargs) *)
Definition start_proc (kwargs : proc_kwargs)
    : M (list (combination_key * pyval)) :=
  let combos := training_combinations kwargs in
  logging ;;;
  run_combinations combos [].

(** The configuration [connect_to_workers] builds for a record whose
    stripped payload has an ['f_port']. *)
Definition expected_config (reg_record : reg_record)
    (log_msgs verbose : bool) : gmap string pyval :=
  <["verbose" := VBool verbose]>
    (<["log_msgs" := VBool log_msgs]>
       (delete "f_port" (strip_keys (participant reg_record)))).

(** The state in which the bracket of a combination starts: the
    initialise signal has been sent. *)
Definition after_initialise (kw : expt_run_params) (s : world) : world :=
  log_event
    (Returned (Governor_initialise (p_dockerised kw) (p_keys kw)
                 (p_registrations kw))) s.

(** The bracket of the combination [kw]. *)
Definition bracket (kw : expt_run_params) : M pyval :=
  train_combination (p_keys kw) (p_registrations kw) (p_experiment kw)
    (p_run kw) (p_dockerised kw) (p_log_msgs kw) (p_verbose kw).

(** The state right after [terminate_connections] has restored both
    global references. *)
Definition identity_restored (s : world) : world :=
  {| sy_local_worker := REF_WORKER;
     grid_hook_local_worker := REF_WORKER;
     next_oid := next_oid s;
     trace := trace s ++ [Set_grid_hook_local_worker REF_WORKER;
                          Set_sy_local_worker REF_WORKER] |}.

(** The state after the workers [ws] have been constructed from [s]. *)
Definition world_after_open (s : world) (ws : list worker) : world :=
  {| sy_local_worker := sy_local_worker s;
     grid_hook_local_worker := grid_hook_local_worker s;
     next_oid := next_oid s + length ws;
     trace := trace s ++ map Constructed ws |}.

(** The workers [connect_to_workers] builds for [reg_records] when it
    starts with the identity allocator at [n]. *)
Definition workers_for (n : nat) (reg_records : list reg_record)
    (log_msgs verbose : bool) : list worker :=
  fresh_workers n
    (map (fun r => expected_config r log_msgs verbose) reg_records).

(** The stripped payload of a record carries the alternate port. *)
Definition has_f_port (r : reg_record) : Prop :=
  is_Some (strip_keys (participant r) !! "f_port").

(** The stripped payload of a record has neither of the keys that the
    constructor call passes explicitly. *)
Definition no_keyword_clash (r : reg_record) : Prop :=
  strip_keys (participant r) !! "hook" = None /\
  strip_keys (participant r) !! "is_client_worker" = None.

(** Why the call [WebsocketClientWorker(hook=grid_hook,
    is_client_worker=False, **config)] fails after the log [tr], if it
    does: a keyword given twice, or the constructor raising. *)
Definition websocket_call_failure (tr : list event)
    (config : gmap string pyval) : option exn :=
  if keyword_clash config then Some TypeError
  else oracle tr (New_worker WebsocketClientWorker false config).

(** The arguments of the initialise signal of a combination. *)
Definition signal_of (kw : expt_run_params)
    : bool * run_key * list reg_record :=
  (p_dockerised kw, p_keys kw, p_registrations kw).

(** The keyword arguments [start_proc] stores for the pair of an
    experiment and a run. *)
Definition params_of (kwargs : proc_kwargs) (er : expt_record * run_record)
    : expt_run_params :=
  {| p_keys := run_key_of er.2;
     p_registrations := kw_registrations kwargs;
     p_experiment := er.1;
     p_run := er.2;
     p_dockerised := kw_dockerised kwargs;
     p_log_msgs := kw_log_msgs kwargs;
     p_verbose := kw_verbose kwargs |}.

(** The combination key of a pair: the key of its run. *)
Definition pair_key (er : expt_record * run_record) : combination_key :=
  key_tuple (run_key_of er.2).

(** Every session of [items] returns, one after the other from the
    state [s]; [res] pairs each key with the result of its session. *)
Inductive runs_all :
    list (combination_key * expt_run_params) -> world ->
    list (combination_key * pyval) -> world -> Prop :=
| runs_all_nil s : runs_all [] s [] s
| runs_all_cons k kw rest s r s1 res s2 :
    start_expt_run_training kw s = (Ok r, s1) ->
    runs_all rest s1 res s2 ->
    runs_all ((k, kw) :: rest) s ((k, r) :: res) s2.

(** The dict comprehension of [load_selected_runs], with [runs] the
    dict built so far. *)
Fixpoint load_runs_loop (items : list (string * gmap string pyval))
    (runs : list (string * arguments)) : M (list (string * arguments)) :=
  match items with
  | [] => ret runs
  | (run_id, params) :: rest =>
      ext (New_Arguments params) ;;;
      load_runs_loop rest (str_dict_setitem run_id (Arguments params) runs)
  end.

(** def load_selected_runs(fl_params); [fl_params] is given by its
    items, in order. *)
Definition load_selected_runs (fl_params : list (string * gmap string pyval))
    : M (list (string * arguments)) :=
  runs <- load_runs_loop fl_params [] ;;
  logging ;;;
  ret runs.

(** The dict comprehension of [load_selected_models]. *)
Fixpoint load_models_loop (items : list (string * pyval))
    (models : list (string * model)) : M (list (string * model)) :=
  match items with
  | [] => ret models
  | (name, structure) :: rest =>
      ext (New_Model structure) ;;;
      load_models_loop rest (str_dict_setitem name (Model structure) models)
  end.

(** def load_selected_models(model_params); [model_params] is given by
    its items, in order. *)
Definition load_selected_models (model_params : list (string * pyval))
    : M (list (string * model)) :=
  models <- load_models_loop model_params [] ;;
  logging ;;;
  ret models.

(* ===================================================================== *)
(* Properties                                                            *)
(* ===================================================================== *)

#[local] Set Warnings "-clear-no-such-hyp".

(* --------------------------------------------------------------------- *)
(* Stepwise reasoning in the monad                                       *)
(* --------------------------------------------------------------------- *)

Section Steps.

Variable R : world -> world -> Prop.
Hypothesis R_refl : forall s, R s s.
Hypothesis R_trans : forall a b c, R a b -> R b c -> R a c.

Lemma steps_ret {A} (a : A) : steps R (ret a).
Proof. intros s. apply R_refl. Qed.

Lemma steps_raise {A} (e : exn) : steps R (@raise A e).
Proof. intros s. apply R_refl. Qed.

Lemma steps_bind {A B} (m : M A) (k : A -> M B) :
  steps R m -> (forall a, steps R (k a)) -> steps R (bind m k).
Proof.
  intros Hm Hk s. unfold bind.
  specialize (Hm s). destruct (m s) as [[a | e] s1]; simpl in *.
  - eapply R_trans; [exact Hm | apply Hk].
  - exact Hm.
Qed.

Lemma steps_try_except {A} (body : M A) catches (handler : exn -> M A) :
  steps R body -> (forall e, steps R (handler e)) ->
  steps R (try_except body catches handler).
Proof.
  intros Hb Hh s. unfold try_except.
  specialize (Hb s). destruct (body s) as [[a | e] s1]; simpl in *.
  - exact Hb.
  - destruct (catches e); simpl; [| exact Hb].
    eapply R_trans; [exact Hb | apply Hh].
Qed.

Lemma steps_logging : steps R logging.
Proof. apply steps_ret. Qed.

Lemma steps_py_assert (b : bool) : steps R (py_assert b).
Proof. destruct b; [apply steps_ret | apply steps_raise]. Qed.

Lemma steps_dict_pop k d : steps R (dict_pop k d).
Proof. unfold dict_pop. destruct (d !! k); [apply steps_ret | apply steps_raise]. Qed.

Lemma steps_dict_getitem k d : steps R (dict_getitem k d).
Proof.
  unfold dict_getitem. destruct (d !! k); [apply steps_ret | apply steps_raise].
Qed.

Lemma steps_get_sy : steps R get_sy_local_worker.
Proof. intros s. apply R_refl. Qed.

Lemma steps_get_grid : steps R get_grid_hook_local_worker.
Proof. intros s. apply R_refl. Qed.

Lemma steps_del_local w : steps R (emit (Del w)) -> steps R (del_local w).
Proof.
  intros He. unfold del_local.
  apply steps_bind; [exact He | intros _].
  apply steps_try_except; [| intros _; apply steps_logging].
  apply steps_bind; [apply steps_raise | intros _; apply steps_logging].
Qed.

End Steps.

(* --------------------------------------------------------------------- *)
(* The event log only grows                                              *)
(* --------------------------------------------------------------------- *)

Lemma emits_refl Q s : emits Q s s.
Proof. exists []. split; [by rewrite app_nil_r | constructor]. Qed.

Lemma emits_trans Q a b c : emits Q a b -> emits Q b c -> emits Q a c.
Proof.
  intros [d1 [H1 F1]] [d2 [H2 F2]]. exists (d1 ++ d2). split.
  - by rewrite H2, H1, app_assoc.
  - by apply Forall_app.
Qed.

Lemma emits_weaken (Q Q' : event -> Prop) {A} (m : M A) :
  (forall ev, Q ev -> Q' ev) -> steps (emits Q) m -> steps (emits Q') m.
Proof.
  intros HQ Hm s. destruct (Hm s) as [d [H F]].
  exists d. split; [exact H |]. eapply Forall_impl; eauto.
Qed.

Lemma emits_one Q ev s s' :
  trace s' = trace s ++ [ev] -> Q ev -> emits Q s s'.
Proof. intros H HQ. exists [ev]. split; [exact H | by repeat constructor]. Qed.

Lemma emits_emit (Q : event -> Prop) ev : Q ev -> steps (emits Q) (emit ev).
Proof. intros HQ s. by apply (emits_one Q ev). Qed.

Lemma emits_set_sy (Q : event -> Prop) w :
  Q (Set_sy_local_worker w) -> steps (emits Q) (set_sy_local_worker w).
Proof. intros HQ s. by apply (emits_one Q (Set_sy_local_worker w)). Qed.

Lemma emits_set_grid (Q : event -> Prop) w :
  Q (Set_grid_hook_local_worker w) ->
  steps (emits Q) (set_grid_hook_local_worker w).
Proof. intros HQ s. by apply (emits_one Q (Set_grid_hook_local_worker w)). Qed.

Lemma emits_ext (Q : event -> Prop) c :
  Q (Returned c) -> (forall e, Q (Raised c e)) -> steps (emits Q) (ext c).
Proof.
  intros HR HE s. unfold ext. destruct (oracle (trace s) c) as [e |].
  - by apply (emits_one Q (Raised c e)).
  - by apply (emits_one Q (Returned c)).
Qed.

Lemma emits_new_worker (Q : event -> Prop) c client kwargs :
  (forall w, Q (Constructed w)) ->
  (forall e, Q (Raised (New_worker c client kwargs) e)) ->
  steps (emits Q) (new_worker c client kwargs).
Proof.
  intros HC HE s. unfold new_worker.
  destruct (oracle (trace s) (New_worker c client kwargs)) as [e |].
  - by apply (emits_one Q (Raised (New_worker c client kwargs) e)).
  - eapply emits_one; [reflexivity | apply HC].
Qed.

Lemma emits_new_websocket_client_worker (Q : event -> Prop) config :
  (forall w, Q (Constructed w)) ->
  (forall e, Q (Raised (New_worker WebsocketClientWorker false config) e)) ->
  steps (emits Q) (new_websocket_client_worker config).
Proof.
  intros HC HE. unfold new_websocket_client_worker.
  destruct (keyword_clash config).
  - apply (steps_raise (emits Q) (emits_refl Q)).
  - by apply emits_new_worker.
Qed.

Lemma emits_fl_export (Q : event -> Prop) res_dir :
  Q (Returned (FL_export res_dir)) ->
  (forall e, Q (Raised (FL_export res_dir) e)) ->
  steps (emits Q) (fl_export res_dir).
Proof.
  intros HR HE s. unfold fl_export.
  destruct (oracle (trace s) (FL_export res_dir)) as [e |].
  - by apply (emits_one Q (Raised (FL_export res_dir) e)).
  - by apply (emits_one Q (Returned (FL_export res_dir))).
Qed.

(** Chains the step lemmas through a sequence of statements. *)
Ltac step_through Q :=
  repeat
    lazymatch goal with
    | |- steps _ (bind _ _) =>
        apply (steps_bind (emits Q) (emits_trans Q)); [| intros ?]
    | |- steps _ (ret _) => apply (steps_ret (emits Q) (emits_refl Q))
    | |- steps _ logging => apply (steps_logging (emits Q) (emits_refl Q))
    | |- steps _ (py_assert _) =>
        apply (steps_py_assert (emits Q) (emits_refl Q))
    | |- steps _ (dict_pop _ _) =>
        apply (steps_dict_pop (emits Q) (emits_refl Q))
    | |- steps _ (dict_getitem _ _) =>
        apply (steps_dict_getitem (emits Q) (emits_refl Q))
    | |- steps _ get_sy_local_worker =>
        apply (steps_get_sy (emits Q) (emits_refl Q))
    | |- steps _ get_grid_hook_local_worker =>
        apply (steps_get_grid (emits Q) (emits_refl Q))
    | |- steps _ (del_local _) =>
        apply (steps_del_local (emits Q) (emits_refl Q) (emits_trans Q))
    | |- steps _ (emit _) => apply emits_emit
    | |- steps _ (set_sy_local_worker _) => apply emits_set_sy
    | |- steps _ (set_grid_hook_local_worker _) => apply emits_set_grid
    | |- steps _ (ext _) => apply emits_ext
    | |- steps _ (new_worker _ _ _) => apply emits_new_worker
    | |- steps _ (new_websocket_client_worker _) =>
        apply emits_new_websocket_client_worker
    | |- steps _ (fl_export _) => apply emits_fl_export
    end.

Lemma connect_loop_emits reg_records log_msgs verbose workers :
  steps (emits connect_event)
    (connect_loop reg_records log_msgs verbose workers).
Proof.
  revert workers. induction reg_records as [| r rest IH]; intros workers; simpl.
  - step_through connect_event.
  - unfold worker_config.
    step_through connect_event; first [apply IH | intros; exact I].
Qed.

Lemma connect_to_workers_emits keys reg_records dockerised log_msgs verbose :
  steps (emits connect_event)
    (connect_to_workers keys reg_records dockerised log_msgs verbose).
Proof.
  unfold connect_to_workers. step_through connect_event.
  apply connect_loop_emits.
Qed.

Lemma terminate_loop_emits workers :
  steps (emits teardown_event) (terminate_loop workers).
Proof.
  induction workers as [| w rest IH]; simpl.
  - step_through teardown_event.
  - step_through teardown_event; first [apply IH | intros; exact I].
Qed.

Lemma quiet_connect_event ev : connect_event ev -> quiet ev.
Proof. destruct ev as [| c | c e | | |]; try destruct c; simpl; by intros. Qed.

Lemma quiet_teardown_event ev : teardown_event ev -> quiet ev.
Proof. destruct ev as [| c | c e | | |]; try destruct c; simpl; by intros. Qed.

(** The whole bracket sends no lifecycle signal of its own. *)
Lemma train_combination_quiet keys registrations experiment run
    dockerised log_msgs verbose :
  steps (emits quiet)
    (train_combination keys registrations experiment run dockerised
       log_msgs verbose).
Proof.
  unfold train_combination, connect_to_ttp, terminate_connections,
    load_selected_experiment, load_selected_run.
  step_through quiet; try (intros; by split).
  - eapply emits_weaken; [apply quiet_connect_event |].
    apply connect_to_workers_emits.
  - eapply emits_weaken; [apply quiet_teardown_event |].
    apply terminate_loop_emits.
Qed.

(* --------------------------------------------------------------------- *)
(* Counting lifecycle signals                                            *)
(* --------------------------------------------------------------------- *)

Lemma terminate_invocations_app a b :
  terminate_invocations (a ++ b) =
  terminate_invocations a + terminate_invocations b.
Proof. unfold terminate_invocations. by rewrite filter_app, length_app. Qed.

Lemma initialise_invocations_app a b :
  initialise_invocations (a ++ b) =
  initialise_invocations a + initialise_invocations b.
Proof. unfold initialise_invocations. by rewrite filter_app, length_app. Qed.

Lemma terminate_invocations_one ev :
  terminate_invocations [ev] = if is_terminate_signal ev then 1 else 0.
Proof.
  unfold terminate_invocations. rewrite filter_cons, filter_nil.
  destruct (is_terminate_signal ev); by destruct (decide _).
Qed.

Lemma initialise_invocations_one ev :
  initialise_invocations [ev] = if is_initialise_signal ev then 1 else 0.
Proof.
  unfold initialise_invocations. rewrite filter_cons, filter_nil.
  destruct (is_initialise_signal ev); by destruct (decide _).
Qed.

Lemma terminate_invocations_quiet d :
  Forall quiet d -> terminate_invocations d = 0.
Proof.
  unfold terminate_invocations.
  induction 1 as [| ev d [_ Hq] _ IH]; [done |].
  rewrite filter_cons. destruct (decide (is_terminate_signal ev = true)).
  - congruence.
  - exact IH.
Qed.

Lemma initialise_invocations_quiet d :
  Forall quiet d -> initialise_invocations d = 0.
Proof.
  unfold initialise_invocations.
  induction 1 as [| ev d [Hq _] _ IH]; [done |].
  rewrite filter_cons. destruct (decide (is_initialise_signal ev = true)).
  - congruence.
  - exact IH.
Qed.

Lemma terminate_invocations_of_session (kw : expt_run_params)
    (s : world) :
  terminate_invocations (trace (start_expt_run_training kw s).2) =
  terminate_invocations (trace s) +
  match oracle (trace s)
          (Governor_initialise (p_dockerised kw) (p_keys kw)
             (p_registrations kw)) with
  | Some _ => 0
  | None =>
      match (bracket kw (after_initialise kw s)).1 with
      | Ok _ => 1
      | Raise e => if isinstance_OSError e then 1 else 0
      end
  end.
Proof.
  unfold start_expt_run_training, bracket, after_initialise.
  unfold bind at 1. unfold logging at 1, ret at 1.
  unfold bind at 1. unfold ext at 1.
  destruct (oracle (trace s) _) as [e0 |]; simpl.
  { rewrite terminate_invocations_app, terminate_invocations_one. simpl. lia. }
  set (s1 := log_event _ s).
  assert (Hs1 : terminate_invocations (trace s1) =
                terminate_invocations (trace s)).
  { subst s1. simpl.
    rewrite terminate_invocations_app, terminate_invocations_one. simpl. lia. }
  clearbody s1.
  unfold bind at 1. unfold try_except, bind at 1.
  destruct (train_combination_quiet (p_keys kw) (p_registrations kw)
              (p_experiment kw) (p_run kw) (p_dockerised kw) (p_log_msgs kw)
              (p_verbose kw) s1) as [d [Hd Fd]].
  assert (Hs2 : terminate_invocations (trace s1 ++ d) =
                terminate_invocations (trace s)).
  { rewrite terminate_invocations_app, Hs1,
      (terminate_invocations_quiet d Fd). lia. }
  destruct (train_combination _ _ _ _ _ _ _ s1) as [[r | e] s2];
    simpl in Hd |- *.
  - unfold bind, logging, ret, ext; simpl.
    destruct (oracle (trace s2) _); simpl;
      rewrite terminate_invocations_app, terminate_invocations_one, Hd, Hs2;
      simpl; lia.
  - destruct (isinstance_OSError e); simpl.
    + unfold bind, logging, ret, ext; simpl.
      destruct (oracle (trace s2) _); simpl;
        rewrite terminate_invocations_app, terminate_invocations_one, Hd, Hs2;
        simpl; lia.
    + rewrite Hd, Hs2. lia.
Qed.

Lemma session_initialise_raises kw s e0 :
  oracle (trace s)
    (Governor_initialise (p_dockerised kw) (p_keys kw) (p_registrations kw))
    = Some e0 ->
  start_expt_run_training kw s =
    (Raise e0,
     log_event
       (Raised (Governor_initialise (p_dockerised kw) (p_keys kw)
                  (p_registrations kw)) e0) s).
Proof.
  intros Hinit. unfold start_expt_run_training.
  unfold bind at 1. unfold logging at 1, ret at 1.
  unfold bind at 1. unfold ext at 1. by rewrite Hinit.
Qed.

Lemma session_propagates kw s e s2 :
  oracle (trace s)
    (Governor_initialise (p_dockerised kw) (p_keys kw) (p_registrations kw))
    = None ->
  bracket kw (after_initialise kw s) = (Raise e, s2) ->
  isinstance_OSError e = false ->
  start_expt_run_training kw s = (Raise e, s2).
Proof.
  intros Hinit Htrain Hos.
  unfold start_expt_run_training, bracket, after_initialise in *.
  unfold bind at 1. unfold logging at 1, ret at 1.
  unfold bind at 1. unfold ext at 1. rewrite Hinit.
  unfold bind at 1. unfold try_except, bind at 1. by rewrite Htrain, Hos.
Qed.

(** C1 (as amended). [start_expt_run_training] invokes
    [Governor.terminate] exactly once when the initialise signal went
    through and [train_combination] returned or raised an OSError (or a
    subclass of it); when [train_combination] raises any other exception,
    or [Governor.initialise] itself raises, that exception propagates to
    the caller and [Governor.terminate] is not invoked at all. *)
Theorem terminate_invoked_once_unless_non_os_error (kw : expt_run_params)
    (s : world) :
  match oracle (trace s)
          (Governor_initialise (p_dockerised kw) (p_keys kw)
             (p_registrations kw)) with
  | Some e0 =>
      (start_expt_run_training kw s).1 = Raise e0 /\
      terminate_invocations (trace (start_expt_run_training kw s).2) =
        terminate_invocations (trace s)
  | None =>
      match bracket kw (after_initialise kw s) with
      | (Ok _, _) =>
          terminate_invocations (trace (start_expt_run_training kw s).2) =
            terminate_invocations (trace s) + 1
      | (Raise e, s2) =>
          if isinstance_OSError e then
            terminate_invocations (trace (start_expt_run_training kw s).2) =
              terminate_invocations (trace s) + 1
          else
            start_expt_run_training kw s = (Raise e, s2) /\
            terminate_invocations (trace (start_expt_run_training kw s).2) =
              terminate_invocations (trace s)
      end
  end.
Proof.
  pose proof (terminate_invocations_of_session kw s) as Hcount.
  destruct (oracle (trace s) _) as [e0 |] eqn:Hinit.
  - split; [by rewrite (session_initialise_raises kw s e0 Hinit) |].
    rewrite Hcount. lia.
  - destruct (bracket kw (after_initialise kw s)) as [[r | e] s2] eqn:Htrain;
      simpl in Hcount; [exact Hcount |].
    destruct (isinstance_OSError e) eqn:Hos; [exact Hcount |].
    split; [by apply session_propagates |]. rewrite Hcount. lia.
Qed.

(** C9. When [train_combination] raises an OSError,
    [start_expt_run_training] swallows it and still invokes
    [Governor.terminate]; the local name [results] was never bound, so
    [return results] raises UnboundLocalError, a NameError: the caller
    gets that exception and no result for the combination. *)
Theorem os_error_then_unbound_results (kw : expt_run_params) (s s2 : world)
    (e : exn) :
  oracle (trace s)
    (Governor_initialise (p_dockerised kw) (p_keys kw) (p_registrations kw))
    = None ->
  bracket kw (after_initialise kw s) = (Raise e, s2) ->
  isinstance_OSError e = true ->
  oracle (trace s2)
    (Governor_terminate (p_dockerised kw) (p_keys kw) (p_registrations kw))
    = None ->
  start_expt_run_training kw s =
    (Raise UnboundLocalError,
     log_event
       (Returned (Governor_terminate (p_dockerised kw) (p_keys kw)
                    (p_registrations kw))) s2) /\
  isinstance_NameError UnboundLocalError = true /\
  terminate_invocations (trace (start_expt_run_training kw s).2) =
    terminate_invocations (trace s) + 1.
Proof.
  intros Hinit Htrain Hos Hterm.
  split; [| split; [reflexivity |]].
  - unfold start_expt_run_training, bracket, after_initialise in *.
    unfold bind at 1. unfold logging at 1, ret at 1.
    unfold bind at 1. unfold ext at 1. rewrite Hinit.
    unfold bind at 1. unfold try_except, bind at 1. rewrite Htrain, Hos.
    unfold bind, logging, ret, ext, raise. simpl. by rewrite Hterm.
  - rewrite terminate_invocations_of_session, Hinit, Htrain. simpl.
    by rewrite Hos.
Qed.

(* --------------------------------------------------------------------- *)
(* The global identity                                                   *)
(* --------------------------------------------------------------------- *)

Lemma same_identity_refl s : same_identity s s.
Proof. by split. Qed.

Lemma same_identity_trans a b c :
  same_identity a b -> same_identity b c -> same_identity a c.
Proof. intros [H1 H2] [H3 H4]. split; congruence. Qed.

Lemma same_identity_emit ev : steps same_identity (emit ev).
Proof. intros s. by split. Qed.

Lemma same_identity_ext c : steps same_identity (ext c).
Proof. intros s. unfold ext. by destruct (oracle (trace s) c). Qed.

Lemma same_identity_new_worker c client kwargs :
  steps same_identity (new_worker c client kwargs).
Proof. intros s. unfold new_worker. by destruct (oracle (trace s) _). Qed.

Lemma same_identity_new_websocket_client_worker config :
  steps same_identity (new_websocket_client_worker config).
Proof.
  unfold new_websocket_client_worker. destruct (keyword_clash config).
  - apply (steps_raise same_identity same_identity_refl).
  - apply same_identity_new_worker.
Qed.

Lemma same_identity_fl_export res_dir :
  steps same_identity (fl_export res_dir).
Proof. intros s. unfold fl_export. by destruct (oracle (trace s) _). Qed.

Ltac keep_identity :=
  repeat
    lazymatch goal with
    | |- steps _ (bind _ _) =>
        apply (steps_bind same_identity same_identity_trans); [| intros ?]
    | |- steps _ (ret _) => apply (steps_ret same_identity same_identity_refl)
    | |- steps _ logging =>
        apply (steps_logging same_identity same_identity_refl)
    | |- steps _ (dict_pop _ _) =>
        apply (steps_dict_pop same_identity same_identity_refl)
    | |- steps _ (dict_getitem _ _) =>
        apply (steps_dict_getitem same_identity same_identity_refl)
    | |- steps _ (del_local _) =>
        apply (steps_del_local same_identity same_identity_refl
                 same_identity_trans)
    | |- steps _ (emit _) => apply same_identity_emit
    | |- steps _ (ext _) => apply same_identity_ext
    | |- steps _ (new_worker _ _ _) => apply same_identity_new_worker
    | |- steps _ (new_websocket_client_worker _) =>
        apply same_identity_new_websocket_client_worker
    | |- steps _ (fl_export _) => apply same_identity_fl_export
    end.

Lemma connect_loop_same_identity reg_records log_msgs verbose workers :
  steps same_identity (connect_loop reg_records log_msgs verbose workers).
Proof.
  revert workers. induction reg_records as [| r rest IH]; intros workers; simpl.
  - keep_identity.
  - unfold worker_config. keep_identity. apply IH.
Qed.

Lemma connect_to_workers_same_identity keys reg_records dockerised
    log_msgs verbose :
  steps same_identity
    (connect_to_workers keys reg_records dockerised log_msgs verbose).
Proof.
  unfold connect_to_workers. keep_identity. apply connect_loop_same_identity.
Qed.

Lemma terminate_loop_same_identity workers :
  steps same_identity (terminate_loop workers).
Proof.
  induction workers as [| w rest IH]; simpl; keep_identity. apply IH.
Qed.

(* --------------------------------------------------------------------- *)
(* Order of the teardown                                                 *)
(* --------------------------------------------------------------------- *)

Lemma del_local_run w s : del_local w s = (Ok tt, log_event (Del w) s).
Proof. reflexivity. Qed.

Lemma terminate_loop_log workers s :
  exists d, trace (terminate_loop workers s).2 = trace s ++ d /\
            teardown_log d.
Proof.
  revert s. induction workers as [| w rest IH]; intros s; simpl.
  - exists []. split; [by rewrite app_nil_r | constructor].
  - unfold bind at 1. unfold ext.
    destruct (oracle (trace s) _) as [e |]; simpl.
    + eexists. split; [reflexivity | constructor].
    + unfold bind at 1. rewrite del_local_run.
      destruct (IH (log_event (Del w)
                      (log_event
                         (Returned (Remove_worker_from_local_worker_registry w))
                         s))) as [d [Hd Ld]].
      exists (Returned (Remove_worker_from_local_worker_registry w)
                :: Del w :: d).
      split; [| by constructor].
      rewrite Hd. simpl. by rewrite <- !app_assoc.
Qed.

Lemma teardown_log_events d : teardown_log d -> Forall teardown_event d.
Proof. induction 1; repeat constructor; done. Qed.

Lemma teardown_log_precedes w d :
  teardown_log d -> precedes (is_removal_of w) (is_release_of w) d.
Proof.
  induction 1 as [| w0 e | w0 d Hd IH]; intros pre ev post Heq Hq.
  - by destruct pre.
  - destruct pre as [| x [| y pre]]; simplify_eq/=.
  - destruct pre as [| x [| y pre]]; simplify_eq/=.
    + exists (Returned (Remove_worker_from_local_worker_registry w0)).
      split; [apply list_elem_of_here | exact Hq].
    + destruct (IH pre ev post eq_refl Hq) as [ev' [Hin Hp]].
      exists ev'. split; [| exact Hp].
      by do 2 apply list_elem_of_further.
Qed.

Lemma precedes_skip (p q : event -> bool) ev d :
  q ev = false -> precedes p q d -> precedes p q (ev :: d).
Proof.
  intros Hev Hd pre ev0 post Heq Hq.
  destruct pre as [| x pre]; simplify_eq/=; [congruence |].
  destruct (Hd pre ev0 post eq_refl Hq) as [ev' [Hin Hp]].
  exists ev'. split; [by apply list_elem_of_further | exact Hp].
Qed.

Lemma terminate_connections_run ttp workers s :
  terminate_connections ttp workers s =
  match oracle (trace (identity_restored s))
          (Remove_worker_from_local_worker_registry ttp) with
  | Some e =>
      (Raise e,
       log_event (Raised (Remove_worker_from_local_worker_registry ttp) e)
         (identity_restored s))
  | None =>
      terminate_loop workers
        (log_event (Del ttp)
           (log_event (Returned (Remove_worker_from_local_worker_registry ttp))
              (identity_restored s)))
  end.
Proof.
  unfold terminate_connections, bind, set_grid_hook_local_worker,
    set_sy_local_worker, ext, identity_restored, log_event. simpl.
  rewrite <- !app_assoc. simpl.
  destruct (oracle _ _); [reflexivity |].
  unfold log_event. simpl. by rewrite <- !app_assoc.
Qed.

(** C6. In every execution of [terminate_connections] the log starts
    with the two assignments that restore the active identity to
    REF_WORKER, and only then come the coordinator's registry removal and
    release and the workers' teardown, none of which touches the
    identity again; and for every object, each release of its reference
    is preceded by the registry-removal call on that object. *)
Theorem identity_restored_then_removal_before_release (ttp : worker)
    (workers : list worker) (s : world) :
  exists rest,
    trace (terminate_connections ttp workers s).2 =
      trace s ++ Set_grid_hook_local_worker REF_WORKER
                 :: Set_sy_local_worker REF_WORKER :: rest /\
    Forall teardown_event rest /\
    sy_local_worker (terminate_connections ttp workers s).2 = REF_WORKER /\
    grid_hook_local_worker (terminate_connections ttp workers s).2
      = REF_WORKER /\
    forall w,
      precedes (is_removal_of w) (is_release_of w)
        (Set_grid_hook_local_worker REF_WORKER
           :: Set_sy_local_worker REF_WORKER :: rest).
Proof.
  rewrite terminate_connections_run.
  destruct (oracle _ (Remove_worker_from_local_worker_registry ttp))
    as [e |]; simpl.
  - exists [Raised (Remove_worker_from_local_worker_registry ttp) e].
    split; [by rewrite <- !app_assoc |].
    split; [apply teardown_log_events; constructor |].
    split; [reflexivity |]. split; [reflexivity |].
    intros w. do 2 (apply precedes_skip; [done |]).
    apply teardown_log_precedes. constructor.
  - match goal with |- context [terminate_loop workers ?s1] =>
      destruct (terminate_loop_log workers s1) as [d [Hd Ld]];
      destruct (terminate_loop_same_identity workers s1) as [Hsy Hgrid]
    end.
    exists (Returned (Remove_worker_from_local_worker_registry ttp)
              :: Del ttp :: d).
    split; [rewrite Hd; simpl; by rewrite <- !app_assoc |].
    split; [apply teardown_log_events; by constructor |].
    split; [exact Hsy |]. split; [exact Hgrid |].
    intros w. do 2 (apply precedes_skip; [done |]).
    apply teardown_log_precedes. by constructor.
Qed.

(* --------------------------------------------------------------------- *)
(* Opening the workers                                                   *)
(* --------------------------------------------------------------------- *)

Lemma fresh_workers_length n cfgs : length (fresh_workers n cfgs) = length cfgs.
Proof. revert n. induction cfgs as [| c cs IH]; intros n; simpl; [done |]. by rewrite IH. Qed.

Lemma workers_for_length n regs l v : length (workers_for n regs l v) = length regs.
Proof. unfold workers_for. by rewrite fresh_workers_length, length_map. Qed.

Lemma fresh_workers_config n cfgs : map config (fresh_workers n cfgs) = cfgs.
Proof. revert n. induction cfgs as [| c cs IH]; intros n; simpl; [done |]. by rewrite IH. Qed.

Lemma fresh_workers_oid n cfgs :
  map oid (fresh_workers n cfgs) = seq n (length cfgs).
Proof. revert n. induction cfgs as [| c cs IH]; intros n; simpl; [done |]. by rewrite IH. Qed.

Lemma fresh_workers_websocket n cfgs :
  Forall (fun w => is_websocket w = true) (fresh_workers n cfgs).
Proof.
  revert n. induction cfgs as [| c cs IH]; intros n; simpl; constructor; auto.
Qed.

Lemma world_after_open_nil s : world_after_open s [] = s.
Proof.
  destruct s. unfold world_after_open. simpl. f_equal; [lia | by rewrite app_nil_r].
Qed.

Lemma world_after_open_cons s w ws :
  world_after_open
    (log_event (Constructed w)
       {| sy_local_worker := sy_local_worker s;
          grid_hook_local_worker := grid_hook_local_worker s;
          next_oid := S (next_oid s);
          trace := trace s |}) ws
  = world_after_open s (w :: ws).
Proof.
  unfold world_after_open, log_event. simpl. f_equal; [lia |].
  by rewrite <- app_assoc.
Qed.

(** The first step of the loop body, when the payload has the port. *)
Lemma worker_config_run r l v s :
  worker_config r l v s =
  match strip_keys (participant r) !! "f_port" with
  | Some _ => (Ok (expected_config r l v), s)
  | None => (Raise KeyError, s)
  end.
Proof.
  unfold worker_config, dict_pop, bind, expected_config.
  by destruct (strip_keys (participant r) !! "f_port").
Qed.

Lemma expected_config_lookup r l v k :
  expected_config r l v !! k =
  if decide (k = "verbose") then Some (VBool v)
  else if decide (k = "log_msgs") then Some (VBool l)
  else if decide (k = "f_port") then None
  else strip_keys (participant r) !! k.
Proof.
  unfold expected_config.
  repeat case_decide; subst; simplify_map_eq; done.
Qed.

Lemma no_keyword_clash_config r l v :
  no_keyword_clash r -> keyword_clash (expected_config r l v) = false.
Proof.
  intros [Hhook Hclient]. unfold keyword_clash.
  rewrite !expected_config_lookup. simpl. by rewrite Hhook, Hclient.
Qed.

Lemma new_websocket_client_worker_run config s :
  new_websocket_client_worker config s =
  if keyword_clash config then (Raise TypeError, s)
  else
    match oracle (trace s) (New_worker WebsocketClientWorker false config) with
    | Some e =>
        (Raise e,
         log_event (Raised (New_worker WebsocketClientWorker false config) e)
           s)
    | None =>
        let w := {| oid := next_oid s; cls := WebsocketClientWorker;
                    is_client_worker := false; config := config |} in
        (Ok w,
         log_event (Constructed w)
           {| sy_local_worker := sy_local_worker s;
              grid_hook_local_worker := grid_hook_local_worker s;
              next_oid := S (next_oid s);
              trace := trace s |})
    end.
Proof.
  unfold new_websocket_client_worker, new_worker, raise.
  destruct (keyword_clash config); [done |].
  by destruct (oracle (trace s) _).
Qed.

(** Whenever the loop returns, what it returns and the state it leaves
    are determined by the records. *)
Lemma connect_loop_returns regs l v acc s res s' :
  connect_loop regs l v acc s = (Ok res, s') ->
  res = acc ++ workers_for (next_oid s) regs l v /\
  s' = world_after_open s (workers_for (next_oid s) regs l v).
Proof.
  revert acc s. induction regs as [| r rest IH]; intros acc s; simpl.
  - intros [= <- <-]. by rewrite app_nil_r, world_after_open_nil.
  - unfold bind at 1. rewrite worker_config_run.
    destruct (strip_keys (participant r) !! "f_port"); [| done].
    unfold bind at 1. rewrite new_websocket_client_worker_run.
    destruct (keyword_clash _); [done |].
    destruct (oracle (trace s) _); [done |].
    intros H. apply IH in H as [-> ->]. simpl.
    unfold workers_for. simpl.
    split; [by rewrite <- app_assoc | apply world_after_open_cons].
Qed.

(** The loop over a concatenation runs the second part from where the
    first part stopped. *)
Lemma connect_loop_app pre post l v acc s :
  connect_loop (pre ++ post) l v acc s =
  match connect_loop pre l v acc s with
  | (Ok res, s1) => connect_loop post l v res s1
  | (Raise e, s1) => (Raise e, s1)
  end.
Proof.
  revert acc s. induction pre as [| r pre IH]; intros acc s; simpl; [done |].
  unfold bind. destruct (worker_config r l v s) as [[cfg | e] s1]; [| done].
  destruct (new_websocket_client_worker cfg s1) as [[w | e] s2];
    [apply IH | done].
Qed.

(** With every record carrying the port and no connection refused, the
    loop returns. *)
Lemma connect_loop_total regs l v acc s :
  (forall tr cfg, oracle tr (New_worker WebsocketClientWorker false cfg) = None) ->
  Forall has_f_port regs ->
  Forall no_keyword_clash regs ->
  exists res s', connect_loop regs l v acc s = (Ok res, s').
Proof.
  intros Hconn Hports Hclash. revert acc s.
  induction Hports as [| r rest [p Hp] _ IH]; intros acc s; simpl.
  - by eexists _, _.
  - apply Forall_cons in Hclash as [Hr Hrest].
    unfold bind at 1. rewrite worker_config_run, Hp.
    unfold bind at 1.
    rewrite new_websocket_client_worker_run, (no_keyword_clash_config r l v Hr),
      Hconn.
    by apply IH.
Qed.

Lemma connect_to_workers_run keys regs d l v s :
  connect_to_workers keys regs d l v s = connect_loop regs l v [] s.
Proof.
  unfold connect_to_workers, bind, logging, ret.
  by destruct (connect_loop regs l v [] s) as [[res | e] s1].
Qed.

Lemma connect_to_workers_ok keys regs d l v s :
  (forall tr cfg, oracle tr (New_worker WebsocketClientWorker false cfg) = None) ->
  Forall has_f_port regs ->
  Forall no_keyword_clash regs ->
  connect_to_workers keys regs d l v s =
    (Ok (workers_for (next_oid s) regs l v),
     world_after_open s (workers_for (next_oid s) regs l v)).
Proof.
  intros Hconn Hports Hclash. rewrite connect_to_workers_run.
  destruct (connect_loop_total regs l v [] s Hconn Hports Hclash)
    as [res [s' H]].
  rewrite H. by apply connect_loop_returns in H as [-> ->].
Qed.

Lemma opened_app a b : opened (a ++ b) = opened a ++ opened b.
Proof. apply omap_app. Qed.

Lemma registry_removed_app a b :
  registry_removed (a ++ b) = registry_removed a ++ registry_removed b.
Proof. apply omap_app. Qed.

Lemma released_app a b : released (a ++ b) = released a ++ released b.
Proof. apply omap_app. Qed.

Lemma opened_cons_constructed w tr :
  opened (Constructed w :: tr) =
  if is_websocket w then w :: opened tr else opened tr.
Proof. unfold opened. simpl. by destruct (is_websocket w). Qed.

Lemma opened_constructed ws :
  Forall (fun w => is_websocket w = true) ws -> opened (map Constructed ws) = ws.
Proof.
  induction 1 as [| w ws Hw _ IH]; [done |].
  change (map Constructed (w :: ws)) with (Constructed w :: map Constructed ws).
  by rewrite opened_cons_constructed, Hw, IH.
Qed.

Lemma registry_removed_constructed ws :
  registry_removed (map Constructed ws) = [].
Proof. by induction ws. Qed.

Lemma released_constructed ws : released (map Constructed ws) = [].
Proof. by induction ws. Qed.

Lemma opened_workers_for n regs l v :
  opened (map Constructed (workers_for n regs l v)) = workers_for n regs l v.
Proof. apply opened_constructed, fresh_workers_websocket. Qed.

Lemma workers_for_matches n regs l v :
  Forall2
    (fun r w =>
       is_websocket w = true /\
       config w !! "f_port" = None /\
       config w !! "log_msgs" = Some (VBool l) /\
       config w !! "verbose" = Some (VBool v) /\
       forall k, k <> "f_port" -> k <> "log_msgs" -> k <> "verbose" ->
                 config w !! k = strip_keys (participant r) !! k)
    regs (workers_for n regs l v).
Proof.
  revert n. induction regs as [| r rest IH]; intros n; [constructor |].
  unfold workers_for. simpl. constructor; [| apply IH].
  simpl. rewrite !expected_config_lookup. simpl.
  repeat split; try done.
  intros k H1 H2 H3. rewrite expected_config_lookup.
  by repeat case_decide.
Qed.

(** C7 (as amended). For every list of registration records whose
    stripped payloads carry ['f_port'] and neither ['hook'] nor
    ['is_client_worker'], and with no connection refused,
    [connect_to_workers] returns one websocket handle per record, in the
    order of the records, each a distinct object (nothing is merged when
    participants repeat); a handle's configuration is the record's
    stripped participant payload without ['f_port'] and with
    ['log_msgs'] and ['verbose'] set to the arguments of the call. *)
Theorem one_handle_per_record_in_order (keys : run_key)
    (regs : list reg_record) (dockerised log_msgs verbose : bool)
    (s : world) :
  (forall tr cfg,
      oracle tr (New_worker WebsocketClientWorker false cfg) = None) ->
  Forall has_f_port regs ->
  Forall no_keyword_clash regs ->
  exists ws s',
    connect_to_workers keys regs dockerised log_msgs verbose s = (Ok ws, s') /\
    Forall2
      (fun r w =>
         is_websocket w = true /\
         config w !! "f_port" = None /\
         config w !! "log_msgs" = Some (VBool log_msgs) /\
         config w !! "verbose" = Some (VBool verbose) /\
         forall k, k <> "f_port" -> k <> "log_msgs" -> k <> "verbose" ->
                   config w !! k = strip_keys (participant r) !! k)
      regs ws /\
    NoDup (map oid ws) /\
    exists d, trace s' = trace s ++ d /\ opened d = ws.
Proof.
  intros Hconn Hports Hclash.
  eexists (workers_for (next_oid s) regs log_msgs verbose), _.
  split; [by apply connect_to_workers_ok |].
  split; [apply workers_for_matches |].
  split.
  - unfold workers_for. rewrite fresh_workers_oid. apply NoDup_seq.
  - eexists. split; [reflexivity | apply opened_workers_for].
Qed.

(** C10. The handles [connect_to_workers] builds do not depend on its
    [keys] and [dockerised] arguments: two calls from the same state
    with the same records, [log_msgs] and [verbose] have the same
    outcome, attempt the same configurations in the same order and
    return handles with the same configurations. *)
Theorem worker_configs_ignore_keys_and_dockerised (keys1 keys2 : run_key)
    (dockerised1 dockerised2 : bool) (regs : list reg_record)
    (log_msgs verbose : bool) (s : world) :
  connect_to_workers keys1 regs dockerised1 log_msgs verbose s =
    connect_to_workers keys2 regs dockerised2 log_msgs verbose s /\
  handle_configs
    (connect_to_workers keys1 regs dockerised1 log_msgs verbose s).1 =
    handle_configs
      (connect_to_workers keys2 regs dockerised2 log_msgs verbose s).1 /\
  attempted_configs
    (trace (connect_to_workers keys1 regs dockerised1 log_msgs verbose s).2) =
    attempted_configs
      (trace (connect_to_workers keys2 regs dockerised2 log_msgs verbose s).2).
Proof. by rewrite !connect_to_workers_run. Qed.

(** C3 (as amended). When the records before the k-th open and the
    constructor call for the k-th record fails (the connection is
    refused, or the payload repeats a keyword of the call),
    [connect_to_workers] raises the error of the k-th call at once: the
    k-1 handles opened by this call stay open, with no registry removal
    and no release performed for any of them before the error reaches
    the caller. *)
Theorem partial_open_leaves_handles_open (keys : run_key)
    (pre post : list reg_record) (r : reg_record)
    (dockerised log_msgs verbose : bool) (s s1 : world)
    (ws : list worker) (e : exn) :
  connect_to_workers keys pre dockerised log_msgs verbose s = (Ok ws, s1) ->
  has_f_port r ->
  websocket_call_failure (trace s1) (expected_config r log_msgs verbose)
    = Some e ->
  exists s' d,
    connect_to_workers keys (pre ++ r :: post) dockerised log_msgs verbose s
      = (Raise e, s') /\
    trace s' = trace s ++ d /\
    opened d = ws /\
    length ws = length pre /\
    registry_removed d = [] /\
    released d = [] /\
    torn_down d = [].
Proof.
  rewrite !connect_to_workers_run. intros Hpre [p Hp] Hfail.
  rewrite connect_loop_app, Hpre.
  apply connect_loop_returns in Hpre as [-> ->]. cbn [connect_loop app].
  unfold bind at 1. rewrite worker_config_run, Hp.
  unfold bind at 1. rewrite new_websocket_client_worker_run.
  unfold websocket_call_failure in Hfail.
  assert (Hrem : forall tail,
             registry_removed tail = [] ->
             registry_removed
               (map Constructed (workers_for (next_oid s) pre log_msgs verbose)
                ++ tail) = []).
  { intros tail Ht.
    by rewrite registry_removed_app, registry_removed_constructed, Ht. }
  destruct (keyword_clash (expected_config r log_msgs verbose)).
  - injection Hfail as <-.
    eexists _, (map Constructed _ ++ []).
    split; [reflexivity |].
    split; [simpl; by rewrite app_nil_r |].
    split; [by rewrite opened_app, opened_workers_for, app_nil_r |].
    split; [apply workers_for_length |].
    split; [by apply Hrem |].
    split; [by rewrite released_app, released_constructed |].
    unfold torn_down. by rewrite Hrem.
  - rewrite Hfail.
    eexists _, (map Constructed _ ++ [_]).
    split; [reflexivity |].
    split; [simpl; by rewrite <- app_assoc |].
    split; [by rewrite opened_app, opened_workers_for, app_nil_r |].
    split; [apply workers_for_length |].
    split; [by apply Hrem |].
    split; [by rewrite released_app, released_constructed |].
    unfold torn_down. by rewrite Hrem.
Qed.

(* --------------------------------------------------------------------- *)
(* Running the statements one by one                                     *)
(* --------------------------------------------------------------------- *)

Lemma bind_ok {A B} (m : M A) (k : A -> M B) s a s' :
  m s = (Ok a, s') -> bind m k s = k a s'.
Proof. intros H. unfold bind. by rewrite H. Qed.

Lemma bind_raise {A B} (m : M A) (k : A -> M B) s e s' :
  m s = (Raise e, s') -> bind m k s = (Raise e, s').
Proof. intros H. unfold bind. by rewrite H. Qed.

Lemma log_event_with_events ev s : log_event ev s = with_events s [ev].
Proof. reflexivity. Qed.

Lemma with_events_app s a b :
  with_events (with_events s a) b = with_events s (a ++ b).
Proof. unfold with_events. simpl. by rewrite <- app_assoc. Qed.

Lemma ext_ok c s :
  oracle (trace s) c = None -> ext c s = (Ok tt, with_events s [Returned c]).
Proof. intros H. unfold ext. by rewrite H. Qed.

Lemma ext_raise c e s :
  oracle (trace s) c = Some e ->
  ext c s = (Raise e, with_events s [Raised c e]).
Proof. intros H. unfold ext. by rewrite H. Qed.

Lemma fl_export_ok res_dir s :
  oracle (trace s) (FL_export res_dir) = None ->
  fl_export res_dir s =
    (Ok (export_result (trace s) res_dir),
     with_events s [Returned (FL_export res_dir)]).
Proof. intros H. unfold fl_export. by rewrite H. Qed.

Lemma connect_to_ttp_run l v s :
  connect_to_ttp l v s =
  match oracle (trace s) (New_worker VirtualWorker false (ttp_kwargs l v)) with
  | Some e =>
      (Raise e,
       with_events s
         [Raised (New_worker VirtualWorker false (ttp_kwargs l v)) e])
  | None => (Ok (new_ttp s l v), world_with_ttp s l v)
  end.
Proof.
  unfold connect_to_ttp, bind, new_worker, ttp_kwargs.
  destruct (oracle (trace s) _); [reflexivity |].
  simpl. unfold worker_is. simpl. repeat (rewrite Nat.eqb_refl; simpl).
  unfold world_with_ttp, new_ttp, ttp_kwargs, log_event. simpl.
  by rewrite <- !app_assoc.
Qed.

Lemma terminate_loop_ok ws s :
  (forall tr w,
      oracle tr (Remove_worker_from_local_worker_registry w) = None) ->
  terminate_loop ws s = (Ok tt, with_events s (teardown_events ws)).
Proof.
  intros H. revert s. induction ws as [| w ws IH]; intros s; simpl.
  - unfold ret, with_events. simpl. rewrite app_nil_r. by destruct s.
  - erewrite bind_ok; [| by apply ext_ok].
    erewrite bind_ok; [| apply del_local_run].
    by rewrite IH, log_event_with_events, !with_events_app.
Qed.

Lemma terminate_connections_ok ttp ws s :
  (forall tr w,
      oracle tr (Remove_worker_from_local_worker_registry w) = None) ->
  terminate_connections ttp ws s =
    (Ok tt,
     with_events (identity_restored s)
       (Returned (Remove_worker_from_local_worker_registry ttp)
          :: Del ttp :: teardown_events ws)).
Proof.
  intros H. rewrite terminate_connections_run, H, terminate_loop_ok by done.
  by rewrite !log_event_with_events, !with_events_app.
Qed.

Lemma terminate_connections_identity ttp ws s :
  sy_local_worker (terminate_connections ttp ws s).2 = REF_WORKER /\
  grid_hook_local_worker (terminate_connections ttp ws s).2 = REF_WORKER.
Proof.
  rewrite terminate_connections_run.
  destruct (oracle _ _); [by split |].
  match goal with |- context [terminate_loop ws ?s1] =>
    destruct (terminate_loop_same_identity ws s1) as [Hsy Hgrid]
  end.
  by split.
Qed.

Lemma load_selected_experiment_same_identity e :
  steps same_identity (load_selected_experiment e).
Proof. unfold load_selected_experiment. keep_identity. Qed.

Lemma load_selected_run_same_identity r :
  steps same_identity (load_selected_run r).
Proof. unfold load_selected_run. keep_identity. Qed.

(** C8. When the VirtualWorker constructor returns, [connect_to_ttp]
    returns the object it has just constructed, a VirtualWorker with id
    ['ttp'] and a fresh identity, and both [sy.local_worker] and
    [grid_hook.local_worker] refer to that object. The steps that follow
    in a session (opening the workers, loading the experiment and the
    run, the calls into the training engine) leave both references where
    they are, so they resolve to the new coordinator until
    [terminate_connections] moves them to REF_WORKER. *)
Theorem connect_to_ttp_installs_new_coordinator (log_msgs verbose : bool)
    (s : world) :
  oracle (trace s)
    (New_worker VirtualWorker false (ttp_kwargs log_msgs verbose)) = None ->
  exists ttp s',
    connect_to_ttp log_msgs verbose s = (Ok ttp, s') /\
    cls ttp = VirtualWorker /\
    config ttp !! "id" = Some (VStr "ttp") /\
    oid ttp = next_oid s /\
    trace s' = trace s ++ [Constructed ttp; Set_sy_local_worker ttp;
                           Set_grid_hook_local_worker ttp] /\
    sy_local_worker s' = ttp /\
    grid_hook_local_worker s' = ttp /\
    (forall keys regs dockerised l v,
        steps same_identity (connect_to_workers keys regs dockerised l v)) /\
    (forall e, steps same_identity (load_selected_experiment e)) /\
    (forall r, steps same_identity (load_selected_run r)) /\
    (forall c, steps same_identity (ext c)) /\
    (forall res_dir, steps same_identity (fl_export res_dir)) /\
    (forall ws s'',
        sy_local_worker (terminate_connections ttp ws s'').2 = REF_WORKER /\
        grid_hook_local_worker (terminate_connections ttp ws s'').2
          = REF_WORKER).
Proof.
  intros Hnew. exists (new_ttp s log_msgs verbose), (world_with_ttp s log_msgs verbose).
  split; [by rewrite connect_to_ttp_run, Hnew |].
  repeat split.
  - apply connect_to_workers_same_identity.
  - apply connect_to_workers_same_identity.
  - apply load_selected_experiment_same_identity.
  - apply load_selected_experiment_same_identity.
  - apply load_selected_run_same_identity.
  - apply load_selected_run_same_identity.
  - apply same_identity_ext.
  - apply same_identity_ext.
  - apply same_identity_fl_export.
  - apply same_identity_fl_export.
  - apply terminate_connections_identity.
  - apply terminate_connections_identity.
Qed.

(* --------------------------------------------------------------------- *)
(* One session                                                           *)
(* --------------------------------------------------------------------- *)

Lemma registry_removed_teardown ws :
  registry_removed (teardown_events ws) = ws.
Proof. induction ws as [| w ws IH]; [done |]. simpl. by rewrite IH. Qed.

Lemma released_teardown ws : released (teardown_events ws) = ws.
Proof. induction ws as [| w ws IH]; [done |]. simpl. by rewrite IH. Qed.

Lemma opened_teardown ws : opened (teardown_events ws) = [].
Proof. by induction ws. Qed.

Lemma worker_in_self w l : w ∈ l -> worker_in w l = true.
Proof.
  intros Hin. unfold worker_in. apply existsb_exists.
  exists w. split; [by apply list_elem_of_In |].
  unfold worker_is. apply Nat.eqb_refl.
Qed.

Lemma filter_all_websocket (ws released_ws : list worker) :
  Forall (fun w => is_websocket w = true) ws ->
  ws ⊆ released_ws ->
  filter (fun w => is_websocket w && worker_in w released_ws = true) ws = ws.
Proof.
  intros Hws Hsub. induction Hws as [| w ws Hw _ IH]; [done |].
  rewrite filter_cons. destruct (decide _) as [_ | Hn].
  - f_equal. apply IH. set_solver.
  - exfalso. apply Hn. rewrite Hw, worker_in_self; [done | set_solver].
Qed.

Lemma train_combination_run keys regs e run d l v s :
  (forall tr c, c <> FL_fit -> oracle tr c = None) ->
  Forall has_f_port regs ->
  Forall no_keyword_clash regs ->
  is_Some (strip_keys (expt_doc e) !! "model") ->
  exists r s' dlt,
    train_combination keys regs e run d l v s = (r, s') /\
    trace s' = trace s ++ dlt /\
    opened dlt = workers_for (S (next_oid s)) regs l v /\
    match r with
    | Ok _ =>
        Returned FL_fit ∈ dlt /\
        torn_down dlt = workers_for (S (next_oid s)) regs l v
    | Raise x => Raised FL_fit x ∈ dlt /\ torn_down dlt = []
    end.
Proof.
  intros Hok Hports Hclash [structure Hmodel].
  unfold train_combination.
  erewrite bind_ok; [| reflexivity].
  erewrite bind_ok; [| by rewrite connect_to_ttp_run, Hok].
  erewrite bind_ok; [| reflexivity].
  erewrite bind_ok;
    [| apply connect_to_workers_ok; [intros; by apply Hok | done | done]].
  set (ttp := new_ttp s l v).
  set (ws := workers_for _ regs l v).
  erewrite bind_ok; [| reflexivity].
  erewrite bind_ok;
    [| unfold load_selected_experiment, dict_getitem; rewrite Hmodel;
       erewrite bind_ok; [| reflexivity]; by apply ext_ok, Hok].
  erewrite bind_ok; [| unfold load_selected_run; by apply ext_ok, Hok].
  erewrite bind_ok; [| by apply ext_ok, Hok].
  erewrite bind_ok; [| by apply ext_ok, Hok].
  rewrite !with_events_app. simpl app.
  match goal with |- context [bind (ext FL_fit) _ ?s6] =>
    destruct (oracle (trace s6) FL_fit) as [x |] eqn:Hfit
  end.
  - erewrite bind_raise; [| by apply ext_raise].
    rewrite with_events_app. simpl app.
    eexists _, _, _. split; [reflexivity |].
    split; [simpl; rewrite <- !app_assoc; reflexivity |].
    split.
    + rewrite !opened_app, (opened_constructed ws)
        by apply fresh_workers_websocket.
      simpl. by rewrite app_nil_r.
    + split; [set_solver |].
      unfold torn_down.
      rewrite !registry_removed_app, registry_removed_constructed. done.
  - erewrite bind_ok; [| by apply ext_ok].
    erewrite bind_ok; [| by apply ext_ok, Hok].
    erewrite bind_ok; [| by apply fl_export_ok, Hok].
    erewrite bind_ok; [| reflexivity].
    erewrite bind_ok;
      [| apply terminate_connections_ok; intros; by apply Hok].
    erewrite bind_ok; [| reflexivity].
    unfold ret.
    eexists _, _, _. split; [reflexivity |].
    split; [simpl; rewrite <- !app_assoc; reflexivity |].
    split.
    + rewrite !opened_app, (opened_constructed ws)
        by apply fresh_workers_websocket.
      simpl. by rewrite opened_teardown, app_nil_r.
    + split; [set_solver |].
      unfold torn_down.
      rewrite !registry_removed_app, !released_app,
        registry_removed_constructed, released_constructed. simpl.
      rewrite registry_removed_teardown, released_teardown.
      rewrite filter_cons. simpl.
      apply (filter_all_websocket ws (ttp :: ws));
        [apply fresh_workers_websocket | set_solver].
Qed.

(** C2 (as amended). In a session in which only [fit()] may raise (no
    other external call raises, every stripped participant payload
    carries ['f_port'] and none repeats the keywords ['hook'] or
    ['is_client_worker'] of the constructor call, and the stripped
    experiment record has a ['model']), the handles opened are one per
    registration, and they are all torn down (removed from the registry
    and released) exactly when [fit()] returns; when [fit()] raises,
    [train_combination] propagates the exception without reaching
    [terminate_connections], and none of the opened handles is torn
    down. *)
Theorem handles_torn_down_only_if_fit_returns (keys : run_key)
    (regs : list reg_record) (e : expt_record) (run : run_record)
    (dockerised log_msgs verbose : bool) (s : world) :
  (forall tr c, c <> FL_fit -> oracle tr c = None) ->
  Forall has_f_port regs ->
  Forall no_keyword_clash regs ->
  is_Some (strip_keys (expt_doc e) !! "model") ->
  exists r s' d ws,
    train_combination keys regs e run dockerised log_msgs verbose s
      = (r, s') /\
    trace s' = trace s ++ d /\
    opened d = ws /\
    length ws = length regs /\
    match r with
    | Ok _ => Returned FL_fit ∈ d /\ torn_down d = ws
    | Raise x => Raised FL_fit x ∈ d /\ torn_down d = []
    end.
Proof.
  intros Hok Hports Hclash Hmodel.
  destruct (train_combination_run keys regs e run dockerised log_msgs
              verbose s Hok Hports Hclash Hmodel)
    as (r & s' & d & Hrun & Hd & Hop & Hr).
  exists r, s', d, (workers_for (S (next_oid s)) regs log_msgs verbose).
  repeat split; try done.
  apply workers_for_length.
Qed.

(* --------------------------------------------------------------------- *)
(* The schedule                                                          *)
(* --------------------------------------------------------------------- *)

Lemma dict_setitem_fresh {V} k (v : V) d :
  k ∉ dict_keys d -> dict_setitem k v d = d ++ [(k, v)].
Proof.
  unfold dict_keys. induction d as [| [k' v'] d IH]; simpl; [done |].
  intros Hk. destruct (decide (k = k')) as [-> | _]; [set_solver |].
  f_equal. apply IH. set_solver.
Qed.

Lemma dict_keys_setitem_elem {V} k (v : V) d k0 :
  k0 ∈ dict_keys (dict_setitem k v d) <-> k0 = k \/ k0 ∈ dict_keys d.
Proof.
  unfold dict_keys. induction d as [| [k' v'] d IH]; simpl.
  - set_solver.
  - destruct (decide (k = k')) as [-> | _]; simpl; set_solver.
Qed.

Lemma dict_keys_setitem_NoDup {V} k (v : V) d :
  NoDup (dict_keys d) -> NoDup (dict_keys (dict_setitem k v d)).
Proof.
  unfold dict_keys. induction d as [| [k' v'] d IH]; simpl; intros Hd.
  - repeat constructor. set_solver.
  - apply NoDup_cons in Hd as [Hk' Hd].
    destruct (decide (k = k')) as [-> | Hne]; simpl.
    + by apply NoDup_cons.
    + apply NoDup_cons. split; [| by apply IH].
      intros Hin. apply (dict_keys_setitem_elem k v d k') in Hin.
      destruct Hin as [-> | Hin]; [done | by apply Hk'].
Qed.

(** The inner loop stores one entry per run that matches. *)
Lemma add_runs_fold kwargs e d :
  add_runs kwargs e d =
  fold_left (fun d er => dict_setitem (pair_key er) (params_of kwargs er) d)
    (map (fun r => (e, r))
       (filter (fun r => expt_id (run_key_of r) = e_expt_id (expt_key_of e))
          (kw_runs kwargs)))
    d.
Proof.
  unfold add_runs. revert d.
  induction (kw_runs kwargs) as [| r rs IH]; intros d; simpl; [done |].
  rewrite filter_cons.
  destruct (String.eqb_spec (expt_id (run_key_of r)) (e_expt_id (expt_key_of e)))
    as [Heq | Hne].
  - destruct (decide _) as [_ | Hn]; [| done]. simpl. apply IH.
  - destruct (decide _) as [Hy | _]; [done |]. apply IH.
Qed.

Lemma training_combinations_fold kwargs :
  training_combinations kwargs =
  fold_left (fun d er => dict_setitem (pair_key er) (params_of kwargs er) d)
    (matching_pairs (kw_experiments kwargs) (kw_runs kwargs)) [].
Proof.
  unfold training_combinations, matching_pairs.
  generalize (@nil (combination_key * expt_run_params)).
  induction (kw_experiments kwargs) as [| e es IH]; intros d; simpl; [done |].
  by rewrite fold_left_app, IH, add_runs_fold.
Qed.

Lemma fold_setitem_NoDup {V} (items : list (combination_key * V)) d :
  NoDup (dict_keys d) ->
  NoDup (dict_keys (fold_left (fun d kv => dict_setitem kv.1 kv.2 d) items d)).
Proof.
  revert d. induction items as [| [k v] items IH]; intros d Hd; simpl; [done |].
  by apply IH, dict_keys_setitem_NoDup.
Qed.

Lemma fold_setitem_distinct {V} (items : list (combination_key * V)) d :
  NoDup (dict_keys d ++ dict_keys items) ->
  fold_left (fun d kv => dict_setitem kv.1 kv.2 d) items d = d ++ items.
Proof.
  revert d. induction items as [| [k v] items IH]; intros d Hd; simpl.
  - by rewrite app_nil_r.
  - unfold dict_keys in *. simpl in Hd.
    apply NoDup_app in Hd as (Hd & Hdis & Hitems).
    apply NoDup_cons in Hitems as [Hk Hitems].
    rewrite dict_setitem_fresh by (unfold dict_keys; set_solver).
    rewrite IH; [by rewrite <- app_assoc |].
    rewrite fmap_app. simpl. rewrite <- app_assoc. simpl.
    apply NoDup_app. split; [done |]. split; [| by apply NoDup_cons].
    set_solver.
Qed.

Lemma fold_left_over_map {A B C} (f : A -> C -> A) (g : B -> C) l a :
  fold_left f (map g l) a = fold_left (fun a x => f a (g x)) l a.
Proof. revert a. induction l as [| x l IH]; intros a; simpl; [done |]. apply IH. Qed.

Lemma training_combinations_NoDup kwargs :
  NoDup (dict_keys (training_combinations kwargs)).
Proof.
  rewrite training_combinations_fold.
  pose proof (fold_setitem_NoDup
                (map (fun er => (pair_key er, params_of kwargs er))
                   (matching_pairs (kw_experiments kwargs) (kw_runs kwargs)))
                [] (NoDup_nil_2)) as H.
  by rewrite fold_left_over_map in H.
Qed.

Lemma matching_pairs_match es rs er :
  er ∈ matching_pairs es rs ->
  expt_id (run_key_of er.2) = e_expt_id (expt_key_of er.1).
Proof.
  unfold matching_pairs. intros Hin.
  apply list_elem_of_In, in_flat_map in Hin as (e & _ & Hin).
  apply in_map_iff in Hin as (r & <- & Hin).
  apply list_elem_of_In, list_elem_of_filter in Hin as [Hm _]. exact Hm.
Qed.

Lemma fold_setitem_keys {V} (items : list (combination_key * V)) d k :
  k ∈ dict_keys (fold_left (fun d kv => dict_setitem kv.1 kv.2 d) items d) <->
  k ∈ dict_keys d \/ k ∈ dict_keys items.
Proof.
  revert d. induction items as [| [k' v'] items IH]; intros d; simpl.
  - unfold dict_keys. simpl. set_solver.
  - rewrite IH, dict_keys_setitem_elem. unfold dict_keys. simpl.
    set_solver.
Qed.

(** Whatever the records, a key is scheduled exactly when it is the key
    of a matching pair. *)
Lemma scheduled_keys kwargs k :
  k ∈ dict_keys (training_combinations kwargs) <->
  exists er, er ∈ matching_pairs (kw_experiments kwargs) (kw_runs kwargs) /\
             pair_key er = k.
Proof.
  rewrite training_combinations_fold.
  rewrite <- (fold_left_over_map
                (fun d kv => dict_setitem kv.1 kv.2 d)
                (fun er => (pair_key er, params_of kwargs er))).
  rewrite fold_setitem_keys. unfold dict_keys. simpl.
  rewrite <- list_fmap_compose. split.
  - intros [Hin | Hin]; [set_solver |].
    apply list_elem_of_fmap in Hin as (er & -> & Hin). by exists er.
  - intros (er & Hin & <-). right. apply list_elem_of_fmap. by exists er.
Qed.

(** C5 (as amended). When the matching (experiment, run) pairs have
    pairwise distinct keys, [start_proc] schedules exactly one
    combination per matching pair, in experiment-major order, keyed by
    the run's (project_id, expt_id, run_id) and holding that experiment
    and that run; every scheduled combination joins an experiment and a
    run with the same experiment id. *)
Theorem one_combination_per_matching_pair (kwargs : proc_kwargs) :
  NoDup (map pair_key
           (matching_pairs (kw_experiments kwargs) (kw_runs kwargs))) ->
  training_combinations kwargs =
    map (fun er => (pair_key er, params_of kwargs er))
      (matching_pairs (kw_experiments kwargs) (kw_runs kwargs)) /\
  length (training_combinations kwargs) =
    length (matching_pairs (kw_experiments kwargs) (kw_runs kwargs)) /\
  forall k kw,
    (k, kw) ∈ training_combinations kwargs ->
    k = key_tuple (run_key_of (p_run kw)) /\
    expt_id (run_key_of (p_run kw)) = e_expt_id (expt_key_of (p_experiment kw)).
Proof.
  intros Hnd.
  assert (Heq : training_combinations kwargs =
                map (fun er => (pair_key er, params_of kwargs er))
                  (matching_pairs (kw_experiments kwargs) (kw_runs kwargs))).
  { rewrite training_combinations_fold.
    rewrite <- (fold_left_over_map
                  (fun d kv => dict_setitem kv.1 kv.2 d)
                  (fun er => (pair_key er, params_of kwargs er))).
    rewrite fold_setitem_distinct; [done |].
    unfold dict_keys. simpl. by rewrite <- list_fmap_compose. }
  split; [exact Heq |]. split; [by rewrite Heq, length_map |].
  intros k kw Hin. rewrite Heq in Hin.
  apply list_elem_of_fmap in Hin as (er & [= -> ->] & Hin).
  split; [reflexivity |]. simpl. exact (matching_pairs_match _ _ _ Hin).
Qed.

(* --------------------------------------------------------------------- *)
(* The scheduling run                                                    *)
(* --------------------------------------------------------------------- *)

Lemma runs_all_keys items s res s' :
  runs_all items s res s' -> dict_keys res = dict_keys items.
Proof.
  induction 1 as [| k kw rest s r s1 res s2 _ _ IH]; [done |].
  unfold dict_keys in *. simpl. f_equal. exact IH.
Qed.

Lemma run_combinations_spec items acc s :
  NoDup (dict_keys acc ++ dict_keys items) ->
  match run_combinations items acc s with
  | (Ok completed, s') =>
      exists res, completed = acc ++ res /\ runs_all items s res s'
  | (Raise e, s') =>
      exists pre k kw post res s1,
        items = pre ++ (k, kw) :: post /\
        runs_all pre s res s1 /\
        start_expt_run_training kw s1 = (Raise e, s')
  end.
Proof.
  revert acc s. induction items as [| [k kw] rest IH]; intros acc s Hnd; simpl.
  - exists []. split; [by rewrite app_nil_r | constructor].
  - unfold bind.
    destruct (start_expt_run_training kw s) as [[r | e] s1] eqn:Hrun.
    + unfold dict_keys in Hnd. simpl in Hnd.
      assert (Hfresh : k ∉ dict_keys acc).
      { apply NoDup_app in Hnd as (_ & Hdis & _). unfold dict_keys.
        intros Hin. apply (Hdis k Hin). set_solver. }
      rewrite dict_setitem_fresh by done.
      specialize (IH (acc ++ [(k, r)]) s1).
      destruct (run_combinations rest (acc ++ [(k, r)]) s1)
        as [[completed | e] s2].
      * destruct IH as (res & -> & Hres).
        { unfold dict_keys. rewrite fmap_app. simpl.
          by rewrite <- app_assoc. }
        exists ((k, r) :: res). split; [by rewrite <- app_assoc |].
        by econstructor.
      * destruct IH as (pre & k' & kw' & post & res & s1' & -> & Hpre & Hfail).
        { unfold dict_keys. rewrite fmap_app. simpl.
          by rewrite <- app_assoc. }
        exists ((k, kw) :: pre), k', kw', post, ((k, r) :: res), s1'.
        split; [done |]. split; [by econstructor | done].
    + exists [], k, kw, rest, [], s. split; [done |].
      split; [constructor | done].
Qed.

(** C4 (as amended). [start_proc] returns a mapping only when the
    session of every scheduled combination returned: its keys are then
    exactly the scheduled combinations, in order, each with the result of
    its session. When the session of a combination raises, [start_proc]
    raises that exception from the state that session left: no mapping
    is returned and the combinations after it are not run. *)
Theorem start_proc_returns_all_or_raises (kwargs : proc_kwargs) (s : world) :
  match start_proc kwargs s with
  | (Ok completed, s') =>
      dict_keys completed = dict_keys (training_combinations kwargs) /\
      runs_all (training_combinations kwargs) s completed s'
  | (Raise e, s') =>
      exists pre k kw post res s1,
        training_combinations kwargs = pre ++ (k, kw) :: post /\
        runs_all pre s res s1 /\
        start_expt_run_training kw s1 = (Raise e, s')
  end.
Proof.
  unfold start_proc. unfold bind at 1. unfold logging at 1, ret at 1.
  pose proof (run_combinations_spec (training_combinations kwargs) [] s) as H.
  destruct (run_combinations (training_combinations kwargs) [] s)
    as [[completed | e] s'].
  - destruct H as (res & -> & Hres); [apply training_combinations_NoDup |].
    split; [by apply runs_all_keys in Hres | exact Hres].
  - apply H, training_combinations_NoDup.
Qed.

(* ===================================================================== *)
(* Further properties of the module                                      *)
(* ===================================================================== *)

(* --------------------------------------------------------------------- *)
(* What a returning statement tells                                      *)
(* --------------------------------------------------------------------- *)

Lemma bind_Ok_inv {A B} (m : M A) (k : A -> M B) s b s' :
  bind m k s = (Ok b, s') ->
  exists a s1, m s = (Ok a, s1) /\ k a s1 = (Ok b, s').
Proof.
  unfold bind. destruct (m s) as [[a | e] s1]; [| done].
  intros H. by exists a, s1.
Qed.

Lemma logging_Ok_inv s u s' : logging s = (Ok u, s') -> s' = s.
Proof. by intros [= _ <-]. Qed.

Lemma ext_Ok_inv c s u s' :
  ext c s = (Ok u, s') ->
  oracle (trace s) c = None /\ s' = with_events s [Returned c].
Proof.
  unfold ext. destruct (oracle (trace s) c); [done |]. by intros [= _ <-].
Qed.

Lemma fl_export_Ok_inv res_dir s r s' :
  fl_export res_dir s = (Ok r, s') ->
  r = export_result (trace s) res_dir /\
  s' = with_events s [Returned (FL_export res_dir)].
Proof.
  unfold fl_export. destruct (oracle (trace s) _); [done |].
  by intros [= <- <-].
Qed.

Lemma connect_to_ttp_Ok_inv l v s ttp s' :
  connect_to_ttp l v s = (Ok ttp, s') ->
  ttp = new_ttp s l v /\ s' = world_with_ttp s l v.
Proof.
  rewrite connect_to_ttp_run. destruct (oracle (trace s) _); [done |].
  by intros [= <- <-].
Qed.

Lemma terminate_loop_Ok_inv ws s u s' :
  terminate_loop ws s = (Ok u, s') ->
  s' = with_events s (teardown_events ws).
Proof.
  revert s. induction ws as [| w ws IH]; intros s; simpl.
  - intros [= _ <-]. unfold with_events. simpl. rewrite app_nil_r.
    by destruct s.
  - intros H. apply bind_Ok_inv in H as (a & s1 & Hrm & H).
    apply ext_Ok_inv in Hrm as [_ ->].
    apply bind_Ok_inv in H as (a' & s2 & Hdel & H).
    rewrite del_local_run in Hdel. injection Hdel as _ <-.
    apply IH in H as ->.
    by rewrite log_event_with_events, !with_events_app.
Qed.

Lemma terminate_connections_Ok_inv ttp ws s u s' :
  terminate_connections ttp ws s = (Ok u, s') ->
  s' = with_events (identity_restored s)
         (Returned (Remove_worker_from_local_worker_registry ttp)
            :: Del ttp :: teardown_events ws).
Proof.
  rewrite terminate_connections_run.
  destruct (oracle _ _); [done |].
  intros H. apply terminate_loop_Ok_inv in H as ->.
  by rewrite !log_event_with_events, !with_events_app.
Qed.

Lemma torn_down_full_session (ttp : worker) (ws : list worker) pre mid :
  is_websocket ttp = false ->
  Forall (fun w => is_websocket w = true) ws ->
  registry_removed pre = [] -> released pre = [] ->
  registry_removed mid = [] -> released mid = [] ->
  torn_down
    (pre ++ mid ++
     Returned (Remove_worker_from_local_worker_registry ttp)
       :: Del ttp :: teardown_events ws) = ws.
Proof.
  intros Http Hws Hp1 Hp2 Hm1 Hm2. unfold torn_down.
  rewrite !registry_removed_app, !released_app, Hp1, Hp2, Hm1, Hm2. simpl.
  rewrite registry_removed_teardown, released_teardown.
  rewrite filter_cons. simpl. rewrite Http. simpl.
  destruct (decide (false = true)) as [Hbad | _]; [done |].
  apply (filter_all_websocket ws (ttp :: ws)); [done | set_solver].
Qed.

(** Whatever the environment, a session that returns has run every one
    of its steps. *)
Lemma train_combination_Ok_inv keys regs e run d l v s r s' :
  train_combination keys regs e run d l v s = (Ok r, s') ->
  exists mid,
    let ttp := new_ttp s l v in
    let ws := workers_for (S (next_oid s)) regs l v in
    registry_removed mid = [] /\ released mid = [] /\ opened mid = [] /\
    Forall (fun ev => engine_event ev = true) mid /\
    In (Returned FL_fit) mid /\
    trace s' =
      trace s
      ++ [Constructed ttp; Set_sy_local_worker ttp;
          Set_grid_hook_local_worker ttp]
      ++ map Constructed ws
      ++ mid
      ++ [Set_grid_hook_local_worker REF_WORKER;
          Set_sy_local_worker REF_WORKER]
      ++ Returned (Remove_worker_from_local_worker_registry ttp)
           :: Del ttp :: teardown_events ws /\
    sy_local_worker s' = REF_WORKER /\
    grid_hook_local_worker s' = REF_WORKER /\
    exists tr, r = export_result tr
                 (os_path_join out_dir
                    [project_id keys; expt_id keys; run_id keys]).
Proof.
  unfold train_combination. intros H.
  apply bind_Ok_inv in H as (? & s1 & H1 & H). apply logging_Ok_inv in H1 as ->.
  apply bind_Ok_inv in H as (ttp & s2 & H2 & H).
  apply connect_to_ttp_Ok_inv in H2 as [-> ->].
  apply bind_Ok_inv in H as (? & s3 & H3 & H). apply logging_Ok_inv in H3 as ->.
  apply bind_Ok_inv in H as (ws & s4 & H4 & H).
  rewrite connect_to_workers_run in H4.
  apply connect_loop_returns in H4 as [-> ->]. simpl app in H.
  apply bind_Ok_inv in H as (? & s5 & H5 & H). apply logging_Ok_inv in H5 as ->.
  apply bind_Ok_inv in H as (? & s6 & H6 & H).
  unfold load_selected_experiment in H6.
  apply bind_Ok_inv in H6 as (structure & s6' & Hget & H6).
  unfold dict_getitem in Hget.
  destruct (strip_keys (expt_doc e) !! "model") as [st |]; [| done].
  injection Hget as <- <-.
  apply ext_Ok_inv in H6 as [_ ->].
  apply bind_Ok_inv in H as (? & s7 & H7 & H).
  unfold load_selected_run in H7. apply ext_Ok_inv in H7 as [_ ->].
  apply bind_Ok_inv in H as (? & s8 & H8 & H). apply ext_Ok_inv in H8 as [_ ->].
  apply bind_Ok_inv in H as (? & s9 & H9 & H). apply ext_Ok_inv in H9 as [_ ->].
  apply bind_Ok_inv in H as (? & s10 & H10 & H).
  apply ext_Ok_inv in H10 as [_ ->].
  apply bind_Ok_inv in H as (? & s11 & H11 & H).
  apply ext_Ok_inv in H11 as [_ ->].
  apply bind_Ok_inv in H as (out_paths & s12 & H12 & H).
  apply fl_export_Ok_inv in H12 as [-> ->].
  apply bind_Ok_inv in H as (? & s13 & H13 & H).
  apply logging_Ok_inv in H13 as ->.
  apply bind_Ok_inv in H as (? & s14 & H14 & H).
  apply terminate_connections_Ok_inv in H14 as ->.
  apply bind_Ok_inv in H as (? & s15 & H15 & H).
  apply logging_Ok_inv in H15 as ->.
  injection H as <- <-.
  rewrite !with_events_app.
  set (res_dir := os_path_join out_dir
                    [project_id keys; expt_id keys; run_id keys]).
  exists [Returned (New_Model st);
          Returned (New_Arguments (strip_keys (run_doc run)));
          Returned (New_FederatedLearning (new_ttp s l v)
                      (workers_for (S (next_oid s)) regs l v));
          Returned FL_load; Returned FL_fit;
          Returned (Path_mkdir res_dir); Returned (FL_export res_dir)].
  split; [reflexivity |]. split; [reflexivity |]. split; [reflexivity |].
  split; [by repeat constructor |].
  split; [simpl; tauto |].
  split; [simpl; by rewrite <- !app_assoc |].
  split; [reflexivity |]. split; [reflexivity |].
  eexists. reflexivity.
Qed.

(* --------------------------------------------------------------------- *)
(* Sessions that return                                                  *)
(* --------------------------------------------------------------------- *)

(** X1. Whatever the environment, when [train_combination] returns, it
    has opened one handle per registration, every handle it opened has
    been removed from the registry and released, both global references
    are back on REF_WORKER, and the value returned is the path mapping
    that [fl_expt.export] gave for the combination's directory. *)
Theorem returning_session_is_fully_torn_down (keys : run_key)
    (regs : list reg_record) (e : expt_record) (run : run_record)
    (dockerised log_msgs verbose : bool) (s s' : world) (r : pyval) :
  train_combination keys regs e run dockerised log_msgs verbose s
    = (Ok r, s') ->
  exists d,
    trace s' = trace s ++ d /\
    length (opened d) = length regs /\
    torn_down d = opened d /\
    sy_local_worker s' = REF_WORKER /\
    grid_hook_local_worker s' = REF_WORKER /\
    exists tr,
      r = export_result tr
            (os_path_join out_dir [project_id keys; expt_id keys; run_id keys]).
Proof.
  intros H. apply train_combination_Ok_inv in H
    as (mid & Hrm & Hrel & Hop & _ & _ & Htr & Hsy & Hgrid & Hres).
  set (ttp := new_ttp s log_msgs verbose) in *.
  set (ws := workers_for (S (next_oid s)) regs log_msgs verbose) in *.
  eexists. split; [exact Htr |].
  assert (Hws : Forall (fun w => is_websocket w = true) ws)
    by apply fresh_workers_websocket.
  assert (Hopened :
    opened ([Constructed ttp; Set_sy_local_worker ttp;
             Set_grid_hook_local_worker ttp]
            ++ map Constructed ws ++ mid
            ++ [Set_grid_hook_local_worker REF_WORKER;
                Set_sy_local_worker REF_WORKER]
            ++ Returned (Remove_worker_from_local_worker_registry ttp)
                 :: Del ttp :: teardown_events ws) = ws).
  { rewrite !opened_app, (opened_constructed ws Hws), Hop. simpl.
    by rewrite opened_teardown, app_nil_r. }
  split; [rewrite Hopened; apply workers_for_length |].
  split; [| done].
  rewrite Hopened.
  rewrite (app_assoc (map Constructed ws)), (app_assoc _ (map Constructed ws ++ mid)).
  apply torn_down_full_session; try done.
  - rewrite !registry_removed_app, registry_removed_constructed, Hrm. done.
  - rewrite !released_app, released_constructed, Hrel. done.
Qed.

(* --------------------------------------------------------------------- *)
(* The signals around a session                                          *)
(* --------------------------------------------------------------------- *)

Lemma session_log_shape kw s :
  exists ev0 mid tail,
    trace (start_expt_run_training kw s).2 = trace s ++ ev0 :: mid ++ tail /\
    is_initialise_signal ev0 = true /\
    Forall quiet mid /\
    (tail = [] \/ exists evt, tail = [evt] /\ is_terminate_signal evt = true).
Proof.
  unfold start_expt_run_training.
  unfold bind at 1. unfold logging at 1, ret at 1.
  unfold bind at 1. unfold ext at 1.
  destruct (oracle (trace s) _) as [e0 |]; simpl.
  { eexists _, [], []. split; [reflexivity |]. split; [done |].
    split; [constructor | by left]. }
  set (init := Returned _).
  unfold bind at 1. unfold try_except, bind at 1.
  destruct (train_combination_quiet (p_keys kw) (p_registrations kw)
              (p_experiment kw) (p_run kw) (p_dockerised kw) (p_log_msgs kw)
              (p_verbose kw) (log_event init s)) as [d [Hd Fd]].
  destruct (train_combination _ _ _ _ _ _ _ (log_event init s))
    as [[r | e] s2]; simpl in Hd |- *.
  - unfold bind, logging, ret, ext; simpl.
    destruct (oracle (trace s2) _); simpl; rewrite Hd, <- !app_assoc; simpl;
      eexists init, d, [_]; (split; [reflexivity |]); (split; [done |]);
      (split; [done |]); right; eexists; by split.
  - destruct (isinstance_OSError e); simpl.
    + unfold bind, logging, ret, ext; simpl.
      destruct (oracle (trace s2) _); simpl; rewrite Hd, <- !app_assoc; simpl;
        eexists init, d, [_]; (split; [reflexivity |]); (split; [done |]);
        (split; [done |]); right; eexists; by split.
    + rewrite Hd, <- !app_assoc. simpl.
      exists init, d, []. rewrite app_nil_r. by repeat split; try left.
Qed.

(** X2. In every run of [start_expt_run_training] the first event is the
    initialise signal; everything the bracket does (constructing the
    coordinator and the workers, the training engine, the teardown)
    comes after it; and when [Governor.terminate] is invoked, that is
    the last event of the combination. *)
Theorem initialise_first_terminate_last (kw : expt_run_params) (s : world) :
  exists ev0 mid tail,
    trace (start_expt_run_training kw s).2 = trace s ++ ev0 :: mid ++ tail /\
    is_initialise_signal ev0 = true /\
    Forall quiet mid /\
    (tail = [] \/ exists evt, tail = [evt] /\ is_terminate_signal evt = true).
Proof. apply session_log_shape. Qed.

Lemma session_Ok_iff (kw : expt_run_params)
    (s s' : world) (r : pyval) :
  start_expt_run_training kw s = (Ok r, s') <->
  oracle (trace s)
    (Governor_initialise (p_dockerised kw) (p_keys kw) (p_registrations kw))
    = None /\
  exists s2,
    bracket kw (after_initialise kw s) = (Ok r, s2) /\
    oracle (trace s2)
      (Governor_terminate (p_dockerised kw) (p_keys kw) (p_registrations kw))
      = None /\
    s' = log_event
           (Returned (Governor_terminate (p_dockerised kw) (p_keys kw)
                        (p_registrations kw))) s2.
Proof.
  unfold start_expt_run_training, bracket, after_initialise.
  unfold bind at 1. unfold logging at 1, ret at 1.
  unfold bind at 1. unfold ext at 1.
  destruct (oracle (trace s) _) as [e0 |]; simpl.
  { split; [done | by intros [? _]]. }
  unfold bind at 1. unfold try_except, bind at 1.
  destruct (train_combination _ _ _ _ _ _ _ _) as [[r0 | e] s2]; simpl.
  - unfold bind, logging, ret, ext; simpl.
    destruct (oracle (trace s2) _) eqn:Hterm; simpl.
    + split; [done |]. intros [_ (s2' & [= <- <-] & Hn & _)]. congruence.
    + split.
      * intros [= -> <-]. split; [done |]. by exists s2.
      * intros [_ (s2' & [= <- <-] & _ & ->)]. done.
  - split; [| by intros [_ (s2' & ? & _)]].
    destruct (isinstance_OSError e); simpl; [| done].
    unfold bind, logging, ret, ext, raise; simpl.
    by destruct (oracle (trace s2) _).
Qed.

(** X3. [start_expt_run_training] returns a result exactly when the
    initialise signal went through, the bracket returned that result and
    the terminate signal went through: a terminate signal that raises
    discards the result of a training that completed. *)
Theorem session_returns_iff_all_three_succeed (kw : expt_run_params)
    (s s' : world) (r : pyval) :
  start_expt_run_training kw s = (Ok r, s') <->
  oracle (trace s)
    (Governor_initialise (p_dockerised kw) (p_keys kw) (p_registrations kw))
    = None /\
  exists s2,
    bracket kw (after_initialise kw s) = (Ok r, s2) /\
    oracle (trace s2)
      (Governor_terminate (p_dockerised kw) (p_keys kw) (p_registrations kw))
      = None /\
    s' = log_event
           (Returned (Governor_terminate (p_dockerised kw) (p_keys kw)
                        (p_registrations kw))) s2.
Proof. apply session_Ok_iff. Qed.

(* --------------------------------------------------------------------- *)
(* A scheduling run, session by session                                  *)
(* --------------------------------------------------------------------- *)

Lemma terminate_signal_not_initialise ev :
  is_terminate_signal ev = true -> is_initialise_signal ev = false.
Proof. destruct ev as [| c | c e | | |]; try done; by destruct c. Qed.

Lemma session_initialise_count kw s :
  initialise_invocations (trace (start_expt_run_training kw s).2) =
  initialise_invocations (trace s) + 1.
Proof.
  destruct (session_log_shape kw s)
    as (ev0 & mid & tail & -> & Hev0 & Hmid & Htail).
  rewrite initialise_invocations_app.
  change (ev0 :: mid ++ tail) with ([ev0] ++ mid ++ tail).
  rewrite !initialise_invocations_app, initialise_invocations_one, Hev0,
    (initialise_invocations_quiet mid Hmid).
  destruct Htail as [-> | (evt & -> & Hevt)]; [done |].
  by rewrite initialise_invocations_one,
    (terminate_signal_not_initialise evt Hevt).
Qed.

Lemma run_combinations_initialise_count items acc s :
  exists n,
    initialise_invocations (trace (run_combinations items acc s).2) =
      initialise_invocations (trace s) + n /\
    match (run_combinations items acc s).1 with
    | Ok _ => n = length items
    | Raise _ => 1 <= n <= length items
    end.
Proof.
  revert acc s. induction items as [| [k kw] rest IH]; intros acc s; simpl.
  - exists 0. split; [lia | done].
  - unfold bind. pose proof (session_initialise_count kw s) as Hone.
    destruct (start_expt_run_training kw s) as [[r | e] s1]; simpl in *.
    + destruct (IH (dict_setitem k r acc) s1) as (n & Hn & Hres).
      exists (S n). split; [lia |].
      destruct (run_combinations rest _ s1).1; lia.
    + exists 1. split; lia.
Qed.

Lemma session_Ok_identity kw s r s' :
  start_expt_run_training kw s = (Ok r, s') ->
  sy_local_worker s' = REF_WORKER /\ grid_hook_local_worker s' = REF_WORKER.
Proof.
  intros H. apply session_Ok_iff in H as (_ & s2 & Hrun & _ & ->).
  unfold bracket in Hrun.
  by apply train_combination_Ok_inv in Hrun
    as (mid & _ & _ & _ & _ & _ & _ & Hsy & Hgrid & _).
Qed.

Lemma runs_all_identity items s res s' :
  runs_all items s res s' -> items <> [] ->
  sy_local_worker s' = REF_WORKER /\ grid_hook_local_worker s' = REF_WORKER.
Proof.
  induction 1 as [| k kw rest s r s1 res s2 Hrun Hrest IH]; [done |].
  intros _. destruct rest as [| item rest].
  - inversion Hrest; subst. by apply session_Ok_identity in Hrun.
  - by apply IH.
Qed.

(** X5. When [start_proc] returns and at least one combination was
    scheduled, both global references are on REF_WORKER again. *)
Theorem completed_run_ends_on_reference_identity (kwargs : proc_kwargs)
    (s s' : world) (completed : list (combination_key * pyval)) :
  start_proc kwargs s = (Ok completed, s') ->
  training_combinations kwargs <> [] ->
  sy_local_worker s' = REF_WORKER /\ grid_hook_local_worker s' = REF_WORKER.
Proof.
  unfold start_proc. unfold bind at 1. unfold logging at 1, ret at 1.
  intros Hrun Hne.
  pose proof (run_combinations_spec (training_combinations kwargs) [] s
                (training_combinations_NoDup kwargs)) as Hspec.
  rewrite Hrun in Hspec. destruct Hspec as (res & _ & Hall).
  by apply runs_all_identity in Hall.
Qed.

(* --------------------------------------------------------------------- *)
(* Sessions that fail                                                    *)
(* --------------------------------------------------------------------- *)

(** X6. When [fit()] raises and nothing else does (no other external
    call raises, every stripped participant payload carries ['f_port']
    and none repeats the keywords ['hook'] or ['is_client_worker'] of
    the constructor call, and the stripped experiment record has a
    ['model']), [train_combination] ends with that exception while both
    global references still point to the coordinator this session
    constructed: the identity is not restored to REF_WORKER. *)
Theorem failed_fit_leaves_coordinator_installed (keys : run_key)
    (regs : list reg_record) (e : expt_record) (run : run_record)
    (dockerised log_msgs verbose : bool) (s : world) (x : exn) :
  (forall tr c, c <> FL_fit -> oracle tr c = None) ->
  (forall tr, oracle tr FL_fit = Some x) ->
  Forall has_f_port regs ->
  Forall no_keyword_clash regs ->
  is_Some (strip_keys (expt_doc e) !! "model") ->
  exists s',
    train_combination keys regs e run dockerised log_msgs verbose s
      = (Raise x, s') /\
    sy_local_worker s' = new_ttp s log_msgs verbose /\
    grid_hook_local_worker s' = new_ttp s log_msgs verbose /\
    Constructed (new_ttp s log_msgs verbose) ∈ trace s'.
Proof.
  intros Hok Hfit Hports Hclash [structure Hmodel].
  unfold train_combination.
  erewrite bind_ok; [| reflexivity].
  erewrite bind_ok; [| by rewrite connect_to_ttp_run, Hok].
  erewrite bind_ok; [| reflexivity].
  erewrite bind_ok;
    [| apply connect_to_workers_ok; [intros; by apply Hok | done | done]].
  erewrite bind_ok; [| reflexivity].
  erewrite bind_ok;
    [| unfold load_selected_experiment, dict_getitem; rewrite Hmodel;
       erewrite bind_ok; [| reflexivity]; by apply ext_ok, Hok].
  erewrite bind_ok; [| unfold load_selected_run; by apply ext_ok, Hok].
  erewrite bind_ok; [| by apply ext_ok, Hok].
  erewrite bind_ok; [| by apply ext_ok, Hok].
  erewrite bind_raise; [| by apply ext_raise].
  eexists. split; [reflexivity |].
  split; [reflexivity |]. split; [reflexivity |].
  simpl. set_solver.
Qed.

(** X7. When the stripped experiment record has no ['model'] entry (and
    no external call raises, every stripped participant payload carries
    ['f_port'] and none repeats the keywords ['hook'] or
    ['is_client_worker'] of the constructor call),
    [train_combination] raises KeyError after it has installed
    the coordinator (both global references point to it) and opened
    every worker, and before any call that builds or drives the training
    engine; none of the opened handles is torn down and the identity is
    not restored. *)
Theorem missing_model_fails_after_connecting (keys : run_key)
    (regs : list reg_record) (e : expt_record) (run : run_record)
    (dockerised log_msgs verbose : bool) (s : world) :
  (forall tr c, oracle tr c = None) ->
  Forall has_f_port regs ->
  Forall no_keyword_clash regs ->
  strip_keys (expt_doc e) !! "model" = None ->
  exists s' d,
    train_combination keys regs e run dockerised log_msgs verbose s
      = (Raise KeyError, s') /\
    trace s' = trace s ++ d /\
    d = [Constructed (new_ttp s log_msgs verbose);
         Set_sy_local_worker (new_ttp s log_msgs verbose);
         Set_grid_hook_local_worker (new_ttp s log_msgs verbose)]
        ++ map Constructed
             (workers_for (S (next_oid s)) regs log_msgs verbose) /\
    sy_local_worker s' = new_ttp s log_msgs verbose /\
    grid_hook_local_worker s' = new_ttp s log_msgs verbose /\
    length (opened d) = length regs /\
    torn_down d = [] /\
    Forall (fun ev => engine_event ev = false) d.
Proof.
  intros Hok Hports Hclash Hmodel.
  unfold train_combination.
  erewrite bind_ok; [| reflexivity].
  erewrite bind_ok; [| by rewrite connect_to_ttp_run, Hok].
  erewrite bind_ok; [| reflexivity].
  erewrite bind_ok;
    [| apply connect_to_workers_ok; [intros; by apply Hok | done | done]].
  erewrite bind_ok; [| reflexivity].
  erewrite bind_raise;
    [| unfold load_selected_experiment, dict_getitem; rewrite Hmodel;
       reflexivity].
  set (ws := workers_for _ regs log_msgs verbose).
  eexists _, _. split; [reflexivity |].
  split; [simpl; rewrite <- !app_assoc; reflexivity |].
  split; [reflexivity |]. split; [reflexivity |]. split; [reflexivity |].
  split; [| split].
  - rewrite opened_app, (opened_constructed ws) by apply fresh_workers_websocket.
    simpl. apply workers_for_length.
  - unfold torn_down.
    by rewrite registry_removed_app, registry_removed_constructed.
  - apply Forall_app. split; [by repeat constructor |].
    apply Forall_forall. intros ev Hin.
    apply list_elem_of_fmap in Hin as (w & -> & _). done.
Qed.

(* --------------------------------------------------------------------- *)
(* Opening and closing, whatever the environment                         *)
(* --------------------------------------------------------------------- *)

(** X8. When the records before the k-th open and the stripped payload
    of the k-th record has no ['f_port'], [connect_to_workers] raises
    KeyError from the state the earlier records left: no connection is
    attempted for the k-th record or any record after it, and the
    handles already opened stay as they are. *)
Theorem missing_f_port_raises_key_error (keys : run_key)
    (pre post : list reg_record) (r : reg_record)
    (dockerised log_msgs verbose : bool) (s s1 : world) (ws : list worker) :
  connect_to_workers keys pre dockerised log_msgs verbose s = (Ok ws, s1) ->
  strip_keys (participant r) !! "f_port" = None ->
  connect_to_workers keys (pre ++ r :: post) dockerised log_msgs verbose s
    = (Raise KeyError, s1).
Proof.
  rewrite !connect_to_workers_run. intros Hpre Hport.
  rewrite connect_loop_app, Hpre. cbn [connect_loop].
  unfold bind at 1. by rewrite worker_config_run, Hport.
Qed.

(** X23. When the records before the k-th open and the stripped payload
    of the k-th record has ['f_port'] but repeats ['hook'] or
    ['is_client_worker'], which the call [WebsocketClientWorker(
    hook=grid_hook, is_client_worker=False, **config)] passes
    explicitly, [connect_to_workers] raises TypeError from the state the
    earlier records left: the constructor is not run for the k-th record
    or any record after it, and the handles already opened stay as they
    are. *)
Theorem repeated_keyword_raises_type_error (keys : run_key)
    (pre post : list reg_record) (r : reg_record)
    (dockerised log_msgs verbose : bool) (s s1 : world) (ws : list worker) :
  connect_to_workers keys pre dockerised log_msgs verbose s = (Ok ws, s1) ->
  has_f_port r ->
  is_Some (strip_keys (participant r) !! "hook") \/
  is_Some (strip_keys (participant r) !! "is_client_worker") ->
  connect_to_workers keys (pre ++ r :: post) dockerised log_msgs verbose s
    = (Raise TypeError, s1).
Proof.
  rewrite !connect_to_workers_run. intros Hpre [p Hp] Hclash.
  rewrite connect_loop_app, Hpre. cbn [connect_loop].
  unfold bind at 1. rewrite worker_config_run, Hp.
  unfold bind at 1. rewrite new_websocket_client_worker_run.
  assert (Hk : keyword_clash (expected_config r log_msgs verbose) = true).
  { unfold keyword_clash. apply orb_true_iff.
    destruct Hclash as [H | H]; [left | right];
      apply bool_decide_eq_true_2; rewrite expected_config_lookup; exact H. }
  by rewrite Hk.
Qed.

Lemma connect_loop_cons r rest l v acc s :
  connect_loop (r :: rest) l v acc s =
  match strip_keys (participant r) !! "f_port" with
  | None => (Raise KeyError, s)
  | Some _ =>
      if keyword_clash (expected_config r l v) then (Raise TypeError, s)
      else
        match oracle (trace s)
                (New_worker WebsocketClientWorker false
                   (expected_config r l v))
        with
        | Some e =>
            (Raise e,
             log_event
               (Raised (New_worker WebsocketClientWorker false
                          (expected_config r l v)) e) s)
        | None =>
            let w := {| oid := next_oid s; cls := WebsocketClientWorker;
                        is_client_worker := false;
                        config := expected_config r l v |} in
            connect_loop rest l v (acc ++ [w])
              (log_event (Constructed w)
                 {| sy_local_worker := sy_local_worker s;
                    grid_hook_local_worker := grid_hook_local_worker s;
                    next_oid := S (next_oid s);
                    trace := trace s |})
        end
  end.
Proof.
  cbn [connect_loop]. unfold bind at 1. rewrite worker_config_run.
  destruct (strip_keys (participant r) !! "f_port"); [| done].
  unfold bind at 1. rewrite new_websocket_client_worker_run.
  destruct (keyword_clash _); [done |].
  by destruct (oracle (trace s) _).
Qed.

Lemma connect_loop_outcome regs l v acc s :
  exists d,
    trace (connect_loop regs l v acc s).2 = trace s ++ d /\
    Forall connect_event d /\
    match (connect_loop regs l v acc s).1 with
    | Ok res => res = acc ++ opened d /\ length (opened d) = length regs
    | Raise _ => length (opened d) < length regs
    end.
Proof.
  revert acc s. induction regs as [| r rest IH]; intros acc s.
  - exists []. simpl. rewrite !app_nil_r. split; [done |].
    split; [apply Forall_nil_2 | by split].
  - rewrite connect_loop_cons.
    destruct (strip_keys (participant r) !! "f_port").
    2: { exists []. simpl. rewrite app_nil_r. split; [done |].
         split; [apply Forall_nil_2 | lia]. }
    destruct (keyword_clash _).
    { exists []. simpl. rewrite app_nil_r. split; [done |].
      split; [apply Forall_nil_2 | lia]. }
    destruct (oracle (trace s) _) as [e |].
    { eexists [_]. split; [reflexivity |]. split; [by repeat constructor |].
      simpl. lia. }
    cbv zeta.
    match goal with |- context [connect_loop rest l v ?acc' ?s1] =>
      destruct (IH acc' s1) as (d & Hd & Fd & Hres)
    end.
    eexists (Constructed _ :: d). split; [| split].
    + rewrite Hd. simpl. by rewrite <- app_assoc.
    + by constructor.
    + rewrite opened_cons_constructed. simpl.
      destruct (connect_loop rest l v _ _).1; simpl.
      * destruct Hres as [-> Hlen]. split; [by rewrite <- app_assoc | lia].
      * lia.
Qed.

(** X9. Whatever the environment, [connect_to_workers] leaves both
    global references as they were and logs nothing but worker
    constructions and their failures (no registry removal, no release);
    it either returns exactly the handles it opened, one per record, or
    raises having opened fewer handles than there are records. *)
Theorem connect_to_workers_all_or_fewer (keys : run_key)
    (regs : list reg_record) (dockerised log_msgs verbose : bool)
    (s : world) :
  same_identity s
    (connect_to_workers keys regs dockerised log_msgs verbose s).2 /\
  exists d,
    trace (connect_to_workers keys regs dockerised log_msgs verbose s).2
      = trace s ++ d /\
    Forall connect_event d /\
    match (connect_to_workers keys regs dockerised log_msgs verbose s).1 with
    | Ok ws => ws = opened d /\ length ws = length regs
    | Raise _ => length (opened d) < length regs
    end.
Proof.
  split; [apply connect_to_workers_same_identity |].
  rewrite connect_to_workers_run.
  destruct (connect_loop_outcome regs log_msgs verbose [] s)
    as (d & Hd & Fd & Hres).
  exists d. split; [done |]. split; [done |].
  destruct (connect_loop regs log_msgs verbose [] s).1; [| done].
  destruct Hres as [-> Hlen]. by split.
Qed.

(** X10. [connect_to_ttp] raises only when the VirtualWorker constructor
    raises, and then with the constructor's exception: its two
    assertions never fail. In that case both global references are left
    as they were. *)
Theorem connect_to_ttp_raises_only_from_constructor (log_msgs verbose : bool)
    (s s' : world) (e : exn) :
  connect_to_ttp log_msgs verbose s = (Raise e, s') ->
  oracle (trace s)
    (New_worker VirtualWorker false (ttp_kwargs log_msgs verbose)) = Some e /\
  sy_local_worker s' = sy_local_worker s /\
  grid_hook_local_worker s' = grid_hook_local_worker s.
Proof.
  rewrite connect_to_ttp_run.
  destruct (oracle (trace s) _) as [e0 |]; [| done].
  by intros [= <- <-].
Qed.

Lemma terminate_loop_cons w ws s :
  terminate_loop (w :: ws) s =
  match oracle (trace s) (Remove_worker_from_local_worker_registry w) with
  | Some e =>
      (Raise e,
       log_event (Raised (Remove_worker_from_local_worker_registry w) e) s)
  | None =>
      terminate_loop ws
        (log_event (Del w)
           (log_event (Returned (Remove_worker_from_local_worker_registry w))
              s))
  end.
Proof.
  cbn [terminate_loop]. unfold bind at 1. unfold ext.
  destruct (oracle (trace s) _); [done |].
  unfold bind at 1. by rewrite del_local_run.
Qed.

Lemma terminate_loop_outcome ws s :
  exists d,
    trace (terminate_loop ws s).2 = trace s ++ d /\
    released d = registry_removed d /\
    match (terminate_loop ws s).1 with
    | Ok _ => registry_removed d = ws
    | Raise _ =>
        exists n, n < length ws /\ registry_removed d = take n ws
    end.
Proof.
  revert s. induction ws as [| w ws IH]; intros s.
  - exists []. simpl. by rewrite app_nil_r.
  - rewrite terminate_loop_cons.
    destruct (oracle (trace s) _) as [e |].
    { eexists [_]. split; [reflexivity |]. split; [done |].
      exists 0. split; [simpl; lia | done]. }
    match goal with |- context [terminate_loop ws ?s1] =>
      destruct (IH s1) as (d & Hd & Hrel & Hres)
    end.
    exists (Returned (Remove_worker_from_local_worker_registry w)
              :: Del w :: d).
    split; [rewrite Hd; simpl; by rewrite <- !app_assoc |].
    split.
    { change (released (Returned (Remove_worker_from_local_worker_registry w)
                          :: Del w :: d)) with (w :: released d).
      by rewrite Hrel. }
    change (registry_removed
              (Returned (Remove_worker_from_local_worker_registry w)
                 :: Del w :: d)) with (w :: registry_removed d).
    destruct (terminate_loop ws _).1.
    + by rewrite Hres.
    + destruct Hres as (n & Hn & ->). exists (S n).
      split; [simpl; lia | done].
Qed.

(** X11. Whatever the environment, [terminate_connections] takes the
    coordinator and then the workers in list order, releasing each
    object right after its registry removal returned, and stops at the
    first removal that raises: when it returns, every object was removed
    and released; when it raises, only a proper prefix of them was, and
    the objects after the failing one are neither removed nor
    released. *)
Theorem teardown_stops_at_first_failing_removal (ttp : worker)
    (workers : list worker) (s : world) :
  exists d,
    trace (terminate_connections ttp workers s).2 = trace s ++ d /\
    released d = registry_removed d /\
    match (terminate_connections ttp workers s).1 with
    | Ok _ => registry_removed d = ttp :: workers
    | Raise _ =>
        exists n, n < length (ttp :: workers) /\
                  registry_removed d = take n (ttp :: workers)
    end.
Proof.
  rewrite terminate_connections_run.
  destruct (oracle _ (Remove_worker_from_local_worker_registry ttp))
    as [e |]; simpl.
  - eexists [_; _; _]. split; [by rewrite <- app_assoc |].
    split; [done |]. exists 0. split; [lia | done].
  - match goal with |- context [terminate_loop workers ?s1] =>
      destruct (terminate_loop_outcome workers s1) as (d & Hd & Hrel & Hres)
    end.
    exists ([Set_grid_hook_local_worker REF_WORKER;
             Set_sy_local_worker REF_WORKER;
             Returned (Remove_worker_from_local_worker_registry ttp);
             Del ttp] ++ d).
    split; [rewrite Hd; simpl; by rewrite <- !app_assoc |].
    rewrite released_app, registry_removed_app.
    split; [by rewrite Hrel |].
    change (registry_removed
              [Set_grid_hook_local_worker REF_WORKER;
               Set_sy_local_worker REF_WORKER;
               Returned (Remove_worker_from_local_worker_registry ttp);
               Del ttp]) with [ttp].
    destruct (terminate_loop workers _).1.
    + by rewrite Hres.
    + destruct Hres as (n & Hn & ->). exists (S n).
      split; [simpl; lia | done].
Qed.

(* --------------------------------------------------------------------- *)
(* The schedule, whatever the records                                    *)
(* --------------------------------------------------------------------- *)

Lemma dict_setitem_entries {V} k (v : V) d k0 v0 :
  (k0, v0) ∈ dict_setitem k v d -> (k0, v0) = (k, v) \/ (k0, v0) ∈ d.
Proof.
  induction d as [| [k' v'] d IH]; simpl.
  - set_solver.
  - destruct (decide (k = k')) as [-> | _]; set_solver.
Qed.

Lemma fold_setitem_entries {V} (items : list (combination_key * V)) d k0 v0 :
  (k0, v0) ∈ fold_left (fun d kv => dict_setitem kv.1 kv.2 d) items d ->
  (k0, v0) ∈ d \/ (k0, v0) ∈ items.
Proof.
  revert d. induction items as [| [k v] items IH]; intros d; simpl.
  - by left.
  - intros Hin. apply IH in Hin as [Hin | Hin]; [| set_solver].
    apply dict_setitem_entries in Hin. set_solver.
Qed.

(** X12. Whatever the records, every entry of the schedule is the entry
    of a matching (experiment, run) pair: it is keyed by the run's
    (project_id, expt_id, run_id), holds that experiment and that run
    (whose experiment ids agree) and the registrations and flags of the
    call; and a key is scheduled exactly when it is the key of a
    matching pair, so a run that refers to no listed experiment is
    dropped without any signal. *)
Theorem schedule_is_made_of_matching_pairs (kwargs : proc_kwargs) :
  (forall k kw,
      (k, kw) ∈ training_combinations kwargs ->
      exists er,
        er ∈ matching_pairs (kw_experiments kwargs) (kw_runs kwargs) /\
        k = pair_key er /\ kw = params_of kwargs er) /\
  (forall k,
      k ∈ dict_keys (training_combinations kwargs) <->
      exists er,
        er ∈ matching_pairs (kw_experiments kwargs) (kw_runs kwargs) /\
        pair_key er = k).
Proof.
  split; [| apply scheduled_keys].
  intros k kw. rewrite training_combinations_fold.
  rewrite <- (fold_left_over_map
                (fun d kv => dict_setitem kv.1 kv.2 d)
                (fun er => (pair_key er, params_of kwargs er))).
  intros Hin. apply fold_setitem_entries in Hin as [Hin | Hin]; [set_solver |].
  apply list_elem_of_fmap in Hin as (er & [= -> ->] & Hin). by exists er.
Qed.

Lemma dict_get_setitem {V} k (v : V) d k0 :
  dict_get k0 (dict_setitem k v d) =
  if decide (k0 = k) then Some v else dict_get k0 d.
Proof.
  induction d as [| [k' v'] d IH]; simpl.
  - by destruct (decide (k0 = k)).
  - destruct (decide (k = k')) as [-> | Hne]; simpl.
    + by destruct (decide (k0 = k')).
    + rewrite IH. destruct (decide (k0 = k')) as [-> | _]; [| done].
      by destruct (decide (k' = k)).
Qed.

Lemma dict_get_fold_setitem {V} (items : list (combination_key * V)) d k0 :
  dict_get k0 (fold_left (fun d kv => dict_setitem kv.1 kv.2 d) items d) =
  match last (filter (fun kv => kv.1 = k0) items) with
  | Some kv => Some kv.2
  | None => dict_get k0 d
  end.
Proof.
  revert d. induction items as [| [k v] items IH]; intros d; simpl; [done |].
  rewrite IH, filter_cons. simpl.
  destruct (decide (k = k0)) as [-> | Hne].
  - rewrite dict_get_setitem. destruct (decide (k0 = k0)); [| done].
    destruct (filter _ items) as [| kv l] eqn:Hf; [done |].
    rewrite last_cons_cons.
    destruct (last (kv :: l)) eqn:Hl; [done |]. by apply last_None in Hl.
  - rewrite dict_get_setitem. by destruct (decide (k0 = k)); [congruence |].
Qed.

Lemma filter_key_map {A V} (h : A -> combination_key * V) k l :
  filter (fun kv => kv.1 = k) (map h l) =
  map h (filter (fun a => (h a).1 = k) l).
Proof.
  induction l as [| a l IH]; [done |].
  simpl. rewrite !filter_cons, IH.
  by destruct (decide ((h a).1 = k)).
Qed.

(** X13. When several matching pairs have the same key, the schedule
    holds the last of them in experiment-major order: looking a key up
    in [training_combinations] gives the entry of the last matching pair
    with that key, and nothing when no matching pair has it. *)
Theorem colliding_keys_keep_the_last_pair (kwargs : proc_kwargs)
    (k : combination_key) :
  dict_get k (training_combinations kwargs) =
  params_of kwargs <$>
    last (filter (fun er => pair_key er = k)
            (matching_pairs (kw_experiments kwargs) (kw_runs kwargs))).
Proof.
  rewrite training_combinations_fold.
  rewrite <- (fold_left_over_map
                (fun d kv => dict_setitem kv.1 kv.2 d)
                (fun er => (pair_key er, params_of kwargs er))).
  rewrite dict_get_fold_setitem, filter_key_map. simpl.
  change (map ?f ?l) with (f <$> l). rewrite fmap_last.
  by destruct (last _).
Qed.

(** X14. When no run refers to a listed experiment (in particular with
    no experiments or no runs), [start_proc] returns the empty mapping
    and does nothing: no signal is sent and no worker is constructed. *)
Theorem nothing_scheduled_nothing_done (kwargs : proc_kwargs) (s : world) :
  matching_pairs (kw_experiments kwargs) (kw_runs kwargs) = [] ->
  start_proc kwargs s = (Ok [], s).
Proof.
  intros Hnone. unfold start_proc.
  by rewrite training_combinations_fold, Hnone.
Qed.

(* --------------------------------------------------------------------- *)
(* Loading several runs and models                                       *)
(* --------------------------------------------------------------------- *)

Lemma str_dict_setitem_fresh {V} k (v : V) (d : list (string * V)) :
  k ∉ d.*1 -> str_dict_setitem k v d = d ++ [(k, v)].
Proof.
  induction d as [| [k' v'] d IH]; simpl; [done |].
  intros Hk. destruct (decide (k = k')) as [-> | _]; [set_solver |].
  f_equal. apply IH. set_solver.
Qed.

Lemma load_runs_loop_outcome items acc s :
  NoDup (acc.*1 ++ items.*1) ->
  match load_runs_loop items acc s with
  | (Ok runs, s') =>
      runs = acc ++ map (fun kp => (kp.1, Arguments kp.2)) items /\
      trace s' =
        trace s ++ map (fun kp => Returned (New_Arguments kp.2)) items
  | (Raise e, s') =>
      exists pre k p post,
        items = pre ++ (k, p) :: post /\
        trace s' =
          trace s ++ map (fun kp => Returned (New_Arguments kp.2)) pre
                  ++ [Raised (New_Arguments p) e]
  end.
Proof using oracle.
  clear strip_keys.
  revert acc s. induction items as [| [k p] rest IH]; intros acc s Hnd.
  - simpl. by rewrite !app_nil_r.
  - cbn [load_runs_loop]. unfold bind at 1. unfold ext.
    destruct (oracle (trace s) _) as [e |].
    { exists [], k, p, rest. by split. }
    simpl in Hnd. apply NoDup_app in Hnd as (Hacc & Hdis & Hitems).
    apply NoDup_cons in Hitems as [Hk Hrest].
    rewrite str_dict_setitem_fresh by set_solver.
    specialize (IH (acc ++ [(k, Arguments p)])
                  (log_event (Returned (New_Arguments p)) s)).
    destruct (load_runs_loop rest _ _) as [[runs | e] s'].
    + destruct IH as [-> ->].
      { rewrite fmap_app. simpl. rewrite <- app_assoc. simpl.
        apply NoDup_app. split; [done |].
        split; [set_solver | by apply NoDup_cons]. }
      simpl. by rewrite <- !app_assoc.
    + destruct IH as (pre & k' & p' & post & -> & ->).
      { rewrite fmap_app. simpl. rewrite <- app_assoc. simpl.
        apply NoDup_app. split; [done |].
        split; [set_solver | by apply NoDup_cons]. }
      exists ((k, p) :: pre), k', p', post. split; [done |].
      simpl. by rewrite <- !app_assoc.
Qed.

(** X15. For a dict of run parameters (distinct run ids),
    [load_selected_runs] builds one [Arguments] per entry, in the dict's
    order: when it returns, its result has the same keys in the same
    order, each mapped to the object built from that entry's parameters;
    the first constructor that raises ends the call with that exception,
    and no [Arguments] is built for the entries after it. *)
Theorem load_selected_runs_one_per_entry
    (fl_params : list (string * gmap string pyval)) (s : world) :
  NoDup fl_params.*1 ->
  match load_selected_runs fl_params s with
  | (Ok runs, s') =>
      runs = map (fun kp => (kp.1, Arguments kp.2)) fl_params /\
      trace s' =
        trace s ++ map (fun kp => Returned (New_Arguments kp.2)) fl_params
  | (Raise e, s') =>
      exists pre k p post,
        fl_params = pre ++ (k, p) :: post /\
        trace s' =
          trace s ++ map (fun kp => Returned (New_Arguments kp.2)) pre
                  ++ [Raised (New_Arguments p) e]
  end.
Proof using oracle.
  intros Hnd. unfold load_selected_runs. unfold bind at 1.
  pose proof (load_runs_loop_outcome fl_params [] s Hnd) as H.
  by destruct (load_runs_loop fl_params [] s) as [[runs | e] s'].
Qed.

Lemma load_models_loop_outcome items acc s :
  NoDup (acc.*1 ++ items.*1) ->
  match load_models_loop items acc s with
  | (Ok models, s') =>
      models = acc ++ map (fun kp => (kp.1, Model kp.2)) items /\
      trace s' = trace s ++ map (fun kp => Returned (New_Model kp.2)) items
  | (Raise e, s') =>
      exists pre k p post,
        items = pre ++ (k, p) :: post /\
        trace s' =
          trace s ++ map (fun kp => Returned (New_Model kp.2)) pre
                  ++ [Raised (New_Model p) e]
  end.
Proof.
  revert acc s. induction items as [| [k p] rest IH]; intros acc s Hnd.
  - simpl. by rewrite !app_nil_r.
  - cbn [load_models_loop]. unfold bind at 1. unfold ext.
    destruct (oracle (trace s) _) as [e |].
    { exists [], k, p, rest. by split. }
    simpl in Hnd. apply NoDup_app in Hnd as (Hacc & Hdis & Hitems).
    apply NoDup_cons in Hitems as [Hk Hrest].
    rewrite str_dict_setitem_fresh by set_solver.
    specialize (IH (acc ++ [(k, Model p)])
                  (log_event (Returned (New_Model p)) s)).
    destruct (load_models_loop rest _ _) as [[models | e] s'].
    + destruct IH as [-> ->].
      { rewrite fmap_app. simpl. rewrite <- app_assoc. simpl.
        apply NoDup_app. split; [done |].
        split; [set_solver | by apply NoDup_cons]. }
      simpl. by rewrite <- !app_assoc.
    + destruct IH as (pre & k' & p' & post & -> & ->).
      { rewrite fmap_app. simpl. rewrite <- app_assoc. simpl.
        apply NoDup_app. split; [done |].
        split; [set_solver | by apply NoDup_cons]. }
      exists ((k, p) :: pre), k', p', post. split; [done |].
      simpl. by rewrite <- !app_assoc.
Qed.

(** X16. For a dict of model structures (distinct names),
    [load_selected_models] builds one [Model] per entry, in the dict's
    order: when it returns, its result has the same keys in the same
    order, each mapped to the object built from that entry's structure;
    the first constructor that raises ends the call with that exception,
    and no [Model] is built for the entries after it. *)
Theorem load_selected_models_one_per_entry
    (model_params : list (string * pyval)) (s : world) :
  NoDup model_params.*1 ->
  match load_selected_models model_params s with
  | (Ok models, s') =>
      models = map (fun kp => (kp.1, Model kp.2)) model_params /\
      trace s' =
        trace s ++ map (fun kp => Returned (New_Model kp.2)) model_params
  | (Raise e, s') =>
      exists pre k p post,
        model_params = pre ++ (k, p) :: post /\
        trace s' =
          trace s ++ map (fun kp => Returned (New_Model kp.2)) pre
                  ++ [Raised (New_Model p) e]
  end.
Proof.
  intros Hnd. unfold load_selected_models. unfold bind at 1.
  pose proof (load_models_loop_outcome model_params [] s Hnd) as H.
  by destruct (load_models_loop model_params [] s) as [[models | e] s'].
Qed.

(* --------------------------------------------------------------------- *)
(* A swallowed OSError                                                   *)
(* --------------------------------------------------------------------- *)

Lemma train_combination_fit_raises keys regs e run d l v s x structure :
  (forall tr c, c <> FL_fit -> oracle tr c = None) ->
  (forall tr, oracle tr FL_fit = Some x) ->
  Forall has_f_port regs ->
  Forall no_keyword_clash regs ->
  strip_keys (expt_doc e) !! "model" = Some structure ->
  train_combination keys regs e run d l v s =
    (Raise x,
     with_events
       (world_after_open (world_with_ttp s l v)
          (workers_for (S (next_oid s)) regs l v))
       [Returned (New_Model structure);
        Returned (New_Arguments (strip_keys (run_doc run)));
        Returned (New_FederatedLearning (new_ttp s l v)
                    (workers_for (S (next_oid s)) regs l v));
        Returned FL_load; Raised FL_fit x]).
Proof.
  intros Hok Hfit Hports Hclash Hmodel.
  unfold train_combination.
  erewrite bind_ok; [| reflexivity].
  erewrite bind_ok; [| by rewrite connect_to_ttp_run, Hok].
  erewrite bind_ok; [| reflexivity].
  erewrite bind_ok;
    [| apply connect_to_workers_ok; [intros; by apply Hok | done | done]].
  erewrite bind_ok; [| reflexivity].
  erewrite bind_ok;
    [| unfold load_selected_experiment, dict_getitem; rewrite Hmodel;
       erewrite bind_ok; [| reflexivity]; by apply ext_ok, Hok].
  erewrite bind_ok; [| unfold load_selected_run; by apply ext_ok, Hok].
  erewrite bind_ok; [| by apply ext_ok, Hok].
  erewrite bind_ok; [| by apply ext_ok, Hok].
  erewrite bind_raise; [| by apply ext_raise].
  by rewrite !with_events_app.
Qed.

(** X22. When [fit()] raises an OSError and nothing else raises (no
    other external call raises, every stripped participant payload
    carries ['f_port'] and none repeats the keywords ['hook'] or
    ['is_client_worker'] of the constructor call, and the stripped
    experiment record has a ['model']), [start_expt_run_training]
    swallows it and sends the terminate signal although the session's
    handles were never torn down and both global references still point
    to the session's coordinator; the call then ends with
    UnboundLocalError. *)
Theorem swallowed_os_error_terminates_without_teardown
    (kw : expt_run_params) (s : world) (x : exn) :
  (forall tr c, c <> FL_fit -> oracle tr c = None) ->
  (forall tr, oracle tr FL_fit = Some x) ->
  isinstance_OSError x = true ->
  Forall has_f_port (p_registrations kw) ->
  Forall no_keyword_clash (p_registrations kw) ->
  is_Some (strip_keys (expt_doc (p_experiment kw)) !! "model") ->
  exists s' d,
    start_expt_run_training kw s = (Raise UnboundLocalError, s') /\
    trace s' = trace s ++ d /\
    terminate_invocations d = 1 /\
    length (opened d) = length (p_registrations kw) /\
    torn_down d = [] /\
    sy_local_worker s'
      = new_ttp (after_initialise kw s) (p_log_msgs kw) (p_verbose kw) /\
    grid_hook_local_worker s'
      = new_ttp (after_initialise kw s) (p_log_msgs kw) (p_verbose kw).
Proof.
  intros Hok Hfit Hos Hports Hclash [structure Hmodel].
  unfold start_expt_run_training.
  erewrite bind_ok; [| reflexivity].
  erewrite bind_ok; [| by apply ext_ok, Hok].
  unfold bind at 1. unfold try_except, bind at 1.
  rewrite (train_combination_fit_raises _ _ _ _ _ _ _ _ x structure)
    by done.
  rewrite Hos.
  erewrite bind_ok; [| reflexivity].
  unfold ret at 1.
  erewrite bind_ok; [| by apply ext_ok, Hok].
  unfold raise.
  set (ws := workers_for _ (p_registrations kw) (p_log_msgs kw) (p_verbose kw)).
  eexists _, _. split; [reflexivity |].
  split; [simpl; rewrite <- !app_assoc; reflexivity |].
  assert (Hws : Forall (fun w => is_websocket w = true) ws)
    by apply fresh_workers_websocket.
  split; [| split; [| split; [| by split]]].
  - rewrite !terminate_invocations_app, !terminate_invocations_one. simpl.
    rewrite (terminate_invocations_quiet (map Constructed ws)); [done |].
    apply Forall_forall. intros ev Hin.
    apply list_elem_of_fmap in Hin as (w & -> & _). by split.
  - rewrite !opened_app, (opened_constructed ws Hws). simpl.
    rewrite app_nil_r. apply workers_for_length.
  - unfold torn_down.
    by rewrite !registry_removed_app, registry_removed_constructed.
Qed.

(* --------------------------------------------------------------------- *)
(* Which combinations a scheduling run starts                            *)
(* --------------------------------------------------------------------- *)

Lemma initialise_calls_app a b :
  initialise_calls (a ++ b) = initialise_calls a ++ initialise_calls b.
Proof. apply omap_app. Qed.

Lemma initialise_calls_quiet d : Forall quiet d -> initialise_calls d = [].
Proof.
  induction 1 as [| ev d [Hq _] _ IH]; [done |].
  change (ev :: d) with ([ev] ++ d).
  rewrite initialise_calls_app, IH, app_nil_r.
  destruct ev as [| c | c e | | |]; try done; by destruct c.
Qed.

Lemma initialise_calls_terminate ev :
  is_terminate_signal ev = true -> initialise_calls [ev] = [].
Proof. destruct ev as [| c | c e | | |]; try done; by destruct c. Qed.

Lemma initialise_invocations_calls tr :
  initialise_invocations tr = length (initialise_calls tr).
Proof.
  induction tr as [| ev tr IH]; [done |].
  change (ev :: tr) with ([ev] ++ tr).
  rewrite initialise_invocations_app, initialise_calls_app, length_app, IH,
    initialise_invocations_one.
  f_equal. destruct ev as [| c | c e | | |]; try done; by destruct c.
Qed.

Lemma session_log_shape_signal kw s :
  exists ev0 mid tail,
    trace (start_expt_run_training kw s).2 = trace s ++ ev0 :: mid ++ tail /\
    initialise_calls [ev0] = [signal_of kw] /\
    Forall quiet mid /\
    (tail = [] \/ exists evt, tail = [evt] /\ is_terminate_signal evt = true).
Proof.
  unfold start_expt_run_training.
  unfold bind at 1. unfold logging at 1, ret at 1.
  unfold bind at 1. unfold ext at 1.
  destruct (oracle (trace s) _) as [e0 |]; simpl.
  { eexists _, [], []. split; [reflexivity |]. split; [reflexivity |].
    split; [constructor | by left]. }
  set (init := Returned _).
  unfold bind at 1. unfold try_except, bind at 1.
  destruct (train_combination_quiet (p_keys kw) (p_registrations kw)
              (p_experiment kw) (p_run kw) (p_dockerised kw) (p_log_msgs kw)
              (p_verbose kw) (log_event init s)) as [d [Hd Fd]].
  destruct (train_combination _ _ _ _ _ _ _ (log_event init s))
    as [[r | e] s2]; simpl in Hd |- *.
  - unfold bind, logging, ret, ext; simpl.
    destruct (oracle (trace s2) _); simpl; rewrite Hd, <- !app_assoc; simpl;
      eexists init, d, [_]; (split; [reflexivity |]);
      (split; [reflexivity |]);
      (split; [done |]); right; eexists; by split.
  - destruct (isinstance_OSError e); simpl.
    + unfold bind, logging, ret, ext; simpl.
      destruct (oracle (trace s2) _); simpl; rewrite Hd, <- !app_assoc; simpl;
        eexists init, d, [_]; (split; [reflexivity |]);
        (split; [reflexivity |]);
        (split; [done |]); right; eexists; by split.
    + rewrite Hd, <- !app_assoc. simpl.
      exists init, d, []. rewrite app_nil_r.
      split; [reflexivity |]. split; [reflexivity |]. split; [done | by left].
Qed.

Lemma session_initialise_calls kw s :
  initialise_calls (trace (start_expt_run_training kw s).2) =
  initialise_calls (trace s) ++ [signal_of kw].
Proof.
  destruct (session_log_shape_signal kw s)
    as (ev0 & mid & tail & -> & Hev0 & Hmid & Htail).
  rewrite initialise_calls_app.
  change (ev0 :: mid ++ tail) with ([ev0] ++ mid ++ tail).
  rewrite !initialise_calls_app, Hev0, (initialise_calls_quiet mid Hmid).
  destruct Htail as [-> | (evt & -> & Hevt)]; [done |].
  by rewrite (initialise_calls_terminate evt Hevt).
Qed.

Lemma run_combinations_initialise_calls items acc s :
  exists n,
    initialise_calls (trace (run_combinations items acc s).2) =
      initialise_calls (trace s)
      ++ map (fun kv => signal_of kv.2) (take n items) /\
    match (run_combinations items acc s).1 with
    | Ok _ => n = length items
    | Raise _ => 1 <= n <= length items
    end.
Proof.
  revert acc s. induction items as [| [k kw] rest IH]; intros acc s; simpl.
  - exists 0. by rewrite app_nil_r.
  - unfold bind. pose proof (session_initialise_calls kw s) as Hone.
    destruct (start_expt_run_training kw s) as [[r | e] s1]; simpl in *.
    + destruct (IH (dict_setitem k r acc) s1) as (n & Hn & Hres).
      exists (S n). split.
      * rewrite Hn, Hone, <- app_assoc. done.
      * destruct (run_combinations rest _ s1).1; lia.
    + exists 1. split; [by rewrite Hone | lia].
Qed.

Lemma scheduled_entry_key kwargs k kw :
  (k, kw) ∈ training_combinations kwargs -> key_tuple (p_keys kw) = k.
Proof.
  rewrite training_combinations_fold.
  rewrite <- (fold_left_over_map
                (fun d kv => dict_setitem kv.1 kv.2 d)
                (fun er => (pair_key er, params_of kwargs er))).
  intros Hin. apply fold_setitem_entries in Hin as [Hin | Hin]; [set_solver |].
  by apply list_elem_of_fmap in Hin as (er & [= -> ->] & Hin).
Qed.

Lemma scheduled_signal_keys kwargs :
  map (fun kv => key_tuple (p_keys kv.2)) (training_combinations kwargs) =
  dict_keys (training_combinations kwargs).
Proof.
  unfold dict_keys.
  assert (H : forall kv, kv ∈ training_combinations kwargs ->
                         key_tuple (p_keys kv.2) = kv.1).
  { intros [k kw] Hin. by apply (scheduled_entry_key kwargs). }
  induction (training_combinations kwargs) as [| kv l IH]; [done |].
  simpl. rewrite H by set_solver. f_equal. apply IH.
  intros kv' Hin. apply H. set_solver.
Qed.

(** X4. [start_proc] starts the scheduled combinations one by one, in
    the order of the schedule, and stops at the first one that raises:
    the initialise signals it sends are those of the first n scheduled
    combinations, one each and in that order, where n is the number of
    scheduled combinations when it returns and at least one (and at most
    that number) when it raises; the run keys of these signals are
    pairwise distinct, so no combination is started twice. *)
Theorem each_combination_started_at_most_once (kwargs : proc_kwargs)
    (s : world) :
  exists n,
    initialise_calls (trace (start_proc kwargs s).2) =
      initialise_calls (trace s)
      ++ map (fun kv => signal_of kv.2)
           (take n (training_combinations kwargs)) /\
    NoDup (map (fun kv => key_tuple (p_keys kv.2))
             (take n (training_combinations kwargs))) /\
    initialise_invocations (trace (start_proc kwargs s).2) =
      initialise_invocations (trace s) + n /\
    match (start_proc kwargs s).1 with
    | Ok _ => n = length (training_combinations kwargs)
    | Raise _ => 1 <= n <= length (training_combinations kwargs)
    end.
Proof.
  unfold start_proc. unfold bind at 1 2 3. unfold logging at 1 2 3.
  unfold ret at 1 2 3.
  destruct (run_combinations_initialise_calls
              (training_combinations kwargs) [] s) as (n & Hn & Hres).
  exists n. split; [exact Hn |]. split; [| split; [| exact Hres]].
  - rewrite <- firstn_map, scheduled_signal_keys.
    eapply sublist_NoDup; [| apply sublist_take].
    apply training_combinations_NoDup.
  - rewrite !initialise_invocations_calls, Hn, length_app, length_map,
      length_take.
    destruct (run_combinations _ _ _).1; lia.
Qed.

End Server.

(* ===================================================================== *)
(* The properties on the sample data                                     *)
(* ===================================================================== *)

Import Sample.

(** C1, counterexample: when [fit()] raises a RuntimeError the session
    ends with that exception and [Governor.terminate] has not been
    invoked. *)
Lemma terminate_skipped_when_fit_raises :
  (start_expt_run_training me out strip fit_fails paths (params "A" "r1")
     s0).1 = Raise RuntimeError /\
  terminate_invocations
    (trace (start_expt_run_training me out strip fit_fails paths
              (params "A" "r1") s0).2) = 0.
Proof. vm_compute. by split. Qed.

(** C9, on the sample session whose [fit()] raises OSError. *)
Lemma os_error_then_unbound_results_witness :
  start_expt_run_training me out strip fit_io_fails paths (params "A" "r1") s0 =
    (Raise UnboundLocalError,
     log_event
       (Returned (Governor_terminate true keys_A_r1 [p1; p2]))
       (bracket me out strip fit_io_fails paths (params "A" "r1")
          (after_initialise (params "A" "r1") s0)).2) /\
  isinstance_NameError UnboundLocalError = true /\
  terminate_invocations
    (trace (start_expt_run_training me out strip fit_io_fails paths
              (params "A" "r1") s0).2) = terminate_invocations (trace s0) + 1.
Proof.
  apply (os_error_then_unbound_results me out strip fit_io_fails paths
           (params "A" "r1") s0 _ OSError).
  - reflexivity.
  - vm_compute. reflexivity.
  - reflexivity.
  - reflexivity.
Defined.

(** C2, counterexample: [fit()] raises; two handles were opened and
    none is torn down when the session ends. *)
Lemma handles_left_open_when_fit_raises :
  (train_combination me out strip fit_fails paths keys_A_r1 [p1; p2]
     (expt "A") (run "A" "r1") true false false s0).1 = Raise RuntimeError /\
  map oid
    (opened
       (trace (train_combination me out strip fit_fails paths keys_A_r1
                 [p1; p2] (expt "A") (run "A" "r1") true false false s0).2))
    = [2; 3] /\
  torn_down
    (trace (train_combination me out strip fit_fails paths keys_A_r1
              [p1; p2] (expt "A") (run "A" "r1") true false false s0).2)
    = [].
Proof. vm_compute. by repeat split. Qed.

(** C2, on the sample session in which nothing raises. *)
Lemma handles_torn_down_only_if_fit_returns_witness :
  exists r s' d ws,
    train_combination me out strip all_fine paths keys_A_r1 [p1; p2]
      (expt "A") (run "A" "r1") true false false s0 = (r, s') /\
    trace s' = trace s0 ++ d /\
    opened d = ws /\
    length ws = length [p1; p2] /\
    match r with
    | Ok _ => Returned FL_fit ∈ d /\ torn_down d = ws
    | Raise x => Raised FL_fit x ∈ d /\ torn_down d = []
    end.
Proof.
  apply (handles_torn_down_only_if_fit_returns me out strip all_fine paths).
  - intros tr c _. reflexivity.
  - repeat constructor; exists (VInt 5000); vm_compute; reflexivity.
  - repeat (constructor; [split; vm_compute; reflexivity |]). constructor.
  - exists (VList [VStr "linear"]). vm_compute. reflexivity.
Defined.

(** C3, counterexample: the second of two connections is refused; the
    error reaches the caller with the first handle opened and nothing
    removed from the registry or released. *)
Lemma first_handle_left_open_when_second_refused :
  (connect_to_workers strip second_refused keys_A_r1 [p1; p2] true false
     false s0).1 = Raise ConnectionRefusedError /\
  map oid
    (opened
       (trace (connect_to_workers strip second_refused keys_A_r1 [p1; p2]
                 true false false s0).2)) = [1] /\
  registry_removed
    (trace (connect_to_workers strip second_refused keys_A_r1 [p1; p2]
              true false false s0).2) = [] /\
  released
    (trace (connect_to_workers strip second_refused keys_A_r1 [p1; p2]
              true false false s0).2) = [] /\
  torn_down
    (trace (connect_to_workers strip second_refused keys_A_r1 [p1; p2]
              true false false s0).2) = [].
Proof. vm_compute. by repeat split. Qed.

(** C3, on the sample registrations with the second connection refused. *)
Lemma partial_open_leaves_handles_open_witness :
  exists s' d,
    connect_to_workers strip second_refused keys_A_r1 ([p1] ++ p2 :: [])
      true false false s0 = (Raise ConnectionRefusedError, s') /\
    trace s' = trace s0 ++ d /\
    opened d =
      returned_or []
        (connect_to_workers strip second_refused keys_A_r1 [p1] true false
           false s0).1 /\
    length
      (returned_or []
         (connect_to_workers strip second_refused keys_A_r1 [p1] true false
            false s0).1) = length [p1] /\
    registry_removed d = [] /\
    released d = [] /\
    torn_down d = [].
Proof.
  apply (partial_open_leaves_handles_open strip second_refused keys_A_r1
           [p1] [] p2 true false false s0
           (connect_to_workers strip second_refused keys_A_r1 [p1] true false
              false s0).2).
  - vm_compute. reflexivity.
  - exists (VInt 5000). vm_compute. reflexivity.
  - vm_compute. reflexivity.
Defined.

(** C7, counterexample: a registration whose stripped payload has no
    ['f_port'] entry; [connect_to_workers] raises KeyError and returns
    no handle for the record (none is opened). *)
Lemma no_handle_for_record_without_f_port :
  strip (participant (party_no_port "p3" 8022)) !! "f_port" = None /\
  (connect_to_workers strip all_fine keys_A_r1 [party_no_port "p3" 8022] true
     false false s0).1 = Raise KeyError /\
  opened
    (trace (connect_to_workers strip all_fine keys_A_r1
              [party_no_port "p3" 8022] true false false s0).2) = [].
Proof. vm_compute. by repeat split. Qed.

(** C7, on the two sample registrations. *)
Lemma one_handle_per_record_in_order_witness :
  exists ws s',
    connect_to_workers strip all_fine keys_A_r1 [p1; p2] true false false s0
      = (Ok ws, s') /\
    Forall2
      (fun r w =>
         is_websocket w = true /\
         config w !! "f_port" = None /\
         config w !! "log_msgs" = Some (VBool false) /\
         config w !! "verbose" = Some (VBool false) /\
         forall k, k <> "f_port" -> k <> "log_msgs" -> k <> "verbose" ->
                   config w !! k = strip (participant r) !! k)
      [p1; p2] ws /\
    NoDup (map oid ws) /\
    exists d, trace s' = trace s0 ++ d /\ opened d = ws.
Proof.
  apply (one_handle_per_record_in_order strip all_fine).
  - intros tr cfg. reflexivity.
  - repeat constructor; exists (VInt 5000); vm_compute; reflexivity.
  - repeat (constructor; [split; vm_compute; reflexivity |]). constructor.
Defined.

(** C8, on the sample state. *)
Lemma connect_to_ttp_installs_new_coordinator_witness :
  exists ttp s',
    connect_to_ttp all_fine false false s0 = (Ok ttp, s') /\
    cls ttp = VirtualWorker /\
    config ttp !! "id" = Some (VStr "ttp") /\
    oid ttp = next_oid s0 /\
    trace s' = trace s0 ++ [Constructed ttp; Set_sy_local_worker ttp;
                            Set_grid_hook_local_worker ttp] /\
    sy_local_worker s' = ttp /\
    grid_hook_local_worker s' = ttp /\
    (forall keys regs dockerised l v,
        steps same_identity
          (connect_to_workers strip all_fine keys regs dockerised l v)) /\
    (forall e, steps same_identity (load_selected_experiment strip all_fine e)) /\
    (forall r, steps same_identity (load_selected_run strip all_fine r)) /\
    (forall c, steps same_identity (ext all_fine c)) /\
    (forall res_dir, steps same_identity (fl_export all_fine paths res_dir)) /\
    (forall ws s'',
        sy_local_worker (terminate_connections me all_fine ttp ws s'').2 = me /\
        grid_hook_local_worker (terminate_connections me all_fine ttp ws s'').2
          = me).
Proof.
  apply (connect_to_ttp_installs_new_coordinator me strip all_fine paths
           false false s0).
  reflexivity.
Defined.

(** C4, counterexample: of two scheduled combinations the first one's
    [fit()] raises; [start_proc] raises that exception, returns no
    mapping, and the second combination is never started. *)
Lemma start_proc_aborts_on_first_failure :
  length
    (training_combinations
       (kwargs [expt "A"; expt "B"] [run "A" "r1"; run "B" "r2"])) = 2 /\
  (start_proc me out strip first_fit_fails paths
     (kwargs [expt "A"; expt "B"] [run "A" "r1"; run "B" "r2"]) s0).1
    = Raise RuntimeError /\
  initialise_invocations
    (trace
       (start_proc me out strip first_fit_fails paths
          (kwargs [expt "A"; expt "B"] [run "A" "r1"; run "B" "r2"]) s0).2)
    = 1.
Proof. vm_compute. by repeat split. Qed.

(** C5, counterexample: two experiment records share the id A and one
    run refers to A; two pairs match but only one combination is
    scheduled, holding the later experiment record. *)
Lemma colliding_pairs_share_one_combination :
  length (matching_pairs [expt "A"; expt_alt "A"] [run "A" "r1"]) = 2 /\
  length
    (training_combinations (kwargs [expt "A"; expt_alt "A"] [run "A" "r1"]))
    = 1 /\
  map (fun kv => expt_payload (p_experiment kv.2))
    (training_combinations (kwargs [expt "A"; expt_alt "A"] [run "A" "r1"]))
    = [expt_payload (expt_alt "A")].
Proof. vm_compute. by repeat split. Qed.

(** C5, on experiments A and B with runs referring to A, B and B:
    exactly three combinations. *)
Lemma one_combination_per_matching_pair_witness :
  dict_keys
    (training_combinations
       (kwargs [expt "A"; expt "B"]
          [run "A" "r1"; run "B" "r2"; run "B" "r3"]))
    = [("proj", "A", "r1"); ("proj", "B", "r2"); ("proj", "B", "r3")] /\
  length
    (training_combinations
       (kwargs [expt "A"; expt "B"]
          [run "A" "r1"; run "B" "r2"; run "B" "r3"])) = 3.
Proof.
  destruct (one_combination_per_matching_pair
              (kwargs [expt "A"; expt "B"]
                 [run "A" "r1"; run "B" "r2"; run "B" "r3"]))
    as (Heq & Hlen & _).
  - apply (bool_decide_unpack _). vm_compute. exact I.
  - split.
    + rewrite Heq. vm_compute. reflexivity.
    + rewrite Hlen. vm_compute. reflexivity.
Defined.

(** X1, on the sample session in which nothing raises. *)
Lemma returning_session_is_fully_torn_down_witness :
  exists d,
    trace (train_combination me out strip all_fine paths keys_A_r1 [p1; p2]
             (expt "A") (run "A" "r1") true false false s0).2
      = trace s0 ++ d /\
    length (opened d) = length [p1; p2] /\
    torn_down d = opened d /\
    sy_local_worker
      (train_combination me out strip all_fine paths keys_A_r1 [p1; p2]
         (expt "A") (run "A" "r1") true false false s0).2 = me /\
    grid_hook_local_worker
      (train_combination me out strip all_fine paths keys_A_r1 [p1; p2]
         (expt "A") (run "A" "r1") true false false s0).2 = me /\
    exists tr,
      returned_or VNone
        (train_combination me out strip all_fine paths keys_A_r1 [p1; p2]
           (expt "A") (run "A" "r1") true false false s0).1
      = paths tr
          (os_path_join out
             [project_id keys_A_r1; expt_id keys_A_r1; run_id keys_A_r1]).
Proof.
  apply (returning_session_is_fully_torn_down me out strip all_fine paths
           keys_A_r1 [p1; p2] (expt "A") (run "A" "r1") true false false s0).
  vm_compute. reflexivity.
Defined.

(** X5, on a scheduling run of one combination in which nothing
    raises. *)
Lemma completed_run_ends_on_reference_identity_witness :
  sy_local_worker
    (start_proc me out strip all_fine paths
       (kwargs [expt "A"] [run "A" "r1"]) s0).2 = me /\
  grid_hook_local_worker
    (start_proc me out strip all_fine paths
       (kwargs [expt "A"] [run "A" "r1"]) s0).2 = me.
Proof.
  apply (completed_run_ends_on_reference_identity me out strip all_fine paths
           (kwargs [expt "A"] [run "A" "r1"]) s0 _
           (returned_or []
              (start_proc me out strip all_fine paths
                 (kwargs [expt "A"] [run "A" "r1"]) s0).1)).
  - vm_compute. reflexivity.
  - vm_compute. discriminate.
Defined.

(** X6, on the sample session whose [fit()] raises. *)
Lemma failed_fit_leaves_coordinator_installed_witness :
  exists s',
    train_combination me out strip fit_fails paths keys_A_r1 [p1; p2]
      (expt "A") (run "A" "r1") true false false s0
      = (Raise RuntimeError, s') /\
    sy_local_worker s' = new_ttp s0 false false /\
    grid_hook_local_worker s' = new_ttp s0 false false /\
    Constructed (new_ttp s0 false false) ∈ trace s'.
Proof.
  apply (failed_fit_leaves_coordinator_installed me out strip fit_fails paths).
  - intros tr c Hc. by destruct c.
  - intros tr. reflexivity.
  - repeat constructor; exists (VInt 5000); vm_compute; reflexivity.
  - repeat (constructor; [split; vm_compute; reflexivity |]). constructor.
  - exists (VList [VStr "linear"]). vm_compute. reflexivity.
Defined.

(** X7, on a sample experiment record without a model. *)
Lemma missing_model_fails_after_connecting_witness :
  exists s' d,
    train_combination me out strip all_fine paths keys_A_r1 [p1; p2]
      (expt_no_model "A") (run "A" "r1") true false false s0
      = (Raise KeyError, s') /\
    trace s' = trace s0 ++ d /\
    d = [Constructed (new_ttp s0 false false);
         Set_sy_local_worker (new_ttp s0 false false);
         Set_grid_hook_local_worker (new_ttp s0 false false)]
        ++ map Constructed (workers_for strip (S (next_oid s0)) [p1; p2]
                              false false) /\
    sy_local_worker s' = new_ttp s0 false false /\
    grid_hook_local_worker s' = new_ttp s0 false false /\
    length (opened d) = length [p1; p2] /\
    torn_down d = [] /\
    Forall (fun ev => engine_event ev = false) d.
Proof.
  apply (missing_model_fails_after_connecting me out strip all_fine paths).
  - intros tr c. reflexivity.
  - repeat constructor; exists (VInt 5000); vm_compute; reflexivity.
  - repeat (constructor; [split; vm_compute; reflexivity |]). constructor.
  - vm_compute. reflexivity.
Defined.

(** X8, on a second registration without an alternate port. *)
Lemma missing_f_port_raises_key_error_witness :
  connect_to_workers strip all_fine keys_A_r1
    ([p1] ++ party_no_port "p3" 8022 :: [p2]) true false false s0
  = (Raise KeyError,
     (connect_to_workers strip all_fine keys_A_r1 [p1] true false false
        s0).2).
Proof.
  apply (missing_f_port_raises_key_error strip all_fine keys_A_r1 [p1] [p2]
           (party_no_port "p3" 8022) true false false s0 _
           (returned_or []
              (connect_to_workers strip all_fine keys_A_r1 [p1] true false
                 false s0).1)).
  - vm_compute. reflexivity.
  - vm_compute. reflexivity.
Defined.

(** X23, on a second registration whose payload has a ['hook'] entry. *)
Lemma repeated_keyword_raises_type_error_witness :
  connect_to_workers strip all_fine keys_A_r1
    ([p1] ++ party_with_hook "p3" 8022 :: [p2]) true false false s0
  = (Raise TypeError,
     (connect_to_workers strip all_fine keys_A_r1 [p1] true false false
        s0).2).
Proof.
  apply (repeated_keyword_raises_type_error strip all_fine keys_A_r1 [p1] [p2]
           (party_with_hook "p3" 8022) true false false s0 _
           (returned_or []
              (connect_to_workers strip all_fine keys_A_r1 [p1] true false
                 false s0).1)).
  - vm_compute. reflexivity.
  - exists (VInt 5000). vm_compute. reflexivity.
  - left. exists (VStr "mine"). vm_compute. reflexivity.
Defined.

(** X10, on an environment in which the coordinator cannot be
    constructed. *)
Lemma connect_to_ttp_raises_only_from_constructor_witness :
  ttp_refused (trace s0)
    (New_worker VirtualWorker false (ttp_kwargs false false))
    = Some RuntimeError /\
  sy_local_worker (connect_to_ttp ttp_refused false false s0).2
    = sy_local_worker s0 /\
  grid_hook_local_worker (connect_to_ttp ttp_refused false false s0).2
    = grid_hook_local_worker s0.
Proof.
  apply (connect_to_ttp_raises_only_from_constructor ttp_refused false false
           s0).
  vm_compute. reflexivity.
Defined.

(** X14, on a run that refers to an experiment that is not listed. *)
Lemma nothing_scheduled_nothing_done_witness :
  start_proc me out strip all_fine paths (kwargs [expt "A"] [run "B" "r1"]) s0
  = (Ok [], s0).
Proof.
  apply (nothing_scheduled_nothing_done me out strip all_fine paths
           (kwargs [expt "A"] [run "B" "r1"]) s0).
  vm_compute. reflexivity.
Defined.

(** X15, on two run configurations. *)
Lemma load_selected_runs_one_per_entry_witness :
  match load_selected_runs all_fine
          [("r1", {[ "rounds" := VInt 2 ]}); ("r2", {[ "rounds" := VInt 5 ]})]
          s0 with
  | (Ok runs, s') =>
      runs = map (fun kp => (kp.1, Arguments kp.2))
               [("r1", {[ "rounds" := VInt 2 ]});
                ("r2", {[ "rounds" := VInt 5 ]})] /\
      trace s' =
        trace s0 ++ map (fun kp => Returned (New_Arguments kp.2))
                      [("r1", {[ "rounds" := VInt 2 ]});
                       ("r2", {[ "rounds" := VInt 5 ]})]
  | (Raise e, s') =>
      exists pre k p post,
        [("r1", {[ "rounds" := VInt 2 ]}); ("r2", {[ "rounds" := VInt 5 ]})]
          = pre ++ (k, p) :: post /\
        trace s' =
          trace s0 ++ map (fun kp => Returned (New_Arguments kp.2)) pre
                   ++ [Raised (New_Arguments p) e]
  end.
Proof.
  apply (load_selected_runs_one_per_entry all_fine).
  apply (bool_decide_unpack _). vm_compute. exact I.
Defined.

(** X16, on two model structures. *)
Lemma load_selected_models_one_per_entry_witness :
  match load_selected_models all_fine
          [("m1", VList [VStr "linear"]); ("m2", VList [VStr "conv"])] s0 with
  | (Ok models, s') =>
      models = map (fun kp => (kp.1, Model kp.2))
                 [("m1", VList [VStr "linear"]); ("m2", VList [VStr "conv"])] /\
      trace s' =
        trace s0 ++ map (fun kp => Returned (New_Model kp.2))
                      [("m1", VList [VStr "linear"]);
                       ("m2", VList [VStr "conv"])]
  | (Raise e, s') =>
      exists pre k p post,
        [("m1", VList [VStr "linear"]); ("m2", VList [VStr "conv"])]
          = pre ++ (k, p) :: post /\
        trace s' =
          trace s0 ++ map (fun kp => Returned (New_Model kp.2)) pre
                   ++ [Raised (New_Model p) e]
  end.
Proof.
  apply (load_selected_models_one_per_entry all_fine).
  apply (bool_decide_unpack _). vm_compute. exact I.
Defined.

(* ===================================================================== *)
(* Properties of the NNI tuner                                           *)
(* ===================================================================== *)

Section TunerProperties.

Variable src_dir : string.
Variable cores_used : pyval.
Variable gpu_count : pyval.
Variable oracle : list NNI.outcome -> NNI.action -> option exn.
Variable available_memory : list NNI.outcome -> Z.
Variable stdout_of : list NNI.outcome -> string -> string.

Lemma generate_search_config_run log_dir search_space h :
  NNI._generate_search_config oracle log_dir search_space h =
  match log_dir with
  | None => (Raise TypeError, h)
  | Some d =>
      let p := os_path_join d ["nni"; "search_space.json"] in
      match oracle h (NNI.Open_for_writing p) with
      | Some e => (Raise e, h ++ [NNI.Failed (NNI.Open_for_writing p) e])
      | None =>
          match oracle (h ++ [NNI.Done (NNI.Open_for_writing p)])
                  (NNI.Json_dump p search_space) with
          | Some e =>
              (Raise e,
               h ++ [NNI.Done (NNI.Open_for_writing p);
                     NNI.Failed (NNI.Json_dump p search_space) e])
          | None =>
              (Ok p,
               h ++ [NNI.Done (NNI.Open_for_writing p);
                     NNI.Done (NNI.Json_dump p search_space)])
          end
      end
  end.
Proof.
  unfold NNI._generate_search_config, NNI.join_log_dir, NNI.bind, NNI.act,
    NNI.ret, NNI.raise.
  destruct log_dir as [d |]; [| done]. simpl.
  destruct (oracle h _); [done |].
  destruct (oracle (h ++ _) _); by rewrite <- app_assoc.
Qed.

(** X17. [tune] never returns and never starts [nnictl]: its call of
    [_generate_tuning_config] does not pass the required argument
    [metric], so once the search space has been written the call raises
    TypeError; before that, [tune] ends with the exception of the step
    that failed (TypeError when the tuner has no [log_dir]). In no case
    is a tuning configuration written or a process run. *)
Theorem tune_never_reaches_nnictl (log_dir : option string)
    (project_id expt_id : string) (search_space : pyval)
    (tuner metric optimize_mode : string) (trial_concurrency : Z)
    (max_exec_duration : string) (max_trial_num : Z)
    (is_remote use_annotation : bool) (h : list NNI.outcome) :
  exists e d,
    NNI.tune src_dir cores_used gpu_count oracle available_memory stdout_of
      log_dir project_id expt_id search_space tuner metric optimize_mode
      trial_concurrency max_exec_duration max_trial_num is_remote
      use_annotation h = (Raise e, h ++ d) /\
    Forall (fun o => NNI.is_run_process o = false /\
                     NNI.is_yaml_dump o = false) d /\
    match log_dir with
    | None => e = TypeError /\ d = []
    | Some dir =>
        let p := os_path_join dir ["nni"; "search_space.json"] in
        match oracle h (NNI.Open_for_writing p) with
        | Some e1 => e = e1 /\ d = [NNI.Failed (NNI.Open_for_writing p) e1]
        | None =>
            match oracle (h ++ [NNI.Done (NNI.Open_for_writing p)])
                    (NNI.Json_dump p search_space) with
            | Some e2 =>
                e = e2 /\
                d = [NNI.Done (NNI.Open_for_writing p);
                     NNI.Failed (NNI.Json_dump p search_space) e2]
            | None =>
                e = TypeError /\
                d = [NNI.Done (NNI.Open_for_writing p);
                     NNI.Done (NNI.Json_dump p search_space)]
            end
        end
    end.
Proof.
  unfold NNI.tune. unfold NNI.bind at 1.
  rewrite generate_search_config_run.
  destruct log_dir as [dir |].
  - cbv zeta. destruct (oracle h _) as [e1 |].
    + eexists _, _. split; [reflexivity |]. split; [| done].
      by repeat constructor.
    + destruct (oracle (h ++ _) _) as [e2 |].
      * eexists _, _. split; [reflexivity |]. split; [| done].
        by repeat constructor.
      * eexists _, _. split; [reflexivity |]. split; [| done].
        by repeat constructor.
  - exists TypeError, []. rewrite app_nil_r. by repeat split.
Qed.

(** X18. A tuner constructed without a [log_dir] (the default) cannot
    write anything: [_generate_search_config] raises TypeError at once,
    and [_generate_tuning_config] always raises, without opening or
    writing any file. *)
Theorem tuner_without_log_dir_writes_nothing (search_space : pyval)
    (kw : NNI.tuning_config_kwargs) (h : list NNI.outcome) :
  NNI._generate_search_config oracle None search_space h
    = (Raise TypeError, h) /\
  exists e d,
    NNI._generate_tuning_config src_dir cores_used gpu_count oracle
      available_memory None kw h = (Raise e, h ++ d) /\
    Forall (fun o => NNI.is_file_action o = false) d.
Proof.
  split; [by rewrite generate_search_config_run |].
  unfold NNI._generate_tuning_config.
  destruct (NNI.a_project_id kw), (NNI.a_expt_id kw),
    (NNI.a_search_config_path kw), (NNI.a_tuner kw), (NNI.a_metric kw),
    (NNI.a_optimize_mode kw);
    try (exists TypeError, []; rewrite app_nil_r; by split).
  cbv zeta. unfold NNI.bind at 1. unfold NNI.query_memory.
  destruct (oracle h NNI.Available_memory) as [e |].
  - eexists _, _. split; [reflexivity |]. by repeat constructor.
  - eexists _, _. split; [reflexivity |]. by repeat constructor.
Qed.

(** X19. With a [log_dir], all six required arguments and no action
    raising, [_generate_tuning_config] queries the available memory and
    then writes one YAML document to <log_dir>/nni/config.yaml, the path
    it returns. The document has the ten NNI entries in the order
    authorName ... trial; arguments left out take their defaults: trial
    concurrency 1, maximum duration "1h", at most 10 trials, the remote
    platform and annotations on; the platform is "remote" or "local"
    according to [is_remote]. *)
Theorem tuning_config_written_with_defaults (dir : string)
    (kw : NNI.tuning_config_kwargs) (h : list NNI.outcome)
    (project_id expt_id search_config_path tuner metric optimize_mode
       : string) :
  (forall h' a, oracle h' a = None) ->
  NNI.a_project_id kw = Some project_id ->
  NNI.a_expt_id kw = Some expt_id ->
  NNI.a_search_config_path kw = Some search_config_path ->
  NNI.a_tuner kw = Some tuner ->
  NNI.a_metric kw = Some metric ->
  NNI.a_optimize_mode kw = Some optimize_mode ->
  exists cfg,
    let p := os_path_join dir ["nni"; "config.yaml"] in
    NNI._generate_tuning_config src_dir cores_used gpu_count oracle
      available_memory (Some dir) kw h
    = (Ok p,
       h ++ [NNI.Done NNI.Available_memory;
             NNI.Done (NNI.Open_for_writing p);
             NNI.Done (NNI.Yaml_dump p cfg)]) /\
    NNI.keys_of cfg =
      ["authorName"; "experimentName"; "trialConcurrency";
       "maxExecDuration"; "maxTrialNum"; "trainingServicePlatform";
       "searchSpacePath"; "useAnnotation"; "tuner"; "trial"] /\
    NNI.item_of "authorName" cfg = Some (VStr project_id) /\
    NNI.item_of "experimentName" cfg = Some (VStr expt_id) /\
    NNI.item_of "trialConcurrency" cfg =
      Some (VInt (default 1%Z (NNI.a_trial_concurrency kw))) /\
    NNI.item_of "maxExecDuration" cfg =
      Some (VStr (default "1h"%string (NNI.a_max_exec_duration kw))) /\
    NNI.item_of "maxTrialNum" cfg =
      Some (VInt (default 10%Z (NNI.a_max_trial_num kw))) /\
    NNI.item_of "trainingServicePlatform" cfg =
      Some (VStr (if default true (NNI.a_is_remote kw)
                  then "remote"%string else "local"%string)) /\
    NNI.item_of "searchSpacePath" cfg = Some (VStr search_config_path) /\
    NNI.item_of "useAnnotation" cfg =
      Some (VBool (default true (NNI.a_use_annotation kw))).
Proof.
  intros Hok H1 H2 H3 H4 H5 H6.
  unfold NNI._generate_tuning_config. rewrite H1, H2, H3, H4, H5, H6.
  cbv zeta.
  unfold NNI.bind, NNI.query_memory, NNI.join_log_dir, NNI.act, NNI.ret.
  repeat (rewrite Hok; simpl).
  eexists. split; [by rewrite <- !app_assoc |].
  by repeat split.
Qed.

End TunerProperties.

(** X19, on a call that leaves every optional argument out. *)
Lemma tuning_config_written_with_defaults_witness :
  exists cfg,
    let p := os_path_join "logs" ["nni"; "config.yaml"] in
    NNI._generate_tuning_config "src" (VInt 2) (VInt 0) NNI.calm
      NNI.memory_8g (Some "logs") NNI.sample_kwargs []
    = (Ok p,
       [] ++ [NNI.Done NNI.Available_memory;
              NNI.Done (NNI.Open_for_writing p);
              NNI.Done (NNI.Yaml_dump p cfg)]) /\
    NNI.keys_of cfg =
      ["authorName"; "experimentName"; "trialConcurrency";
       "maxExecDuration"; "maxTrialNum"; "trainingServicePlatform";
       "searchSpacePath"; "useAnnotation"; "tuner"; "trial"] /\
    NNI.item_of "authorName" cfg = Some (VStr "proj") /\
    NNI.item_of "experimentName" cfg = Some (VStr "A") /\
    NNI.item_of "trialConcurrency" cfg =
      Some (VInt (default 1%Z (NNI.a_trial_concurrency NNI.sample_kwargs))) /\
    NNI.item_of "maxExecDuration" cfg =
      Some (VStr (default "1h"%string
                    (NNI.a_max_exec_duration NNI.sample_kwargs))) /\
    NNI.item_of "maxTrialNum" cfg =
      Some (VInt (default 10%Z (NNI.a_max_trial_num NNI.sample_kwargs))) /\
    NNI.item_of "trainingServicePlatform" cfg =
      Some (VStr (if default true (NNI.a_is_remote NNI.sample_kwargs)
                  then "remote"%string else "local"%string)) /\
    NNI.item_of "searchSpacePath" cfg =
      Some (VStr "logs/nni/search_space.json") /\
    NNI.item_of "useAnnotation" cfg =
      Some (VBool (default true (NNI.a_use_annotation NNI.sample_kwargs))).
Proof.
  apply (tuning_config_written_with_defaults "src" (VInt 2) (VInt 0) NNI.calm
           NNI.memory_8g "logs" NNI.sample_kwargs [] "proj" "A"
           "logs/nni/search_space.json" "TPE" "accuracy" "maximize");
    reflexivity.
Defined.

(* ===================================================================== *)
(* The output directory of a combination                                 *)
(* ===================================================================== *)

Lemma string_app_assoc (a b c : string) :
  ((a ++ b) ++ c)%string = (a ++ b ++ c)%string.
Proof.
  induction a as [| x a IH]; [done |].
  change (String x ((a ++ b) ++ c) = String x (a ++ b ++ c))%string.
  by rewrite IH.
Qed.

Lemma ends_with_sep_app (a b : string) :
  b <> EmptyString -> ends_with_sep (a ++ b)%string = ends_with_sep b.
Proof.
  intros Hb. induction a as [| c a IH]; [done |].
  assert (Hab : (a ++ b)%string <> EmptyString)
    by (destruct a; [exact Hb | discriminate]).
  change (String c a ++ b)%string with (String c (a ++ b)%string).
  rewrite <- IH. by destruct (a ++ b)%string.
Qed.

Lemma path_join2_relative (path b : string) :
  path <> EmptyString -> ends_with_sep path = false ->
  starts_with_sep b = false ->
  path_join2 path b = (path ++ "/" ++ b)%string.
Proof.
  intros Hne Hend Hstart. unfold path_join2. rewrite Hstart, Hend.
  destruct path; [done | reflexivity].
Qed.

Lemma joined_not_empty (path b : string) :
  (path ++ "/" ++ b)%string <> EmptyString.
Proof. by destruct path. Qed.

Lemma joined_ends_with_sep (path b : string) :
  b <> EmptyString ->
  ends_with_sep (path ++ "/" ++ b)%string = ends_with_sep b.
Proof.
  intros Hb. rewrite ends_with_sep_app; [| by destruct b].
  destruct b; [done | reflexivity].
Qed.

(** X20. The directory handed to [mkdir] and [export] ignores [out_dir]
    when the run id starts with a slash: joining [out_dir] with the
    three ids then gives the run id itself. *)
Theorem absolute_run_id_leaves_out_dir (out_dir : string) (keys : run_key) :
  starts_with_sep (run_id keys) = true ->
  os_path_join out_dir [project_id keys; expt_id keys; run_id keys]
    = run_id keys.
Proof.
  intros Habs. unfold os_path_join. simpl. unfold path_join2 at 1.
  by rewrite Habs.
Qed.

(** X21. For a non-empty [out_dir] without a trailing slash and ids
    that are non-empty and have no leading or trailing slash, the
    directory of a combination is out_dir/project_id/expt_id/run_id. *)
Theorem relative_ids_nest_under_out_dir (out_dir : string) (keys : run_key) :
  out_dir <> EmptyString -> ends_with_sep out_dir = false ->
  project_id keys <> EmptyString ->
  starts_with_sep (project_id keys) = false ->
  ends_with_sep (project_id keys) = false ->
  expt_id keys <> EmptyString ->
  starts_with_sep (expt_id keys) = false ->
  ends_with_sep (expt_id keys) = false ->
  starts_with_sep (run_id keys) = false ->
  os_path_join out_dir [project_id keys; expt_id keys; run_id keys]
    = (out_dir ++ "/" ++ project_id keys ++ "/" ++ expt_id keys
         ++ "/" ++ run_id keys)%string.
Proof.
  intros Ho1 Ho2 Hp1 Hp2 Hp3 He1 He2 He3 Hr.
  unfold os_path_join. simpl.
  rewrite (path_join2_relative out_dir (project_id keys)) by done.
  rewrite (path_join2_relative _ (expt_id keys));
    [| apply joined_not_empty | by rewrite joined_ends_with_sep | done].
  rewrite (path_join2_relative _ (run_id keys));
    [| apply joined_not_empty | by rewrite joined_ends_with_sep | done].
  by rewrite !string_app_assoc.
Qed.

(** X20, on a run id that is an absolute path. *)
Lemma absolute_run_id_leaves_out_dir_witness :
  os_path_join "outputs"
    [project_id {| project_id := "proj"; expt_id := "A"; run_id := "/tmp/x" |};
     expt_id {| project_id := "proj"; expt_id := "A"; run_id := "/tmp/x" |};
     run_id {| project_id := "proj"; expt_id := "A"; run_id := "/tmp/x" |}]
  = run_id {| project_id := "proj"; expt_id := "A"; run_id := "/tmp/x" |}.
Proof.
  apply (absolute_run_id_leaves_out_dir "outputs"
           {| project_id := "proj"; expt_id := "A"; run_id := "/tmp/x" |}).
  reflexivity.
Defined.

(** X21, on the sample combination. *)
Lemma relative_ids_nest_under_out_dir_witness :
  os_path_join out
    [project_id keys_A_r1; expt_id keys_A_r1; run_id keys_A_r1]
  = (out ++ "/" ++ project_id keys_A_r1 ++ "/" ++ expt_id keys_A_r1
       ++ "/" ++ run_id keys_A_r1)%string.
Proof.
  apply (relative_ids_nest_under_out_dir out keys_A_r1);
    first [discriminate | reflexivity].
Defined.

(** X22, on the sample session whose [fit()] raises OSError. *)
Lemma swallowed_os_error_terminates_without_teardown_witness :
  exists s' d,
    start_expt_run_training me out strip fit_io_fails paths (params "A" "r1")
      s0 = (Raise UnboundLocalError, s') /\
    trace s' = trace s0 ++ d /\
    terminate_invocations d = 1 /\
    length (opened d) = length (p_registrations (params "A" "r1")) /\
    torn_down d = [] /\
    sy_local_worker s'
      = new_ttp (after_initialise (params "A" "r1") s0)
          (p_log_msgs (params "A" "r1")) (p_verbose (params "A" "r1")) /\
    grid_hook_local_worker s'
      = new_ttp (after_initialise (params "A" "r1") s0)
          (p_log_msgs (params "A" "r1")) (p_verbose (params "A" "r1")).
Proof.
  apply (swallowed_os_error_terminates_without_teardown me out strip
           fit_io_fails paths (params "A" "r1") s0 OSError).
  - intros tr c Hc. by destruct c.
  - intros tr. reflexivity.
  - reflexivity.
  - repeat constructor; exists (VInt 5000); vm_compute; reflexivity.
  - repeat (constructor; [split; vm_compute; reflexivity |]). constructor.
  - exists (VList [VStr "linear"]). vm_compute. reflexivity.
Defined.
